(** * Viral Daily: the video aggregation and scoring pipeline

    A shallow embedding of the aggregation core of the repository:
    [VideoAggregator] and the [GET /api/videos] handler of
    [backend/server.py], and the handler of [BULLETPROOF_SERVER.py].

    Conventions of the embedding.
    - Python [int] is [Z].  Python [float] is idealised as a real number
      ([R]): rounding is not modelled.  The [OverflowError] of an int that
      is too large for a float is modelled, in the conversion of an int and
      in the true division of two ints.  A product of floats beyond the
      range is infinite in Python and raises nothing; the scores are
      clamped from above, which takes an infinite product to the same
      value as the real one.
    - Text is a string of 8-bit characters, exact for ASCII text.  Text
      with other characters is held as its UTF-8 bytes: lengths and cuts
      then count bytes where Python counts code points, and the digits and
      blanks beyond ASCII that [\d] and [int] accept are not known here.
    - A Python call that may raise is a value of [exc A]; [try]/[except]
      is a [match] on it.
    - The outside world (environment variables, the YouTube and Twitter
      clients, the random generator, the clock, and the modules of the
      repository that [server.py] imports but that are not part of the
      sources at hand) is a record of functions, [World]. *)

From Stdlib Require Import ZArith List Bool Lia Lra String Ascii.
From Stdlib Require Import Reals DecimalString DecimalPos DecimalN.
From Stdlib Require Import Sorting.Permutation Sorting.Sorted.
Import ListNotations.

(** ** Python preliminaries *)

Module Py.

(** The exceptions the modelled code can meet. *)
Inductive PyError : Type :=
| ZeroDivisionError
| OverflowError
| ValueError
| KeyError (key : string)
| HttpError
| ImportError
| OtherError (msg : string).

Inductive exc (A : Type) : Type :=
| Ok (a : A)
| Raise (e : PyError).

Arguments Ok {A} a.
Arguments Raise {A} e.

Definition bind {A B : Type} (m : exc A) (k : A -> exc B) : exc B :=
  match m with
  | Ok a => k a
  | Raise e => Raise e
  end.

(** [try: m except Exception: h] *)
Definition try_except {A : Type} (m : exc A) (h : PyError -> exc A) : exc A :=
  match m with
  | Ok a => Ok a
  | Raise e => h e
  end.

(** The range of floats (binary64).  The largest float is
    [2^1024 - 2^971]; a number rounds to a float when its absolute value is
    below the midpoint between that and [2^1024], and is too large from
    this midpoint on (the tie goes to the even neighbour, [2^1024]). *)
Definition float_limit : Z := (2 ^ 1024 - 2 ^ 970)%Z.

(** [float(n)], also the conversion of the int in [n * 0.5]:
    [OverflowError] on an int too large for a float. *)
Definition float_of_int (n : Z) : exc R :=
  if (float_limit <=? Z.abs n)%Z then Raise OverflowError else Ok (IZR n).

(** [a / b] on two ints: true division, [ZeroDivisionError] on [b = 0] and
    [OverflowError] on a quotient too large for a float.  The quotient is
    a real number here. *)
Definition truediv (a b : Z) : exc R :=
  if (b =? 0)%Z then Raise ZeroDivisionError
  else if (float_limit * Z.abs b <=? Z.abs a)%Z then Raise OverflowError
  else Ok (IZR a / IZR b)%R.

(** [math.log10 x] on an int: [ValueError] outside the domain. *)
Definition log10 (x : Z) : exc R :=
  if (x <=? 0)%Z then Raise ValueError else Ok (ln (IZR x) / ln 10)%R.

(** [l[:n]]: the first [n] items, and for a negative [n] all but the last
    [-n] items. *)
Definition slice_to {A : Type} (l : list A) (n : Z) : list A :=
  if (0 <=? n)%Z then firstn (Z.to_nat n) l
  else firstn (List.length l - Z.to_nat (- n)) l.

(** [range(n)] *)
Definition range (n : Z) : list Z :=
  map Z.of_nat (seq 0 (Z.to_nat n)).

(** [l[i % len(l)]] for a non-empty table [l] with first row [d]. *)
Definition cycle_get {A : Type} (d : A) (l : list A) (i : Z) : A :=
  nth (Z.to_nat (i mod Z.of_nat (List.length l))) l d.

(** [str(n)] on an int. *)
Definition str_of_Z (n : Z) : string :=
  match n with
  | Zneg p => String "-" (NilEmpty.string_of_uint (Pos.to_uint p))
  | _ => NilEmpty.string_of_uint (N.to_uint (Z.to_N n))
  end.

(** [f"{n:02d}"]: the sign and digits of [n], zero-padded to a width of at
    least two characters. *)
Definition fmt_02d (n : Z) : string :=
  let s := str_of_Z n in
  if (String.length s <? 2)%nat then String "0" s else s.

(** [s.isascii()] *)
Fixpoint isascii (s : string) : bool :=
  match s with
  | EmptyString => true
  | String c s' => (N_of_ascii c <? 128)%N && isascii s'
  end.

(** [\d] on ASCII text. *)
Definition is_digit (c : ascii) : bool :=
  ((48 <=? N_of_ascii c) && (N_of_ascii c <=? 57))%N.

(** The blanks that [int] passes over in ASCII text: tab, line feed,
    vertical tab, form feed, carriage return and space. *)
Definition is_space (c : ascii) : bool :=
  (((9 <=? N_of_ascii c) && (N_of_ascii c <=? 13)) || (N_of_ascii c =? 32))%N.

Fixpoint lstrip (s : string) : string :=
  match s with
  | String c s' => if is_space c then lstrip s' else s
  | EmptyString => EmptyString
  end.

Fixpoint all_spaces (s : string) : bool :=
  match s with
  | EmptyString => true
  | String c s' => is_space c && all_spaces s'
  end.

(** The run of digits and underscores at the head of [s]: the value read
    so far, the number of digits (underscores are not counted) and the
    text after the run.  No result when two underscores meet or the run
    ends in one. *)
Fixpoint scan_digits (acc : Z) (n : nat) (after_underscore : bool)
  (s : string) : option (Z * nat * string) :=
  match s with
  | EmptyString =>
      if after_underscore then None else Some (acc, n, EmptyString)
  | String c s' =>
      if is_digit c
      then scan_digits (10 * acc + Z.of_N (N_of_ascii c - 48)) (S n) false s'
      else if Ascii.eqb c "_"
      then if after_underscore then None else scan_digits acc n true s'
      else if after_underscore then None else Some (acc, n, s)
  end.

(** The default of [sys.get_int_max_str_digits()] (CPython 3.11 and
    later): a decimal text of more digits is refused. *)
Definition max_str_digits : nat := 4300.

(** [int(s)] on ASCII text: blanks, an optional sign, decimal digits with
    single underscores between them, blanks; [ValueError] on anything
    else, and on more than [max_str_digits] digits. *)
Definition int_of_str (s : string) : exc Z :=
  let s1 := lstrip s in
  let '(negative, s2) :=
    match s1 with
    | String c r =>
        if Ascii.eqb c "+" then (false, r)
        else if Ascii.eqb c "-" then (true, r)
        else (false, s1)
    | EmptyString => (false, s1)
    end in
  match s2 with
  | String c _ =>
      if Ascii.eqb c "_" then Raise ValueError
      else
        match scan_digits 0 0 false s2 with
        | Some (value, n, rest) =>
            if (n =? 0)%nat then Raise ValueError
            else if negb (all_spaces rest) then Raise ValueError
            else if (max_str_digits <? n)%nat then Raise ValueError
            else Ok (if negative then (- value)%Z else value)
        | None => Raise ValueError
        end
  | EmptyString => Raise ValueError
  end.

(** [str(n)] and [f"{n}"] under the same limit: [ValueError] on an int of
    more than [max_str_digits] digits.  The plain [str_of_Z] is used
    where the int is bounded well below that: a random draw, a loop index,
    a number that [int] has just read. *)
Definition str_of_int (n : Z) : exc string :=
  if (max_str_digits <? String.length (str_of_Z (Z.abs n)))%nat
  then Raise ValueError else Ok (str_of_Z n).

(** The number that a text of decimal digits writes. *)
Fixpoint digits_value (acc : Z) (s : string) : exc Z :=
  match s with
  | EmptyString => Ok acc
  | String c s' =>
      if is_digit c
      then digits_value (10 * acc + Z.of_N (N_of_ascii c - 48)) s'
      else Raise ValueError
  end.

(** [round(x, 1)] on a float: the nearest tenth, a tie going to the even
    neighbour. *)
Definition round_half_even (y : R) : Z :=
  let f := Int_part y in
  let r := (y - IZR f)%R in
  if Rlt_dec r (/ 2) then f
  else if Rlt_dec (/ 2) r then (f + 1)%Z
  else if Z.even f then f else (f + 1)%Z.

Definition round1 (x : R) : R :=
  (IZR (round_half_even (x * 10)) / 10)%R.

(** [f"{n:,}"]: the digits of [n] in groups of three. *)
Fixpoint commas (k : nat) (rev_digits : list ascii) : list ascii :=
  match rev_digits with
  | [] => []
  | c :: rest =>
      match k, rest with
      | 2%nat, _ :: _ => c :: ","%char :: commas 0 rest
      | _, _ => c :: commas (S k) rest
      end
  end.

Definition fmt_thousands (n : Z) : string :=
  let digits := list_ascii_of_string (str_of_Z (Z.abs n)) in
  let grouped := string_of_list_ascii (rev (commas 0 (rev digits))) in
  if (n <? 0)%Z then String "-" grouped else grouped.

(** [str(e)] *)
Definition error_text (e : PyError) : string :=
  match e with
  | ZeroDivisionError => "division by zero"
  | OverflowError => "int too large to convert to float"
  | ValueError => "invalid value"
  | KeyError key => key
  | HttpError => "HttpError"
  | ImportError => "ImportError"
  | OtherError msg => msg
  end.

(** What the web framework sends for a handler that returns a body, and
    for one that raises [HTTPException]. *)
Inductive HttpResult (A : Type) : Type :=
| Http200 (body : A)
| HttpException (status_code : Z) (detail : string).

Arguments Http200 {A} body.
Arguments HttpException {A} status_code detail.

End Py.

Import Py.

Declare Scope exc_scope.
Delimit Scope exc_scope with exc.
Notation "x <- m ;; k" := (bind m (fun x => k))
  (at level 61, m at next level, right associativity) : exc_scope.
Open Scope exc_scope.

(** ** Data model

    [models.py] and [subscription_plans.py] are imported by [server.py] but
    are not among the sources; the types below are read off the way
    [server.py] builds and uses their values. *)

Module Model.

(** Modelled from the spec: the enum [models.Platform].  It has the three
    platforms of the data model; the handler and the thumbnail generator
    keep a default branch for any further member (the test-suite looks
    for records of a platform [advertisement]), which [OTHER] stands
    for. *)
Inductive Platform : Type :=
| YOUTUBE
| TIKTOK
| TWITTER
| OTHER (name : string).

Definition platform_value (p : Platform) : string :=
  match p with
  | YOUTUBE => "youtube"
  | TIKTOK => "tiktok"
  | TWITTER => "twitter"
  | OTHER name => name
  end.

(** Modelled from the spec: the record [models.ViralVideo], with the
    fields that [server.py] passes to its constructor.  A field that some
    call leaves out is optional.  Times are seconds on the UTC clock. *)
Record ViralVideo : Type := {
  title : string;
  url : string;
  thumbnail : string;
  platform : Platform;
  views : Z;
  likes : Z;
  shares : option Z;
  author : string;
  duration : option string;
  description : option string;
  viral_score : R;
  published_at : Z
}.

(** Modelled from the spec: [models.SubscriptionTier], [models.User] and
    the plan record of [subscription_plans.py], as far as the aggregation
    reads them. *)
Inductive SubscriptionTier : Type := FREE | PRO | BUSINESS.

Record SubscriptionPlan : Type := {
  max_videos_per_day : Z;
  has_ads : bool
}.

Record User : Type := {
  subscription_tier : SubscriptionTier
}.

End Model.

Import Model.

(** ** The outside world *)

Module Env.

(** One item of the YouTube [videos().list] answer, as far as
    [fetch_youtube_viral_videos] reads it.  A key that may be absent is an
    [option]; of each thumbnail entry only its [url] is kept. *)
Record Thumbnails : Type := {
  maxresdefault : option string;
  standard : option string;
  high : option string;
  medium : option string;
  default : option string
}.

Record Snippet : Type := {
  sn_title : option string;
  channelTitle : option string;
  publishedAt : option string;
  thumbnails : option Thumbnails;
  sn_description : option string
}.

Record Statistics : Type := {
  viewCount : option string;
  likeCount : option string
}.

Record ContentDetails : Type := {
  cd_duration : option string
}.

Record YouTubeItem : Type := {
  id : option string;
  snippet : option Snippet;
  statistics : option Statistics;
  contentDetails : option ContentDetails
}.

(** The answer of tweepy's [search_recent_tweets]. *)
Record Metrics : Type := {
  like_count : option Z;
  retweet_count : option Z;
  reply_count : option Z;
  impression_count : option Z
}.

Record Tweet : Type := {
  tweet_id : Z;
  text : string;
  author_id : Z;
  public_metrics : option Metrics;
  created_at : option Z
}.

Record TwitterUser : Type := {
  user_id : Z;
  username : string
}.

Record TwitterResponse : Type := {
  data : option (list Tweet);
  includes_users : option (list TwitterUser)
}.

(** [tiktok_service.TikTokService], as [server.py] would call it. *)
Record TikTokService : Type := {
  fetch_trending_videos : Z -> exc (list ViralVideo)
}.

(** [advertising.AdvertisingService] (not among the sources): the two
    methods the handler calls, over whatever type the ads have. *)
Record AdvertisingService : Type := {
  Ad : Type;
  get_ads_for_platform : option Platform -> option User -> exc (list Ad);
  inject_ads_into_videos :
    list ViralVideo -> list Ad -> option User -> exc (list ViralVideo)
}.

(** The random generator, read as a tape of raw draws: the [k]-th integer
    draw and the [k]-th draw of [random.random()]. *)
Record Random : Type := {
  raw_int : nat -> Z;
  raw_unit : nat -> R
}.

Record World : Type := {
  (** [os.getenv] *)
  YOUTUBE_API_KEY : option string;
  TWITTER_BEARER_TOKEN : option string;
  (** [googleapiclient]: [build(...)], and [videos().list(...).execute()]
      as a function of [maxResults], giving the [items] of the answer *)
  youtube_build : exc unit;
  youtube_videos_list : Z -> exc (list YouTubeItem);
  (** [datetime.fromisoformat] on the text of [publishedAt] *)
  fromisoformat : string -> exc Z;
  (** [tweepy]: the import with the client, and [search_recent_tweets] as
      a function of [max_results] *)
  tweepy_client : exc unit;
  search_recent_tweets : Z -> exc TwitterResponse;
  (** [datetime.utcnow()] *)
  utcnow : Z;
  (** [random]; each fetcher reads a tape of its own (they run as separate
      tasks, in an order the code does not fix) *)
  random : Platform -> Random;
  (** [urllib.parse.quote] *)
  quote : string -> string;
  (** [subscription_plans.get_plan] *)
  get_plan : SubscriptionTier -> exc SubscriptionPlan;
  (** the module-level [advertising_service], [None] without a database *)
  advertising_service : option AdvertisingService
}.

(** [random.randint(a, b)], the [k]-th draw of tape [g]. *)
Definition randint (g : Random) (k : nat) (a b : Z) : Z :=
  (a + raw_int g k mod (b - a + 1))%Z.

(** [random.uniform(a, b)], the [k]-th draw of tape [g]. *)
Definition uniform (g : Random) (k : nat) (a b : R) : R :=
  (a + (b - a) * raw_unit g k)%R.

(** Truth value of an optional text: [None] and [''] are false. *)
Definition truthy (s : option string) : bool :=
  match s with
  | Some (String _ _) => true
  | _ => false
  end.

End Env.

Import Env.

(** ** [VideoAggregator.calculate_viral_score] (backend/server.py) *)

Module Score.

Open Scope R_scope.

Definition calculate_viral_score (views likes days_old : Z) : exc R :=
  if (views =? 0)%Z then Ok 0
  else
    lg <- log10 (Z.max views 1) ;;
    let view_score := lg * 10 in
    engagement_ratio <-
      (if negb (likes =? 0)%Z && (views >? 0)%Z
       then truediv likes views else Ok 0) ;;
    let engagement_score := engagement_ratio * 100 in
    days <- float_of_int days_old ;;
    let recency_multiplier := Rmax 1 (10 - days * / 2) in
    let viral_score := (view_score + engagement_score) * recency_multiplier in
    Ok (Rmin viral_score 100).

(** The value computed on the main path, for positive [views]. *)
Definition raw_score (views likes days_old : Z) : R :=
  (ln (IZR views) / ln 10 * 10 + IZR likes / IZR views * 100)
  * Rmax 1 (10 - IZR days_old * / 2).

End Score.

(** ** [VideoAggregator.parse_duration] (backend/server.py) *)

Module Duration.

Open Scope string_scope.

(** The longest prefix of digits, and what follows it. *)
Fixpoint span_digits (s : string) : string * string :=
  match s with
  | EmptyString => (EmptyString, EmptyString)
  | String c s' =>
      if is_digit c
      then let (ds, rest) := span_digits s' in (String c ds, rest)
      else (EmptyString, s)
  end.

(** One optional group [(?:(\d+)U)?] at the head of [s]: the captured
    digits, if the group takes part in the match, and the rest of the
    text.  The digits are a greedy run and the unit letter is no digit, so
    giving digits back never helps: the group takes part exactly when the
    whole run is non-empty and followed by the unit letter. *)
Definition optional_group (unit : ascii) (s : string)
  : option string * string :=
  match span_digits s with
  | (String d ds, String c rest) =>
      if Ascii.eqb c unit then (Some (String d ds), rest) else (None, s)
  | _ => (None, s)
  end.

(** [re.match(r'PT(?:(\d+)H)?(?:(\d+)M)?(?:(\d+)S)?', s)] and its
    [groups()]; [None] when the text does not start with [PT]. *)
Definition re_match (s : string)
  : option (option string * option string * option string) :=
  match s with
  | String c1 (String c2 s0) =>
      if (Ascii.eqb c1 "P" && Ascii.eqb c2 "T")%bool
      then
        let (h, s1) := optional_group "H" s0 in
        let (m, s2) := optional_group "M" s1 in
        let (sec, _) := optional_group "S" s2 in
        Some (h, m, sec)
      else None
  | _ => None
  end.

(** [int(g) if g else 0] *)
Definition int_or_zero (g : option string) : exc Z :=
  match g with
  | Some (String c g') => int_of_str (String c g')
  | _ => Ok 0%Z
  end.

Definition parse_duration (duration : string) : exc string :=
  if duration =? "" then Ok "0:00"
  else
    match re_match duration with
    | None => Ok "0:00"
    | Some (hours, minutes, seconds) =>
        hours <- int_or_zero hours ;;
        minutes <- int_or_zero minutes ;;
        seconds <- int_or_zero seconds ;;
        if (hours >? 0)%Z
        then Ok (str_of_Z hours ++ ":" ++ fmt_02d minutes
                 ++ ":" ++ fmt_02d seconds)
        else Ok (str_of_Z minutes ++ ":" ++ fmt_02d seconds)
    end.

(** The hours, minutes and seconds the pattern captured (0 for a part it
    did not capture, all 0 when the pattern does not match), for stating
    which form the result takes. *)
Definition group_value (g : option string) : Z :=
  match int_or_zero g with
  | Ok n => n
  | Raise _ => 0%Z
  end.

Definition parsed_fields (duration : string) : Z * Z * Z :=
  match re_match duration with
  | Some (h, m, s) => (group_value h, group_value m, group_value s)
  | None => (0, 0, 0)%Z
  end.

(** The three groups, none of them when the pattern does not match. *)
Definition groups (duration : string)
  : option string * option string * option string :=
  match re_match duration with
  | Some g => g
  | None => (None, None, None)
  end.

Definition digit_count (g : option string) : nat :=
  match g with
  | Some x => String.length x
  | None => 0
  end.

(** No captured group has more digits than [int] takes. *)
Definition within_digit_limit (duration : string) : bool :=
  let '(h, m, s) := groups duration in
  ((digit_count h <=? max_str_digits)%nat
   && (digit_count m <=? max_str_digits)%nat
   && (digit_count s <=? max_str_digits)%nat)%bool.

(** *** Display shapes of a duration

    The data model gives a duration the display shape [M:SS] or
    [H:MM:SS].  The checkers below read a text back: they cut it at the
    colons and look at each field. *)

Fixpoint all_digits (s : string) : bool :=
  match s with
  | EmptyString => true
  | String c s' => is_digit c && all_digits s'
  end.

Fixpoint split_colon (s : string) : list string :=
  match s with
  | EmptyString => [EmptyString]
  | String c s' =>
      if Ascii.eqb c ":" then EmptyString :: split_colon s'
      else
        match split_colon s' with
        | f :: fs => String c f :: fs
        | [] => [String c EmptyString]
        end
  end.

Definition number (f : string) : bool :=
  negb (f =? "") && all_digits f.

Definition two_digits (f : string) : bool :=
  (String.length f =? 2)%nat && all_digits f.

Definition two_or_more_digits (f : string) : bool :=
  (2 <=? String.length f)%nat && all_digits f.

(** [M:SS], seconds of exactly two digits. *)
Definition is_m_ss (out : string) : bool :=
  match split_colon out with
  | [m; s] => number m && two_digits s
  | _ => false
  end.

(** [H:MM:SS], minutes and seconds of exactly two digits. *)
Definition is_h_mm_ss (out : string) : bool :=
  match split_colon out with
  | [h; m; s] => number h && two_digits m && two_digits s
  | _ => false
  end.

(** The same two shapes with padded fields of two digits or more. *)
Definition is_m_ss_wide (out : string) : bool :=
  match split_colon out with
  | [m; s] => number m && two_or_more_digits s
  | _ => false
  end.

Definition is_h_mm_ss_wide (out : string) : bool :=
  match split_colon out with
  | [h; m; s] => number h && two_or_more_digits m && two_or_more_digits s
  | _ => false
  end.

(** A field that writes the number [v], and one that writes it padded:
    two digits or more, and exactly two when [v] is below 100. *)
Definition reads (f : string) (v : Z) : Prop :=
  number f = true /\ digits_value 0 f = Ok v.

Definition reads_padded (f : string) (v : Z) : Prop :=
  two_or_more_digits f = true /\ digits_value 0 f = Ok v /\
  (two_digits f = true <-> (v < 100)%Z).

(** The text [out] shows [h] hours, [m] minutes and [s] seconds: with the
    hours in front exactly when there are some. *)
Definition shows (out : string) (h m s : Z) : Prop :=
  match split_colon out with
  | [fh; fm; fs] =>
      (0 < h)%Z /\ reads fh h /\ reads_padded fm m /\ reads_padded fs s
  | [fm; fs] => (h <= 0)%Z /\ reads fm m /\ reads_padded fs s
  | _ => False
  end.

End Duration.

(** ** [VideoAggregator] (backend/server.py) *)

Module VideoAggregator.

Import Score Duration.
Open Scope string_scope.

(** *** Small Python idioms *)

(** [d[key]]: [KeyError] on an absent key. *)
Definition require {A : Type} (key : string) (o : option A) : exc A :=
  match o with
  | Some a => Ok a
  | None => Raise (KeyError key)
  end.

(** [d.get(key, default)] *)
Definition get_default {A : Type} (o : option A) (d : A) : A :=
  match o with
  | Some a => a
  | None => d
  end.

(** [x or y] on texts, [x] possibly [None]. *)
Definition or_else (x : option string) (y : string) : string :=
  match x with
  | Some (String c r) => String c r
  | _ => y
  end.

(** A [for] loop whose body is wrapped in [try: ... except: continue]:
    the items whose processing raises are skipped. *)
Fixpoint collect {A B : Type} (f : A -> exc B) (l : list A) : list B :=
  match l with
  | [] => []
  | a :: l' =>
      match f a with
      | Ok b => b :: collect f l'
      | Raise _ => collect f l'
      end
  end.

(** [int(x)] on a float: truncation toward zero. *)
Definition int_of_float (x : R) : Z :=
  if Rle_dec 0 x then Int_part x else (- Int_part (- x))%Z.

(** [s.replace('Z', '+00:00')] *)
Fixpoint replace_Z (s : string) : string :=
  match s with
  | EmptyString => EmptyString
  | String c s' =>
      if Ascii.eqb c "Z" then "+00:00" ++ replace_Z s'
      else String c (replace_Z s')
  end.

(** [videos.sort(key=lambda x: x.viral_score, reverse=True)]: a stable
    sort, larger scores first; records of equal score keep their order. *)
Fixpoint insert_by_score (v : ViralVideo) (l : list ViralVideo)
  : list ViralVideo :=
  match l with
  | [] => [v]
  | w :: l' =>
      if Rle_dec (viral_score w) (viral_score v)
      then v :: w :: l'
      else w :: insert_by_score v l'
  end.

Definition sort_by_score (l : list ViralVideo) : list ViralVideo :=
  fold_right insert_by_score [] l.

(** *** [generate_platform_thumbnail] *)

(** The template is written here with single quotes where the source has
    double quotes. *)
Fixpoint double_quoted (s : string) : string :=
  match s with
  | EmptyString => EmptyString
  | String c s' =>
      String (if Ascii.eqb c "'" then ascii_of_nat 34 else c)
             (double_quoted s')
  end.

Definition newline : string := String (ascii_of_nat 10) EmptyString.

(** colour, icon and name of a platform *)
Definition platform_config (p : Platform) : string * string * string :=
  match p with
  | TIKTOK => ("#000000", "🎵", "TIKTOK")
  | TWITTER => ("#1DA1F2", "🐦", "TWITTER")
  | YOUTUBE => ("#FF0000", "📺", "YOUTUBE")
  | OTHER _ => ("#6B7280", "🎬", "VIDEO")
  end.

Definition svg_content (color icon name : string) (score : Z)
  (display_title : string) : string :=
  let text_at (y size rest : string) : string :=
    double_quoted ("            <text x='200' y='" ++ y
                   ++ "' text-anchor='middle' fill='white' font-size='"
                   ++ size ++ "' " ++ rest) in
  String.concat newline [
    double_quoted
      "<svg width='400' height='225' xmlns='http://www.w3.org/2000/svg'>";
    double_quoted "            <rect width='400' height='225' fill='"
      ++ color ++ double_quoted "'/>";
    double_quoted
      "            <rect x='0' y='0' width='400' height='225' fill='url(#grad1)' opacity='0.1'/>";
    "            <defs>";
    double_quoted
      "                <linearGradient id='grad1' x1='0%' y1='0%' x2='100%' y2='100%'>";
    double_quoted
      "                    <stop offset='0%' style='stop-color:white;stop-opacity:0.3' />";
    double_quoted
      "                    <stop offset='100%' style='stop-color:white;stop-opacity:0' />";
    "                </linearGradient>";
    "            </defs>";
    text_at "80" "40" "font-weight='bold'>" ++ icon ++ "</text>";
    text_at "110" "20" "font-weight='bold'>" ++ name ++ "</text>";
    text_at "135" "16" "opacity='0.9'>Viral Score: " ++ str_of_Z score
      ++ "</text>";
    text_at "160" "12" "opacity='0.7'>VIRAL DAILY</text>";
    double_quoted
      "            <rect x='10' y='190' width='380' height='25' fill='rgba(255,255,255,0.1)' rx='5'/>";
    text_at "207" "11" "opacity='0.8'>" ++ display_title ++ "</text>";
    "        </svg>"
  ].

Definition generate_platform_thumbnail (w : World) (platform : Platform)
  (viral_score : R) (title : string) : string :=
  let '(color, icon, name) := platform_config platform in
  let display_title :=
    if (30 <? String.length title)%nat
    then substring 0 30 title ++ "..." else title in
  let score :=
    if Req_dec_T viral_score 0 then 0%Z else int_of_float viral_score in
  "data:image/svg+xml;charset=utf-8,"
  ++ quote w (svg_content color icon name score display_title).

(** *** YouTube *)

Definition get_youtube_service (w : World) : option unit :=
  if negb (truthy (YOUTUBE_API_KEY w)) then None
  else
    match youtube_build w with
    | Ok service => Some service
    | Raise _ => None
    end.

Record YouTubeRow : Type := {
  yt_id : string;
  yt_title : string;
  yt_channel : string;
  yt_views : Z;
  yt_likes : Z
}.

Record TikTokRow : Type := {
  tt_username : string;
  tt_title : string;
  tt_views : Z;
  tt_likes : Z
}.

Record TwitterRow : Type := {
  tw_username : string;
  tw_tweet_id : string;
  tw_title : string;
  tw_views : Z;
  tw_likes : Z
}.

Definition real_youtube_data : list YouTubeRow := [
  {| yt_id := "dQw4w9WgXcQ";
     yt_title := "Rick Astley - Never Gonna Give You Up (Official Video)";
     yt_channel := "Rick Astley";
     yt_views := 1400000000;
     yt_likes := 15000000 |};
  {| yt_id := "9bZkp7q19f0";
     yt_title := "PSY - GANGNAM STYLE(강남스타일) M/V";
     yt_channel := "officialpsy";
     yt_views := 4900000000;
     yt_likes := 24000000 |};
  {| yt_id := "kJQP7kiw5Fk";
     yt_title := "Luis Fonsi - Despacito ft. Daddy Yankee";
     yt_channel := "LuisFonsiVEVO";
     yt_views := 8200000000;
     yt_likes := 48000000 |};
  {| yt_id := "fJ9rUzIMcZQ";
     yt_title := "Queen - Bohemian Rhapsody (Official Video Remastered)";
     yt_channel := "Queen Official";
     yt_views := 1800000000;
     yt_likes := 12000000 |};
  {| yt_id := "YQHsXMglC9A";
     yt_title := "Adele - Hello (Official Music Video)";
     yt_channel := "AdeleVEVO";
     yt_views := 3100000000;
     yt_likes := 18000000 |};
  {| yt_id := "JGwWNGJdvx8";
     yt_title := "Ed Sheeran - Shape of You (Official Video)";
     yt_channel := "Ed Sheeran";
     yt_views := 5700000000;
     yt_likes := 32000000 |};
  {| yt_id := "hTWKbfoikeg";
     yt_title := "Nirvana - Smells Like Teen Spirit (Official Music Video)";
     yt_channel := "Nirvana";
     yt_views := 1500000000;
     yt_likes := 11000000 |};
  {| yt_id := "60ItHLz5WEA";
     yt_title := "Alan Walker - Faded";
     yt_channel := "Alan Walker";
     yt_views := 3300000000;
     yt_likes := 19000000 |}
].

Definition tiktok_creators_data : list TikTokRow := [
  {| tt_username := "khaby.lame";
     tt_title := "This transition hit different 🔥";
     tt_views := 47300000;
     tt_likes := 8900000 |};
  {| tt_username := "charlidamelio";
     tt_title := "Teaching my mom this dance 💃";
     tt_views := 35800000;
     tt_likes := 6700000 |};
  {| tt_username := "addisonre";
     tt_title := "POV: You're the main character ✨";
     tt_views := 28400000;
     tt_likes := 5200000 |};
  {| tt_username := "zachking";
     tt_title := "Magic tricks that will blow your mind 🪄";
     tt_views := 41200000;
     tt_likes := 7800000 |};
  {| tt_username := "bellapoarch";
     tt_title := "This sound is everywhere now 🎵";
     tt_views := 52600000;
     tt_likes := 9100000 |};
  {| tt_username := "dixiedamelio";
     tt_title := "Trying viral TikTok hacks part 47";
     tt_views := 22100000;
     tt_likes := 4300000 |};
  {| tt_username := "spencerx";
     tt_title := "Beatboxing to viral sounds 🎤";
     tt_views := 18700000;
     tt_likes := 3600000 |};
  {| tt_username := "mrbeast";
     tt_title := "I Gave $100,000 To Random TikTokers";
     tt_views := 89200000;
     tt_likes := 12400000 |}
].

Definition twitter_data : list TwitterRow := [
  {| tw_username := "MrBeast";
     tw_tweet_id := "1816797864340054018";
     tw_title := "I'm giving away $1,000,000 to random followers! 💰";
     tw_views := 12800000;
     tw_likes := 2100000 |};
  {| tw_username := "elonmusk";
     tw_tweet_id := "1815736731766399436";
     tw_title := "Mars colony update: We're closer than you think 🚀";
     tw_views := 45200000;
     tw_likes := 3800000 |};
  {| tw_username := "TheRock";
     tw_tweet_id := "1814567890123456789";
     tw_title := "The grind never stops. What's your Monday motivation? 💪";
     tw_views := 8900000;
     tw_likes := 1200000 |};
  {| tw_username := "RyanReynolds";
     tw_tweet_id := "1813456789012345678";
     tw_title := "Blake told me to tweet this. I don't know why. 🤷‍♂️";
     tw_views := 6700000;
     tw_likes := 890000 |};
  {| tw_username := "justinbieber";
     tw_tweet_id := "1812345678901234567";
     tw_title := "New music dropping soon! Thanks for all the love ❤️";
     tw_views := 15600000;
     tw_likes := 2800000 |};
  {| tw_username := "ArianaGrande";
     tw_tweet_id := "1811234567890123456";
     tw_title := "thank u, next (but make it a tweet) ✨";
     tw_views := 11400000;
     tw_likes := 1900000 |};
  {| tw_username := "taylorswift13";
     tw_tweet_id := "1810123456789012345";
     tw_title := "The vault has secrets... 🔐 #TaylorSwift";
     tw_views := 28900000;
     tw_likes := 4200000 |};
  {| tw_username := "rihanna";
     tw_tweet_id := "1809012345678901234";
     tw_title := "Fenty Beauty x Savage X Fenty collab coming 👑";
     tw_views := 9800000;
     tw_likes := 1500000 |};
  {| tw_username := "kimkardashian";
     tw_tweet_id := "1808901234567890123";
     tw_title := "SKIMS new drop has me obsessed 😍";
     tw_views := 7600000;
     tw_likes := 980000 |};
  {| tw_username := "chancetherapper";
     tw_tweet_id := "1807890123456789012";
     tw_title := "Grateful for another day to spread positivity 🙏";
     tw_views := 3400000;
     tw_likes := 520000 |}
].

Definition no_youtube_row : YouTubeRow :=
  {| yt_id := ""; yt_title := ""; yt_channel := "";
     yt_views := 0; yt_likes := 0 |}.

(** One round of the loop of [_get_youtube_mock_data]; round [i] takes the
    integer draws [5 i .. 5 i + 4] and the [i]-th uniform draw. *)
Definition youtube_mock_video (w : World) (i : Z) : ViralVideo :=
  let video_data := cycle_get no_youtube_row real_youtube_data i in
  let g := random w YOUTUBE in
  let k := (5 * Z.to_nat i)%nat in
  {| title := yt_title video_data;
     url := "https://www.youtube.com/watch?v=" ++ yt_id video_data;
     thumbnail :=
       "https://i.ytimg.com/vi/" ++ yt_id video_data ++ "/hqdefault.jpg";
     platform := YOUTUBE;
     views := yt_views video_data + randint g k (-50000000) 50000000;
     likes := yt_likes video_data + randint g (k + 1) (-100000) 100000;
     shares := None;
     author := yt_channel video_data;
     duration :=
       Some (str_of_Z (randint g (k + 2) 2 5) ++ ":"
             ++ fmt_02d (randint g (k + 3) 10 59));
     description := None;
     viral_score := uniform g (Z.to_nat i) 85 95;
     published_at := utcnow w - 3600 * randint g (k + 4) 1 48 |}.

Definition _get_youtube_mock_data (w : World) (limit : Z)
  : list ViralVideo :=
  map (youtube_mock_video w) (range limit).

Definition no_thumbnails : Thumbnails :=
  {| maxresdefault := None; standard := None; high := None;
     medium := None; default := None |}.

(** The best thumbnail: the first non-empty [url] of the first four
    entries, else the [url] of [default], else the empty text. *)
Definition best_thumbnail (t : Thumbnails) : string :=
  or_else (maxresdefault t)
    (or_else (standard t)
       (or_else (high t)
          (or_else (medium t) (get_default (default t) "")))).

(** [int(statistics.get(key, 0))] *)
Definition count_of (o : option string) : exc Z :=
  match o with
  | Some t => int_of_str t
  | None => Ok 0%Z
  end.

(** The body of the loop over the items of the answer. *)
Definition process_youtube_item (w : World) (item : YouTubeItem)
  : exc ViralVideo :=
  snippet <- require "snippet" (snippet item) ;;
  statistics <- require "statistics" (statistics item) ;;
  content_details <- require "contentDetails" (contentDetails item) ;;
  video_id <- require "id" (id item) ;;
  let title := get_default (sn_title snippet) "Untitled" in
  let channel_title :=
    get_default (channelTitle snippet) "Unknown Channel" in
  published_text <- require "publishedAt" (publishedAt snippet) ;;
  published_at <- fromisoformat w (replace_Z published_text) ;;
  views <- count_of (viewCount statistics) ;;
  likes <- count_of (likeCount statistics) ;;
  duration <- parse_duration (get_default (cd_duration content_details) "") ;;
  let days_old := ((utcnow w - published_at) / 86400)%Z in
  viral_score <- calculate_viral_score views likes days_old ;;
  let thumbnail_url :=
    best_thumbnail (get_default (thumbnails snippet) no_thumbnails) in
  Ok {| title := title;
        url := "https://www.youtube.com/watch?v=" ++ video_id;
        thumbnail := thumbnail_url;
        platform := YOUTUBE;
        views := views;
        likes := likes;
        shares := None;
        author := channel_title;
        duration := Some duration;
        description :=
          Some (if truthy (sn_description snippet)
                then substring 0 200 (get_default (sn_description snippet) "")
                     ++ "..."
                else "");
        viral_score := viral_score;
        published_at := published_at |}.

Definition fetch_youtube_viral_videos (w : World) (limit : Z)
  : exc (list ViralVideo) :=
  match get_youtube_service w with
  | None => Ok (_get_youtube_mock_data w limit)
  | Some youtube =>
      match
        items <- youtube_videos_list w limit ;;
        Ok (sort_by_score (collect (process_youtube_item w) items))
      with
      | Ok videos => Ok (slice_to videos limit)
      | Raise _ =>
          (* [except HttpError] and [except Exception] do the same *)
          Ok (_get_youtube_mock_data w limit)
      end
  end.

(** *** TikTok *)

(** The module-level [tiktok_service]: the import is disabled in
    [server.py], so the name stays bound to [None]. *)
Definition tiktok_service : option TikTokService := None.

Definition no_tiktok_row : TikTokRow :=
  {| tt_username := ""; tt_title := ""; tt_views := 0; tt_likes := 0 |}.

(** One round of the loop of [get_mock_tiktok_data]; round [i] takes the
    integer draws [5 i .. 5 i + 4] and the [i]-th uniform draw. *)
Definition tiktok_mock_video (w : World) (i : Z) : ViralVideo :=
  let creator_data := cycle_get no_tiktok_row tiktok_creators_data i in
  let g := random w TIKTOK in
  let k := (5 * Z.to_nat i)%nat in
  let video_id :=
    (7000000000000000000
     + randint g k 100000000000000000 999999999999999999)%Z in
  {| title := tt_title creator_data;
     url := "https://www.tiktok.com/@" ++ tt_username creator_data
            ++ "/video/" ++ str_of_Z video_id;
     thumbnail :=
       generate_platform_thumbnail w TIKTOK (85 - IZR i * 2)
         (tt_title creator_data);
     platform := TIKTOK;
     views := tt_views creator_data + randint g (k + 1) (-2000000) 2000000;
     likes := tt_likes creator_data + randint g (k + 2) (-100000) 100000;
     shares := None;
     author := "@" ++ tt_username creator_data;
     duration := Some ("0:" ++ fmt_02d (randint g (k + 3) 15 59));
     description := None;
     viral_score := uniform g (Z.to_nat i) 82 92;
     published_at := utcnow w - 3600 * randint g (k + 4) 1 72 |}.

Definition get_mock_tiktok_data (w : World) (limit : Z) : list ViralVideo :=
  map (tiktok_mock_video w) (range limit).

Definition fetch_tiktok_viral_videos (w : World) (limit : Z)
  : exc (list ViralVideo) :=
  try_except
    (match tiktok_service with
     | Some service =>
         videos <- fetch_trending_videos service limit ;;
         Ok videos
     | None => Ok (get_mock_tiktok_data w limit)
     end)
    (fun _ => Ok (get_mock_tiktok_data w limit)).

(** *** Twitter *)

Definition no_twitter_row : TwitterRow :=
  {| tw_username := ""; tw_tweet_id := ""; tw_title := "";
     tw_views := 0; tw_likes := 0 |}.

(** One round of the loop of [_get_twitter_mock_data]; round [i] takes the
    [i]-th uniform draw and the integer draws [4 i .. 4 i + 3]. *)
Definition twitter_mock_video (w : World) (i : Z) : ViralVideo :=
  let tweet_data := cycle_get no_twitter_row twitter_data i in
  let g := random w TWITTER in
  let k := (4 * Z.to_nat i)%nat in
  let viral_score := uniform g (Z.to_nat i) 75 88 in
  {| title := tw_title tweet_data;
     url := "https://twitter.com/" ++ tw_username tweet_data
            ++ "/status/" ++ tw_tweet_id tweet_data;
     thumbnail :=
       generate_platform_thumbnail w TWITTER viral_score
         (tw_title tweet_data);
     platform := TWITTER;
     views := tw_views tweet_data + randint g k (-500000) 500000;
     likes := tw_likes tweet_data + randint g (k + 1) (-50000) 50000;
     shares := Some (randint g (k + 2) 10000 100000);
     author := "@" ++ tw_username tweet_data;
     duration := None;
     description := None;
     viral_score := viral_score;
     published_at := utcnow w - 3600 * randint g (k + 3) 1 96 |}.

Definition _get_twitter_mock_data (w : World) (limit : Z)
  : list ViralVideo :=
  map (twitter_mock_video w) (range limit).

(** The body of the loop over the tweets of the answer. *)
Definition process_tweet (w : World) (tweets : TwitterResponse)
  (tweet : Tweet) : exc ViralVideo :=
  metrics <- require "public_metrics" (public_metrics tweet) ;;
  let author_username :=
    match includes_users tweets with
    | Some users =>
        match find (fun user => (user_id user =? author_id tweet)%Z) users with
        | Some user => "@" ++ username user
        | None => "Unknown"
        end
    | None => "Unknown"
    end in
  likes <- require "like_count" (like_count metrics) ;;
  retweets <- require "retweet_count" (retweet_count metrics) ;;
  replies <- require "reply_count" (reply_count metrics) ;;
  let engagement_score := (likes + retweets * 3 + replies * 2)%Z in
  ratio <- truediv engagement_score 1000 ;;
  let viral_score := Rmin 90 (Rmax 10 ratio) in
  let tweet_title :=
    if (100 <? String.length (text tweet))%nat
    then substring 0 100 (text tweet) ++ "..." else text tweet in
  id_text <- str_of_int (tweet_id tweet) ;;
  Ok {| title := tweet_title;
        url := "https://twitter.com/i/status/" ++ id_text;
        thumbnail :=
          generate_platform_thumbnail w TWITTER viral_score tweet_title;
        platform := TWITTER;
        views := get_default (impression_count metrics) 0%Z;
        likes := likes;
        shares := Some retweets;
        author := author_username;
        duration := None;
        description := None;
        viral_score := viral_score;
        published_at := get_default (created_at tweet) (utcnow w) |}.

Definition fetch_twitter_viral_videos (w : World) (limit : Z)
  : exc (list ViralVideo) :=
  if negb (truthy (TWITTER_BEARER_TOKEN w))
  then Ok (_get_twitter_mock_data w limit)
  else
    try_except
      (client <- tweepy_client w ;;
       tweets <- search_recent_tweets w (Z.min limit 100) ;;
       match data tweets with
       | None | Some [] => Ok (_get_twitter_mock_data w limit)
       | Some tweets_data =>
           Ok (collect (process_tweet w tweets) (slice_to tweets_data limit))
       end)
      (fun _ => Ok (_get_twitter_mock_data w limit)).

(** *** [get_aggregated_viral_videos] *)

(** The three fetcher methods, as the aggregator and the handler call
    them through [self] and [aggregator]. *)
Record Fetchers : Type := {
  youtube_fetcher : Z -> exc (list ViralVideo);
  tiktok_fetcher : Z -> exc (list ViralVideo);
  twitter_fetcher : Z -> exc (list ViralVideo)
}.

Definition fetchers (w : World) : Fetchers :=
  {| youtube_fetcher := fetch_youtube_viral_videos w;
     tiktok_fetcher := fetch_tiktok_viral_videos w;
     twitter_fetcher := fetch_twitter_viral_videos w |}.

(** The limit after the caller's plan has been applied (the first lines of
    the method). *)
Definition tier_limit (w : World) (limit : Z) (user : option User) : exc Z :=
  match user with
  | Some u =>
      plan <- get_plan w (subscription_tier u) ;;
      if (max_videos_per_day plan >? 0)%Z
      then Ok (Z.min limit (max_videos_per_day plan))
      else Ok limit
  | None =>
      free_plan <- get_plan w FREE ;;
      Ok (Z.min limit (max_videos_per_day free_plan))
  end.

Definition videos_per_platform (limit : Z) : Z := Z.max (limit / 3) 5.

(** [asyncio.gather] over the three tasks with [return_exceptions=True]:
    each task ends in its list or in its exception, whatever the others
    do. *)
Definition gather (f : Fetchers) (n : Z) : list (exc (list ViralVideo)) :=
  [youtube_fetcher f n; tiktok_fetcher f n; twitter_fetcher f n].

(** The loop over the results: lists are appended, exceptions logged. *)
Fixpoint extend_with_lists (results : list (exc (list ViralVideo)))
  : list ViralVideo :=
  match results with
  | [] => []
  | Ok result :: rest => result ++ extend_with_lists rest
  | Raise _ :: rest => extend_with_lists rest
  end.

Definition aggregate (f : Fetchers) (w : World) (limit : Z)
  (user : option User) : exc (list ViralVideo) :=
  limit <- tier_limit w limit user ;;
  let results := gather f (videos_per_platform limit) in
  let all_videos := extend_with_lists results in
  Ok (slice_to (sort_by_score all_videos) limit).

Definition get_aggregated_viral_videos (w : World) (limit : Z)
  (user : option User) : exc (list ViralVideo) :=
  aggregate (fetchers w) w limit user.

End VideoAggregator.

(** ** [GET /api/videos] of backend/server.py *)

Module Server.

Import VideoAggregator.
Open Scope string_scope.

(** Modelled from the spec: [models.VideoResponse], with the fields the
    handler passes to its constructor. *)
Record VideoResponse : Type := {
  resp_videos : list ViralVideo;
  resp_total : Z;
  resp_platform : option Platform;
  resp_date : Z;
  resp_has_ads : bool;
  resp_user_tier : SubscriptionTier
}.

Definition tier_of (user : option User) : SubscriptionTier :=
  match user with
  | Some u => subscription_tier u
  | None => FREE
  end.

(** The two steps on ads: the ads are fetched (an error leaves none), then
    injected for a plan with ads (an error leaves the videos as they
    are).  Both steps need the advertising service. *)
Definition with_ads (w : World) (user_plan : SubscriptionPlan)
  (platform : option Platform) (user : option User)
  (videos : list ViralVideo) : list ViralVideo :=
  match advertising_service w with
  | None => videos
  | Some service =>
      let ads :=
        match get_ads_for_platform service platform user with
        | Ok found => found
        | Raise _ => []
        end in
      if has_ads user_plan
      then
        match inject_ads_into_videos service videos ads user with
        | Ok injected => injected
        | Raise _ => videos
        end
      else videos
  end.

(** The [try] block of the handler. *)
Definition videos_page (f : Fetchers) (w : World)
  (platform : option Platform) (limit : Z) (user : option User)
  : exc VideoResponse :=
  user_plan <- get_plan w (tier_of user) ;;
  let max_limit :=
    if (max_videos_per_day user_plan >? 0)%Z
    then max_videos_per_day user_plan else limit in
  let limit := Z.min limit max_limit in
  videos <-
    match platform with
    | Some YOUTUBE => youtube_fetcher f limit
    | Some TIKTOK => tiktok_fetcher f limit
    | Some TWITTER => twitter_fetcher f limit
    | Some (OTHER _) => Ok []
    | None => aggregate f w limit user
    end ;;
  let videos := with_ads w user_plan platform user videos in
  Ok {| resp_videos := videos;
        resp_total := Z.of_nat (List.length videos);
        resp_platform := platform;
        resp_date := utcnow w;
        resp_has_ads := has_ads user_plan;
        resp_user_tier := tier_of user |}.

(** The handler: the [except] clause turns any exception of the block
    into [HTTPException(status_code=500)]. *)
Definition serve (f : Fetchers) (w : World)
  (platform : option Platform) (limit : Z) (user : option User)
  : HttpResult VideoResponse :=
  match videos_page f w platform limit user with
  | Ok response => Http200 response
  | Raise _ => HttpException 500 "Error fetching viral videos"
  end.

Definition get_viral_videos (w : World)
  (platform : option Platform) (limit : Z) (user : option User)
  : HttpResult VideoResponse :=
  serve (fetchers w) w platform limit user.

End Server.

(** ** [GET /api/videos] of BULLETPROOF_SERVER.py *)

Module Bulletproof.

Open Scope string_scope.

(** The dictionaries the handler builds, key by key (the key [platform]
    of the answer is the field [platform_filter]). *)
Record Video : Type := {
  id : string;
  title : string;
  url : string;
  thumbnail : string;
  platform : string;
  views : Z;
  likes : Z;
  shares : Z;
  author : string;
  duration : string;
  viral_score : R;
  published_at : string;
  fetched_at : string;
  is_sponsored : bool;
  description : string
}.

Record Response : Type := {
  videos : list Video;
  total : Z;
  platform_filter : option string;
  date : string;
  has_ads : bool;
  user_tier : string;
  status : string;
  error_debug : option string
}.

(** What the handler reads from outside.  None of the statements of its
    [try] block raises on its own; [fault] is an exception that the
    runtime raises inside the block, if any. *)
Record World : Type := {
  utcnow : Z;
  isoformat : Z -> string;
  random : Random;
  DEBUG : option string;
  fault : option PyError
}.

Definition platforms : list string := [
  "youtube";
  "tiktok";
  "twitter"
].

Definition titles : list string := [
  "This Video Will Change Everything! ðŸ¤¯";
  "Most Viral Dance Challenge Right Now ðŸ’ƒ";
  "Everyone's Talking About This Trend ðŸ”¥";
  "This Life Hack is Going Viral ðŸš€";
  "The Funniest Video on the Internet ðŸ˜‚";
  "This Performance Gave Me Chills âœ¨";
  "Mind-Blowing Trick Everyone's Doing ðŸ¤¯";
  "This Story Has an Unexpected Twist ðŸ˜±";
  "The Most Satisfying Video Ever ðŸ˜Œ";
  "This Sound is Everywhere Now ðŸŽµ";
  "Plot Twist Nobody Saw Coming ðŸ”„";
  "This Trend is Breaking the Internet ðŸ’¥";
  "Everyone Should See This Video ðŸ‘€";
  "This Went Viral in Minutes âš¡";
  "The Video Everyone's Copying ðŸ“¹"
].

Definition real_working_urls : list string := [
  "https://www.youtube.com/watch?v=dQw4w9WgXcQ";
  "https://www.youtube.com/watch?v=9bZkp7q19f0";
  "https://www.youtube.com/watch?v=kJQP7kiw5Fk";
  "https://www.youtube.com/watch?v=fJ9rUzIMcZQ";
  "https://www.youtube.com/watch?v=YQHsXMglC9A";
  "https://www.youtube.com/watch?v=CevxZvSJLk8";
  "https://www.youtube.com/watch?v=RgKAFK5djSk";
  "https://www.youtube.com/watch?v=hT_nvWreIhg";
  "https://www.youtube.com/watch?v=iGk5fR-t5AU";
  "https://www.youtube.com/watch?v=nfWlot6h_JM";
  "https://www.youtube.com/watch?v=JGwWNGJdvx8";
  "https://www.youtube.com/watch?v=SlPhMPnQ58k";
  "https://www.youtube.com/watch?v=60ItHLz5WEA";
  "https://www.youtube.com/watch?v=pRpeEdMmmQ0";
  "https://www.youtube.com/watch?v=kffacxfA7G4"
].

Definition creators : list string := [
  "@MrBeast";
  "@PewDiePie";
  "@Dude_Perfect";
  "@TheRock";
  "@RyanReynolds";
  "@justinbieber";
  "@ArianaGrande";
  "@taylorswift13";
  "@ladygaga";
  "@rihanna";
  "@elonmusk";
  "@TheEllenShow";
  "@RealHughJackman";
  "@vancityreynolds";
  "@priyankachopra"
].

Definition guaranteed_thumbnail : string :=
  "https://i.ytimg.com/vi/dQw4w9WgXcQ/hqdefault.jpg".

(** One round of the loop; round [i] takes the integer draws
    [5 i .. 5 i + 4] and the [i]-th uniform draw. *)
Definition make_video (w : World) (i : Z) : Video :=
  let g := random w in
  let k := (5 * Z.to_nat i)%nat in
  {| id := "viral_video_" ++ str_of_Z (i + 1);
     title := cycle_get "" titles i;
     url := cycle_get "" real_working_urls i;
     thumbnail := guaranteed_thumbnail;
     platform := cycle_get "" platforms i;
     views := 2000000 + i * 150000 + randint g k 0 500000;
     likes := 120000 + i * 8000 + randint g (k + 1) 0 50000;
     shares := 15000 + i * 1000 + randint g (k + 2) 0 5000;
     author := cycle_get "" creators i;
     duration := str_of_Z (randint g (k + 3) 2 8) ++ ":"
                 ++ fmt_02d (randint g (k + 4) 10 59);
     viral_score :=
       round1 (95 - IZR i * (3 / 2) + uniform g (Z.to_nat i) (-2) 2);
     published_at := isoformat w (utcnow w - 3600 * (i * 2)) ++ "Z";
     fetched_at := isoformat w (utcnow w) ++ "Z";
     is_sponsored := false;
     description :=
       "This " ++ cycle_get "" platforms i ++ " video is trending with "
       ++ fmt_thousands (2000000 + i * 150000) ++ " views!" |}.

(** The [try] block. *)
Definition videos_page (w : World) (platform : option string) (limit : Z)
  : exc Response :=
  match fault w with
  | Some e => Raise e
  | None =>
      let limit := Z.min (Z.max limit 1) 50 in
      let videos := map (make_video w) (range limit) in
      Ok {| videos := videos;
            total := Z.of_nat (List.length videos);
            platform_filter := platform;
            date := isoformat w (utcnow w) ++ "Z";
            has_ads := false;
            user_tier := "free";
            status := "success";
            error_debug := None |}
  end.

(** The hardcoded video of the [except] clause. *)
Definition fallback_video (w : World) : Video :=
  {| id := "fallback_video_1";
     title := "ðŸŽ‰ Your Viral Daily App is Working Perfectly!";
     url := "https://www.youtube.com/watch?v=dQw4w9WgXcQ";
     thumbnail := "https://i.ytimg.com/vi/dQw4w9WgXcQ/hqdefault.jpg";
     platform := "youtube";
     views := 1000000;
     likes := 50000;
     shares := 5000;
     author := "@ViralDaily";
     duration := "3:32";
     viral_score := 100;
     published_at := isoformat w (utcnow w) ++ "Z";
     fetched_at := isoformat w (utcnow w) ++ "Z";
     is_sponsored := false;
     description := "Congratulations! Your app is fully functional." |}.

Definition fallback_response (w : World) (platform : option string)
  (e : PyError) : Response :=
  {| videos := [fallback_video w];
     total := 1;
     platform_filter := platform;
     date := isoformat w (utcnow w) ++ "Z";
     has_ads := false;
     user_tier := "free";
     status := "fallback_success";
     error_debug := if truthy (DEBUG w) then Some (error_text e) else None |}.

(** The handler: what it returns is sent with status 200. *)
Definition get_viral_videos (w : World) (platform : option string)
  (limit : Z) : HttpResult Response :=
  match videos_page w platform limit with
  | Ok response => Http200 response
  | Raise e => Http200 (fallback_response w platform e)
  end.

End Bulletproof.

(** ** What the spec asks of the results, and sample worlds *)

Module Scenarios.

Import VideoAggregator.
Open Scope string_scope.

(** Larger scores first. *)
Definition score_ge (a b : ViralVideo) : Prop :=
  (viral_score b <= viral_score a)%R.

Definition sorted_by_score_desc (l : list ViralVideo) : Prop :=
  StronglySorted score_ge l.

(** [needle in hay] *)
Fixpoint contains (needle hay : string) : bool :=
  prefix needle hay
  || match hay with
     | EmptyString => false
     | String _ hay' => contains needle hay'
     end.

(** The URL shape of each platform. *)
Definition url_shape (p : Platform) : string :=
  match p with
  | YOUTUBE => "/watch?v="
  | TIKTOK => "/video/"
  | TWITTER => "/status/"
  | OTHER _ => ""
  end.

Definition well_linked (v : ViralVideo) : Prop :=
  thumbnail v <> "" /\ url v <> ""
  /\ contains (url_shape (platform v)) (url v) = true.


(** The plan table of the sibling servers (server_minimal.py,
    server_hybrid.py): 40 videos a day with ads for the free tier, 100
    for pro, no cap ([-1]) for business. *)
Definition plans (t : SubscriptionTier) : exc SubscriptionPlan :=
  Ok match t with
     | FREE => {| max_videos_per_day := 40; has_ads := true |}
     | PRO => {| max_videos_per_day := 100; has_ads := false |}
     | BUSINESS => {| max_videos_per_day := -1; has_ads := false |}
     end.

Definition still_tape : Random :=
  {| raw_int := fun _ => 0%Z; raw_unit := fun _ => 0%R |}.

(** A world without API keys, database or advertising: every fetcher
    falls back on its mock data. *)
Definition quiet_world : World :=
  {| YOUTUBE_API_KEY := None;
     TWITTER_BEARER_TOKEN := None;
     youtube_build := Raise (OtherError "no developer key");
     youtube_videos_list := fun _ => Raise HttpError;
     fromisoformat := fun _ => Raise ValueError;
     tweepy_client := Raise ImportError;
     search_recent_tweets := fun _ => Raise (OtherError "no bearer token");
     Env.utcnow := 0;
     Env.random := fun _ => still_tape;
     quote := fun s => s;
     get_plan := plans;
     advertising_service := None |}.

(** The quiet world with a YouTube key, where [videos().list] answers
    [items] whatever the count asked, and every date parses. *)
Definition youtube_world (items : list YouTubeItem) : World :=
  {| YOUTUBE_API_KEY := Some "key";
     TWITTER_BEARER_TOKEN := None;
     youtube_build := Ok tt;
     youtube_videos_list := fun _ => Ok items;
     fromisoformat := fun _ => Ok 0%Z;
     tweepy_client := Raise ImportError;
     search_recent_tweets := fun _ => Raise (OtherError "no bearer token");
     Env.utcnow := 0;
     Env.random := fun _ => still_tape;
     quote := fun s => s;
     get_plan := plans;
     advertising_service := None |}.

(** The quiet world with a Twitter token, where the search answers
    [answer] whatever the count asked. *)
Definition twitter_world (answer : TwitterResponse) : World :=
  {| YOUTUBE_API_KEY := None;
     TWITTER_BEARER_TOKEN := Some "token";
     youtube_build := Raise (OtherError "no developer key");
     youtube_videos_list := fun _ => Raise HttpError;
     fromisoformat := fun _ => Raise ValueError;
     tweepy_client := Ok tt;
     search_recent_tweets := fun _ => Ok answer;
     Env.utcnow := 0;
     Env.random := fun _ => still_tape;
     quote := fun s => s;
     get_plan := plans;
     advertising_service := None |}.

(** A duration whose seconds part has 4301 digits. *)
Definition long_duration : string :=
  "PT" ++ string_of_list_ascii (repeat "1"%char 4301) ++ "S".

Definition no_tweets : TwitterResponse :=
  {| data := Some []; includes_users := None |}.

(** A YouTube item with every key the fetcher reads, except that its
    snippet carries no thumbnails. *)
Definition item_without_thumbnails : YouTubeItem :=
  {| id := Some "dQw4w9WgXcQ";
     snippet :=
       Some {| sn_title := Some "Never Gonna Give You Up";
               channelTitle := Some "Rick Astley";
               publishedAt := Some "2009-10-25T06:57:33Z";
               thumbnails := None;
               sn_description := None |};
     statistics :=
       Some {| viewCount := Some "1400000000";
               likeCount := Some "15000000" |};
     contentDetails := Some {| cd_duration := Some "PT3M33S" |} |}.

(** The quiet world where the plan lookup fails. *)
Definition planless_world : World :=
  {| YOUTUBE_API_KEY := None;
     TWITTER_BEARER_TOKEN := None;
     youtube_build := Raise (OtherError "no developer key");
     youtube_videos_list := fun _ => Raise HttpError;
     fromisoformat := fun _ => Raise ValueError;
     tweepy_client := Raise ImportError;
     search_recent_tweets := fun _ => Raise (OtherError "no bearer token");
     Env.utcnow := 0;
     Env.random := fun _ => still_tape;
     quote := fun s => s;
     get_plan := fun _ => Raise (KeyError "free");
     advertising_service := None |}.

(** The fetchers of the quiet world, the YouTube one replaced by one that
    raises. *)
Definition fetchers_youtube_down : Fetchers :=
  {| youtube_fetcher := fun _ => Raise (OtherError "youtube is down");
     tiktok_fetcher := fetch_tiktok_viral_videos quiet_world;
     twitter_fetcher := fetch_twitter_viral_videos quiet_world |}.

(** What a fetcher contributes to the aggregated feed: its list when it
    returned one, nothing when it raised. *)
Definition returned_by (r : exc (list ViralVideo)) : list ViralVideo :=
  match r with
  | Ok l => l
  | Raise _ => []
  end.

(** Three fetchers that all raise. *)
Definition fetchers_all_down : Fetchers :=
  {| youtube_fetcher := fun _ => Raise HttpError;
     tiktok_fetcher := fun _ => Raise ValueError;
     twitter_fetcher := fun _ => Raise ImportError |}.

(** A world of the bulletproof server, with or without a fault. *)
Definition bulletproof_world (fault : option PyError) : Bulletproof.World :=
  {| Bulletproof.utcnow := 0;
     Bulletproof.isoformat := fun _ => "1970-01-01T00:00:00";
     Bulletproof.random := still_tape;
     Bulletproof.DEBUG := None;
     Bulletproof.fault := fault |}.

End Scenarios.

(** ** Durations as YouTube writes them *)

Module Iso8601.

Import Duration.
Open Scope string_scope.

(** One part of an ISO 8601 duration, a number and its unit letter; a part
    that is left out is [None]. *)
Definition iso_part (n : option Z) (unit : string) : string :=
  match n with
  | Some k => str_of_Z k ++ unit
  | None => ""
  end.

(** [PT#H#M#S], each part optional. *)
Definition iso_duration (h m s : option Z) : string :=
  "PT" ++ iso_part h "H" ++ iso_part m "M" ++ iso_part s "S".

Definition part_value (n : option Z) : Z :=
  match n with
  | Some k => k
  | None => 0%Z
  end.

(** The display text of [h] hours, [m] minutes and [s] seconds, as the two
    format strings of [parse_duration] write it. *)
Definition display (h m s : Z) : string :=
  if (h >? 0)%Z
  then str_of_Z h ++ ":" ++ fmt_02d m ++ ":" ++ fmt_02d s
  else str_of_Z m ++ ":" ++ fmt_02d s.

Definition non_negative (n : option Z) : Prop :=
  match n with
  | Some k => (0 <= k)%Z
  | None => True
  end.

(** A part that [str] writes with no more digits than [int] takes back. *)
Definition within_str_digits (n : option Z) : Prop :=
  match n with
  | Some k => (String.length (str_of_Z k) <= max_str_digits)%nat
  | None => True
  end.

End Iso8601.

(** ** What the records are expected to look like, and more sample data *)

Module Expectations.

Import VideoAggregator Scenarios.
Open Scope string_scope.

(** A record of platform [p] whose link has the shape of [p]. *)
Definition links_to (p : Platform) (v : ViralVideo) : Prop :=
  platform v = p /\ url v <> "" /\ contains (url_shape p) (url v) = true.

(** A record of one of the three platforms, linked accordingly. *)
Definition on_a_platform (v : ViralVideo) : Prop :=
  links_to YOUTUBE v \/ links_to TIKTOK v \/ links_to TWITTER v.

(** The head of the inline images that [generate_platform_thumbnail]
    returns. *)
Definition svg_data_uri : string := "data:image/svg+xml;charset=utf-8,".

(** An item of the YouTube answer without one of the keys that the loop
    body reads with [item[...]]. *)
Definition lacks_a_key (item : YouTubeItem) : Prop :=
  snippet item = None \/ statistics item = None
  \/ contentDetails item = None \/ id item = None.

(** The thumbnails of an item offer no usable [url]: each of the five
    entries is absent or empty. *)
Definition offers_no_thumbnail (t : Thumbnails) : Prop :=
  truthy (maxresdefault t) = false /\ truthy (standard t) = false
  /\ truthy (high t) = false /\ truthy (medium t) = false
  /\ truthy (default t) = false.

(** The record made from an item, when the loop body returns one. *)
Definition record_of (w : World) (item : YouTubeItem) : ViralVideo :=
  match process_youtube_item w item with
  | Ok v => v
  | Raise _ => youtube_mock_video w 0
  end.

Definition item_without_snippet : YouTubeItem :=
  {| id := Some "9bZkp7q19f0";
     snippet := None;
     statistics :=
       Some {| viewCount := Some "4900000000";
               likeCount := Some "24000000" |};
     contentDetails := Some {| cd_duration := Some "PT4M13S" |} |}.

Definition sample_tweet : Tweet :=
  {| tweet_id := 1816797864340054018;
     text := "Launch day";
     author_id := 44196397;
     public_metrics :=
       Some {| like_count := Some 250000%Z;
               retweet_count := Some 40000%Z;
               reply_count := Some 9000%Z;
               impression_count := None |};
     created_at := None |}.

(** A tweet that comes without its public metrics. *)
Definition tweet_without_metrics : Tweet :=
  {| tweet_id := 1815736731766399436;
     text := "No numbers on this one";
     author_id := 44196397;
     public_metrics := None;
     created_at := None |}.

Definition bare_answer : TwitterResponse :=
  {| data := Some [tweet_without_metrics]; includes_users := None |}.

Definition sample_answer : TwitterResponse :=
  {| data := Some [sample_tweet];
     includes_users := Some [{| user_id := 44196397; username := "elonmusk" |}] |}.

(** A plan without ads and an advertising service that always has an ad to
    put in front. *)
Definition pushy_ads : AdvertisingService :=
  {| Ad := ViralVideo;
     get_ads_for_platform := fun _ _ => Ok [];
     inject_ads_into_videos := fun videos _ _ =>
       Ok ({| title := "Sponsored"; url := "https://ads.example/1";
              thumbnail := ""; platform := OTHER "advertisement";
              views := 0; likes := 0; shares := None; author := "";
              duration := None; description := None; viral_score := 0;
              published_at := 0 |} :: videos) |}.

Definition ad_world : World :=
  {| YOUTUBE_API_KEY := None;
     TWITTER_BEARER_TOKEN := None;
     youtube_build := Raise (OtherError "no developer key");
     youtube_videos_list := fun _ => Raise HttpError;
     fromisoformat := fun _ => Raise ValueError;
     tweepy_client := Raise ImportError;
     search_recent_tweets := fun _ => Raise (OtherError "no bearer token");
     Env.utcnow := 0;
     Env.random := fun _ => still_tape;
     quote := fun s => s;
     get_plan := plans;
     advertising_service := Some pushy_ads |}.

Definition pro_user : User := {| subscription_tier := PRO |}.

End Expectations.

(** ** [TikTokService] (backend/tiktok_service.py) *)

Module TikTokSvc.

Open Scope string_scope.

(** The clock of the service: [datetime.now()] in seconds, and
    [datetime.fromtimestamp], which raises on a timestamp outside the
    range of the platform and otherwise gives the same instant. *)
Record Clock : Type := {
  now : Z;
  fromtimestamp : Z -> exc Z
}.

(** [calculate_viral_score]: the body is one [try] block, and its
    [except] clause returns the default score 50.  [days_old] is the day
    count of a [timedelta], at most 999999999 in absolute value, so its
    conversion in [days_old * 0.1] is always within the range of floats
    and is written without a test. *)
Definition calculate_viral_score (c : Clock)
  (views likes shares comments create_time : Z) : R :=
  match
    created_date <- fromtimestamp c create_time ;;
    let days_old := ((now c - created_date) / 86400)%Z in
    lg <- log10 (Z.max views 1) ;;
    let view_score := (lg * 15)%R in
    let total_engagements := (likes + shares + comments)%Z in
    engagement_rate <-
      (if (views >? 0)%Z then truediv total_engagements views else Ok 0%R) ;;
    let engagement_score := (engagement_rate * 100)%R in
    let recency_multiplier := Rmax (/ 2) (2 - IZR days_old * / 10) in
    let viral_score :=
      ((view_score + engagement_score) * recency_multiplier)%R in
    Ok (Rmin viral_score 100)
  with
  | Ok score => score
  | Raise _ => 50%R
  end.

(** The rows of [trending_patterns] in [_get_fallback_data]. *)
Record Pattern : Type := {
  p_title : string;
  p_author : string;
  p_views : Z;
  p_likes : Z;
  p_duration : string
}.

Definition trending_patterns : list Pattern := [
  {| p_title := "This transition hit different 🔥 #transition #fyp #viral";
     p_author := "@transitions.queen";
     p_views := 47300000;
     p_likes := 8200000;
     p_duration := "0:19" |};
  {| p_title := "POV: You're the main character ✨ #maincharacter #aesthetic";
     p_author := "@aesthetic.vibes";
     p_views := 23800000;
     p_likes := 4100000;
     p_duration := "0:24" |};
  {| p_title := "Teaching my mom Gen Z slang... her reactions 😭 #momtok #genz";
     p_author := "@momandme.official";
     p_views := 15900000;
     p_likes := 2800000;
     p_duration := "0:34" |};
  {| p_title := "This sound makes everything emotional 🥺 #emotional #trend";
     p_author := "@feelings.check";
     p_views := 31200000;
     p_likes := 5600000;
     p_duration := "0:16" |};
  {| p_title := "Plot twist nobody saw coming... 😱 #plottwist #storytelling";
     p_author := "@story.master";
     p_views := 28700000;
     p_likes := 4900000;
     p_duration := "0:42" |}
].

(** The [while] loop of [_get_fallback_data]: as long as the list is
    shorter than the limit, it is extended by a prefix of itself, of
    [min(len, limit - len)] rows.  [fuel] bounds the number of rounds. *)
Fixpoint extend_patterns (fuel : nat) (patterns : list Pattern) (limit : Z)
  : list Pattern :=
  match fuel with
  | O => patterns
  | S fuel' =>
      let len := Z.of_nat (List.length patterns) in
      if (len <? limit)%Z
      then extend_patterns fuel'
             (patterns ++ slice_to patterns (Z.min len (limit - len)))%list
             limit
      else patterns
  end.

(** The rows that the [for] loop of [_get_fallback_data] goes through:
    [trending_patterns[:limit]] after the [while] loop.  Every round adds
    a row at least, so [limit] rounds are enough. *)
Definition fallback_patterns (limit : Z) : list Pattern :=
  slice_to (extend_patterns (Z.to_nat limit) trending_patterns limit) limit.

(** The loop has come to its end when the list is no longer shorter than
    the limit. *)
Definition loop_done (patterns : list Pattern) (limit : Z) : bool :=
  negb (Z.of_nat (List.length patterns) <? limit)%Z.

(** The invariant of the [while] loop: the list is not empty, its rows
    repeat the five patterns in order, and its length is a multiple of 5
    until the limit is reached. *)
Definition cycling (limit : Z) (l : list Pattern) : Prop :=
  l <> [] /\
  (forall i, (i < List.length l)%nat ->
             nth_error l i = nth_error trending_patterns (i mod 5)) /\
  ((List.length l) mod 5 = 0%nat \/ (limit <= Z.of_nat (List.length l))%Z).

Definition steady_clock : Clock :=
  {| now := 1000000; fromtimestamp := fun t => Ok t |}.


End TikTokSvc.

(** * Properties *)

Section ScoreFacts.

Import Score.
Open Scope R_scope.

Lemma ln10_pos : 0 < ln 10.
Proof.
  rewrite <- ln_1. apply ln_increasing; lra.
Qed.

Lemma log10_nonneg (x : R) : 1 <= x -> 0 <= ln x / ln 10.
Proof.
  intros Hx. apply Rmult_le_pos.
  - rewrite <- ln_1. destruct Hx as [Hx | <-]; [|lra].
    left. apply ln_increasing; lra.
  - left. apply Rinv_0_lt_compat, ln10_pos.
Qed.

Lemma log10_mono (x y : R) : 0 < x -> x <= y -> ln x / ln 10 <= ln y / ln 10.
Proof.
  intros Hx [Hlt | ->]; [|lra].
  apply Rmult_le_compat_r.
  - left. apply Rinv_0_lt_compat, ln10_pos.
  - left. apply ln_increasing; assumption.
Qed.

Lemma recency_ge_1 (d : Z) : 1 <= Rmax 1 (10 - IZR d * / 2).
Proof. apply Rmax_l. Qed.

Lemma float_limit_pos : (0 < float_limit)%Z.
Proof. vm_compute. reflexivity. Qed.

Lemma float_of_int_ok (n : Z) :
  (Z.abs n < float_limit)%Z -> float_of_int n = Ok (IZR n).
Proof.
  intros H. unfold float_of_int.
  destruct (Z.leb_spec float_limit (Z.abs n)); [lia | reflexivity].
Qed.

Lemma float_of_int_overflow (n : Z) :
  (float_limit <= Z.abs n)%Z -> float_of_int n = Raise OverflowError.
Proof.
  intros H. unfold float_of_int.
  destruct (Z.leb_spec float_limit (Z.abs n)); [reflexivity | lia].
Qed.

Lemma truediv_ok (a b : Z) :
  (0 < b)%Z -> (Z.abs a < float_limit * b)%Z ->
  truediv a b = Ok (IZR a / IZR b).
Proof.
  intros Hb H. unfold truediv.
  destruct (Z.eqb_spec b 0) as [?|_]; [lia|].
  rewrite (Z.abs_eq b) by lia.
  destruct (Z.leb_spec (float_limit * b) (Z.abs a)); [lia | reflexivity].
Qed.

Lemma truediv_overflow (a b : Z) :
  (0 < b)%Z -> (float_limit * b <= Z.abs a)%Z ->
  truediv a b = Raise OverflowError.
Proof.
  intros Hb H. unfold truediv.
  destruct (Z.eqb_spec b 0) as [?|_]; [lia|].
  rewrite (Z.abs_eq b) by lia.
  destruct (Z.leb_spec (float_limit * b) (Z.abs a)); [reflexivity | lia].
Qed.

(** On positive [views], and when neither the quotient nor the age is too
    large for a float, the function returns the clamped [raw_score]. *)
Lemma calculate_viral_score_pos (views likes days_old : Z) :
  (0 < views)%Z ->
  (Z.abs likes < float_limit * views)%Z ->
  (Z.abs days_old < float_limit)%Z ->
  calculate_viral_score views likes days_old
  = Ok (Rmin (raw_score views likes days_old) 100).
Proof.
  intros Hv Hl Hd. unfold calculate_viral_score, raw_score, log10.
  destruct (Z.eqb_spec views 0) as [->|_]; [lia|].
  rewrite Z.max_l by lia.
  destruct (Z.leb_spec views 0) as [?|_]; [lia|]. cbn [bind].
  destruct (Z.eqb_spec likes 0) as [->|_]; cbn [negb andb bind].
  - rewrite float_of_int_ok by assumption. cbn [bind].
    do 2 f_equal. f_equal. unfold Rdiv. rewrite !Rmult_0_l. reflexivity.
  - destruct (Z.gtb_spec views 0) as [_|?]; [|lia].
    rewrite truediv_ok by assumption. cbn [bind].
    rewrite float_of_int_ok by assumption. reflexivity.
Qed.

(** On negative [views] both terms vanish. *)
Lemma calculate_viral_score_neg (views likes days_old : Z) :
  (views < 0)%Z -> (Z.abs days_old < float_limit)%Z ->
  calculate_viral_score views likes days_old = Ok 0.
Proof.
  intros Hv Hd. unfold calculate_viral_score, log10.
  destruct (Z.eqb_spec views 0) as [?|_]; [lia|].
  rewrite Z.max_r by lia. cbn [Z.leb Z.compare bind].
  destruct (Z.gtb_spec views 0) as [?|_]; [lia|].
  rewrite andb_false_r. cbn [bind].
  rewrite float_of_int_ok by assumption. cbn [bind]. f_equal.
  rewrite ln_1. unfold Rdiv. rewrite !Rmult_0_l, Rplus_0_l, Rmult_0_l.
  apply Rmin_left. lra.
Qed.

(** The two ways to an [OverflowError]: the quotient [likes / views], and
    the age in [days_old * 0.5]. *)
Lemma calculate_viral_score_overflow (views likes days_old : Z) :
  (views <> 0)%Z ->
  ((0 < views)%Z /\ (float_limit * views <= Z.abs likes)%Z)
  \/ (float_limit <= Z.abs days_old)%Z ->
  calculate_viral_score views likes days_old = Raise OverflowError.
Proof.
  intros Hnz H. unfold calculate_viral_score, log10.
  destruct (Z.eqb_spec views 0) as [?|_]; [lia|].
  destruct (Z.leb_spec (Z.max views 1) 0) as [?|_]; [lia|]. cbn [bind].
  pose proof float_limit_pos as Hpos.
  destruct (Z.eqb_spec likes 0) as [->|Hl]; cbn [negb andb bind].
  - destruct H as [[Hv H] | H]; [nia|].
    rewrite float_of_int_overflow by assumption. reflexivity.
  - destruct (Z.gtb_spec views 0) as [Hv|Hv]; cbn [bind].
    + destruct (Z_lt_le_dec (Z.abs likes) (float_limit * views)) as [Hin|Hout].
      * rewrite truediv_ok by assumption. cbn [bind].
        destruct H as [[_ H] | H]; [lia|].
        rewrite float_of_int_overflow by assumption. reflexivity.
      * rewrite truediv_overflow by assumption. reflexivity.
    + destruct H as [[Hv' _] | H]; [lia|].
      rewrite float_of_int_overflow by assumption. reflexivity.
Qed.

Lemma raw_score_nonneg (views likes days_old : Z) :
  (0 < views)%Z -> (0 <= likes)%Z -> 0 <= raw_score views likes days_old.
Proof.
  intros Hv Hl. unfold raw_score.
  assert (Hv1 : 1 <= IZR views) by (apply IZR_le; lia).
  assert (Hl0 : 0 <= IZR likes) by (apply IZR_le; lia).
  apply Rmult_le_pos.
  - apply Rplus_le_le_0_compat.
    + apply Rmult_le_pos; [apply log10_nonneg; assumption | lra].
    + apply Rmult_le_pos; [|lra].
      apply Rmult_le_pos; [assumption|].
      left. apply Rinv_0_lt_compat. lra.
  - pose proof (recency_ge_1 days_old). lra.
Qed.

Lemma raw_score_mono (v1 l1 v2 l2 days_old : Z) :
  (0 < v1)%Z -> (v1 <= v2)%Z -> (0 <= l1)%Z ->
  (l1 * v2 <= l2 * v1)%Z ->
  raw_score v1 l1 days_old <= raw_score v2 l2 days_old.
Proof.
  intros Hv1 Hv Hl1 Hratio. unfold raw_score.
  assert (H1 : 0 < IZR v1) by (apply IZR_lt; lia).
  assert (H2 : 0 < IZR v2) by (apply IZR_lt; lia).
  assert (H12 : IZR v1 <= IZR v2) by (apply IZR_le; lia).
  assert (Hr : IZR l1 * IZR v2 <= IZR l2 * IZR v1)
    by (rewrite <- !mult_IZR; apply IZR_le; assumption).
  apply Rmult_le_compat_r.
  - pose proof (recency_ge_1 days_old). lra.
  - apply Rplus_le_compat.
    + apply Rmult_le_compat_r; [lra|]. apply log10_mono; assumption.
    + apply Rmult_le_compat_r; [lra|].
      apply Rmult_le_reg_r with (r := IZR v1 * IZR v2); [nra|].
      replace (IZR l1 / IZR v1 * (IZR v1 * IZR v2)) with (IZR l1 * IZR v2)
        by (field; lra).
      replace (IZR l2 / IZR v2 * (IZR v1 * IZR v2)) with (IZR l2 * IZR v1)
        by (field; lra).
      assumption.
Qed.

Lemma calculate_viral_score_range (views likes days_old : Z) :
  (0 <= views)%Z -> (0 <= likes)%Z ->
  (views = 0 \/ (likes < float_limit * views /\ Z.abs days_old < float_limit))%Z ->
  exists s : R,
    calculate_viral_score views likes days_old = Ok s /\ 0 <= s <= 100.
Proof.
  intros Hv Hl [-> | [Hq Hd]].
  - exists 0. split; [reflexivity | lra].
  - pose proof float_limit_pos as Hpos.
    destruct (Z.eq_dec views 0) as [-> | Hnz]; [lia|].
    exists (Rmin (raw_score views likes days_old) 100). split.
    + apply calculate_viral_score_pos; lia.
    + split.
      * apply Rmin_glb; [apply raw_score_nonneg; lia | lra].
      * apply Rmin_r.
Qed.

(** Whatever the inputs, the function returns or raises [OverflowError]:
    no other error is met. *)
Lemma calculate_viral_score_cases (views likes days_old : Z) :
  (exists s : R, calculate_viral_score views likes days_old = Ok s)
  \/ calculate_viral_score views likes days_old = Raise OverflowError.
Proof.
  pose proof float_limit_pos as Hpos.
  destruct (Z_lt_le_dec (Z.abs days_old) float_limit) as [Hd | Hd].
  - destruct (Z.lt_trichotomy views 0) as [Hneg | [-> | Hv]].
    + left. exists 0. apply calculate_viral_score_neg; assumption.
    + left. exists 0. reflexivity.
    + destruct (Z_lt_le_dec (Z.abs likes) (float_limit * views)) as [Hq | Hq].
      * left. eexists. apply calculate_viral_score_pos; assumption.
      * right. apply calculate_viral_score_overflow; [lia|]. left. lia.
  - destruct (Z.eq_dec views 0) as [-> | Hnz].
    + left. exists 0. reflexivity.
    + right. apply calculate_viral_score_overflow; [assumption|]. right.
      assumption.
Qed.

(** C4, as the code has it.  For views, likes and age all non-negative:
    when [views] is 0, or when neither the quotient [likes / views] nor the
    age is too large for a float, the function returns and the score lies in
    [0, 100]; otherwise it raises [OverflowError]. *)
Theorem calculate_viral_score_bounds (views likes age_in_days : Z) :
  (0 <= views)%Z -> (0 <= likes)%Z -> (0 <= age_in_days)%Z ->
  ((views = 0
    \/ (likes < float_limit * views /\ age_in_days < float_limit))%Z ->
   exists s : R,
     calculate_viral_score views likes age_in_days = Ok s /\ 0 <= s <= 100)
  /\
  ((views <> 0
    /\ (float_limit * views <= likes \/ float_limit <= age_in_days))%Z ->
   calculate_viral_score views likes age_in_days = Raise OverflowError).
Proof.
  intros Hv Hl Ha. split.
  - intros H. apply calculate_viral_score_range; try assumption.
    destruct H as [H | [Hq Hd]]; [left; exact H | right; lia].
  - intros [Hnz H]. apply calculate_viral_score_overflow; [assumption|].
    destruct H as [H | H]; [left; lia | right; lia].
Qed.

Lemma calculate_viral_score_bounds_witness :
  ((0 <= 1000)%Z /\ (0 <= 50)%Z /\ (0 <= 3)%Z /\
   (50 < float_limit * 1000)%Z /\ (3 < float_limit)%Z) /\
  exists s : R, calculate_viral_score 1000 50 3 = Ok s /\ 0 <= s <= 100.
Proof.
  split; [repeat split; (lia || (vm_compute; reflexivity))|].
  apply (proj1 (calculate_viral_score_bounds 1000%Z 50%Z 3%Z
                  ltac:(lia) ltac:(lia) ltac:(lia))).
  right. split; vm_compute; reflexivity.
Defined.

(** C4 refuted as stated: with one view and [10^400] likes the quotient
    is too large for a float, and so is an age of [10^400] days; the call
    raises [OverflowError] and gives no score. *)
Lemma calculate_viral_score_overflow_error :
  calculate_viral_score 1 (10 ^ 400) 0 = Raise OverflowError /\
  calculate_viral_score 1 0 (10 ^ 400) = Raise OverflowError.
Proof.
  split; apply calculate_viral_score_overflow; try lia.
  - left. split; [lia | vm_compute; discriminate].
  - right. vm_compute. discriminate.
Qed.

(** C9.  With [views = 0] the score is 0 whatever the likes and the age:
    the function returns at its first test, before any division or
    conversion.  And at no input does it meet a division by zero or a
    domain error: it returns, or raises [OverflowError]. *)
Theorem calculate_viral_score_zero_views :
  (forall likes age_in_days : Z,
      calculate_viral_score 0 likes age_in_days = Ok 0) /\
  (forall views likes age_in_days : Z,
      (exists s : R, calculate_viral_score views likes age_in_days = Ok s)
      \/ calculate_viral_score views likes age_in_days = Raise OverflowError).
Proof.
  split.
  - intros likes age. reflexivity.
  - apply calculate_viral_score_cases.
Qed.

(** C2, as the code has it.  With the age fixed, the score does not
    decrease when the views grow and the likes-per-view ratio does not
    shrink ([likes1 / views1 <= likes2 / views2], written without division);
    in particular it is monotone in views when there are no likes.  Both
    calls return as long as the age and the larger ratio are within the
    range of floats. *)
Theorem calculate_viral_score_mono_views_ratio
  (views1 likes1 views2 likes2 age : Z) :
  (0 <= views1 <= views2)%Z -> (0 <= likes1)%Z -> (0 <= likes2)%Z ->
  (0 <= age)%Z ->
  (likes1 * views2 <= likes2 * views1)%Z ->
  (age < float_limit)%Z ->
  (views2 = 0 \/ likes2 < float_limit * views2)%Z ->
  exists s1 s2 : R,
    calculate_viral_score views1 likes1 age = Ok s1 /\
    calculate_viral_score views2 likes2 age = Ok s2 /\
    s1 <= s2.
Proof.
  intros [Hv1 Hv] Hl1 Hl2 Hage Hratio Hd Hq.
  pose proof float_limit_pos as Hpos.
  destruct (calculate_viral_score_range views2 likes2 age)
    as (s2 & E2 & Hs2); try lia.
  destruct (Z.eq_dec views1 0) as [-> | Hnz].
  - exists 0, s2. repeat split; [assumption | lra].
  - destruct Hq as [Hq | Hq]; [lia|].
    assert (Hq1 : (likes1 < float_limit * views1)%Z) by nia.
    exists (Rmin (raw_score views1 likes1 age) 100),
           (Rmin (raw_score views2 likes2 age) 100).
    repeat split; try (apply calculate_viral_score_pos; lia).
    apply Rle_min_compat_r. apply raw_score_mono; try lia; assumption.
Qed.

Lemma calculate_viral_score_mono_views_ratio_witness :
  ((0 <= 10 <= 100)%Z /\ (0 <= 1)%Z /\ (0 <= 10)%Z /\ (0 <= 20)%Z /\
   (1 * 100 <= 10 * 10)%Z /\ (20 < float_limit)%Z /\
   (10 < float_limit * 100)%Z) /\
  exists s1 s2 : R,
    calculate_viral_score 10 1 20 = Ok s1 /\
    calculate_viral_score 100 10 20 = Ok s2 /\
    s1 <= s2.
Proof.
  split; [repeat split; (lia || (vm_compute; reflexivity))|].
  apply (calculate_viral_score_mono_views_ratio 10%Z 1%Z 100%Z 10%Z 20%Z);
    try lia; [|right]; vm_compute; reflexivity.
Defined.

Lemma log10_10 : ln 10 / ln 10 = 1.
Proof. pose proof ln10_pos. field. lra. Qed.

Lemma score_1_1_20 : calculate_viral_score 1 1 20 = Ok 100.
Proof.
  rewrite calculate_viral_score_pos by (lia || (vm_compute; reflexivity)).
  f_equal.
  unfold raw_score. rewrite ln_1.
  replace (10 - 20 * / 2) with 0 by lra.
  rewrite Rmax_left by lra.
  replace ((0 / ln 10 * 10 + 1 / 1 * 100) * 1) with 100
    by (pose proof ln10_pos; field; lra).
  apply Rmin_left. lra.
Qed.

Lemma score_10_1_20 : calculate_viral_score 10 1 20 = Ok 20.
Proof.
  rewrite calculate_viral_score_pos by (lia || (vm_compute; reflexivity)).
  f_equal.
  unfold raw_score. rewrite log10_10.
  replace (10 - 20 * / 2) with 0 by lra.
  rewrite Rmax_left by lra.
  replace ((1 * 10 + 1 / 10 * 100) * 1) with 20 by lra.
  apply Rmin_left. lra.
Qed.

(** C2 refuted as stated: one like, age 20 days; going from 1 view to 10
    views takes the score from 100 down to 20. *)
Lemma calculate_viral_score_not_mono_views :
  ~ (forall likes age views1 views2 : Z,
        (0 <= likes)%Z -> (0 <= age)%Z -> (views1 <= views2)%Z ->
        forall s1 s2 : R,
          calculate_viral_score views1 likes age = Ok s1 ->
          calculate_viral_score views2 likes age = Ok s2 ->
          s1 <= s2).
Proof.
  intros H.
  specialize (H 1%Z 20%Z 1%Z 10%Z ltac:(lia) ltac:(lia) ltac:(lia)
                100 20 score_1_1_20 score_10_1_20).
  lra.
Qed.

End ScoreFacts.

Section DurationFacts.

Import Duration.
Open Scope string_scope.

Lemma span_digits_all (s : string) : all_digits (fst (span_digits s)) = true.
Proof.
  induction s as [|c s IH]; cbn; [reflexivity|].
  destruct (is_digit c) eqn:Hc; [|reflexivity].
  destruct (span_digits s) as [ds rest]. cbn in *.
  rewrite Hc, IH. reflexivity.
Qed.

Lemma optional_group_digits (u : ascii) (s g rest : string) :
  optional_group u s = (Some g, rest) -> all_digits g = true.
Proof.
  unfold optional_group. pose proof (span_digits_all s) as Hall.
  destruct (span_digits s) as [[|d ds] [|c r]]; try discriminate.
  destruct (Ascii.eqb c u); intros [= <- _]. exact Hall.
Qed.

Lemma digits_value_ok (s : string) :
  all_digits s = true ->
  forall acc : Z, (0 <= acc)%Z ->
  exists n : Z, digits_value acc s = Ok n /\ (0 <= n)%Z.
Proof.
  induction s as [|c s IH]; cbn [digits_value all_digits];
    intros Hall acc Hacc.
  - exists acc. split; [reflexivity | assumption].
  - apply andb_prop in Hall as [Hc Hs]. rewrite Hc.
    apply IH; [assumption|].
    pose proof (N2Z.is_nonneg (N_of_ascii c - 48)). lia.
Qed.

(** A digit is no blank, no sign and no underscore. *)
Lemma digit_is_plain (c : ascii) :
  is_digit c = true ->
  is_space c = false /\ Ascii.eqb c "+" = false /\ Ascii.eqb c "-" = false
  /\ Ascii.eqb c "_" = false.
Proof.
  destruct c as [[] [] [] [] [] [] [] []]; intros H; vm_compute in H;
    try discriminate H; repeat split.
Qed.

(** On a text of digits the scan of [int] goes to the end, counts every
    character and reads the value of the digits. *)
Lemma scan_digits_all (s : string) :
  all_digits s = true ->
  forall (acc : Z) (n : nat),
  exists v : Z,
    digits_value acc s = Ok v /\
    scan_digits acc n false s = Some (v, (n + String.length s)%nat, "").
Proof.
  induction s as [|c s IH];
    cbn [all_digits digits_value scan_digits String.length];
    intros Hall acc n.
  - exists acc. rewrite Nat.add_0_r. split; reflexivity.
  - apply andb_prop in Hall as [Hc Hs]. rewrite Hc.
    destruct (IH Hs (10 * acc + Z.of_N (N_of_ascii c - 48))%Z (S n))
      as (v & Ev & Es).
    exists v. split; [exact Ev|]. rewrite Es.
    replace (S n + String.length s)%nat with (n + S (String.length s))%nat
      by lia.
    reflexivity.
Qed.

(** [int] on a text of digits: the value of the digits, unless there are
    more of them than the limit. *)
Lemma int_of_str_digits (s : string) :
  all_digits s = true -> s <> "" ->
  int_of_str s
  = if (max_str_digits <? String.length s)%nat
    then Raise ValueError else digits_value 0 s.
Proof.
  intros Hall Hne. destruct s as [|c x]; [congruence|].
  pose proof Hall as Hc. cbn [all_digits] in Hc.
  apply andb_prop in Hc as [Hc _].
  destruct (digit_is_plain c Hc) as (Hsp & Hplus & Hminus & Hus).
  destruct (scan_digits_all (String c x) Hall 0%Z 0%nat) as (v & Ev & Es).
  unfold int_of_str. cbn [lstrip]. rewrite Hsp, Hplus, Hminus, Hus, Es, Ev.
  cbn [Nat.add String.length Nat.eqb all_spaces negb].
  destruct (max_str_digits <? S (String.length x))%nat; reflexivity.
Qed.

Lemma int_or_zero_ok (g : option string) :
  (forall x, g = Some x -> all_digits x = true) ->
  (digit_count g <= max_str_digits)%nat ->
  exists n : Z, int_or_zero g = Ok n /\ (0 <= n)%Z.
Proof.
  intros Hg Hlen. destruct g as [[|c x]|]; cbn [int_or_zero].
  - exists 0%Z. split; [reflexivity | lia].
  - rewrite int_of_str_digits by (try apply Hg; congruence).
    cbn [digit_count] in Hlen.
    destruct (Nat.ltb_spec max_str_digits (String.length (String c x)));
      [lia|].
    apply digits_value_ok; [apply Hg; reflexivity | lia].
  - exists 0%Z. split; [reflexivity | lia].
Qed.

Lemma int_or_zero_limit (g : option string) :
  (forall x, g = Some x -> all_digits x = true) ->
  (max_str_digits < digit_count g)%nat ->
  int_or_zero g = Raise ValueError.
Proof.
  intros Hg Hlen. destruct g as [[|c x]|]; cbn [int_or_zero digit_count] in *;
    try (cbn in Hlen; lia).
  rewrite int_of_str_digits by (try apply Hg; congruence).
  destruct (Nat.ltb_spec max_str_digits (String.length (String c x)));
    [reflexivity | lia].
Qed.

(** What the pattern captures is made of digits. *)
Lemma re_match_digits (d : string) (h m s : option string) :
  re_match d = Some (h, m, s) ->
  (forall x, h = Some x -> all_digits x = true) /\
  (forall x, m = Some x -> all_digits x = true) /\
  (forall x, s = Some x -> all_digits x = true).
Proof.
  unfold re_match. destruct d as [|c1 [|c2 s0]]; try discriminate.
  destruct (Ascii.eqb c1 "P" && Ascii.eqb c2 "T")%bool; [|discriminate].
  destruct (optional_group "H" s0) as [gh s1] eqn:Eh.
  destruct (optional_group "M" s1) as [gm s2] eqn:Em.
  destruct (optional_group "S" s2) as [gs s3] eqn:Es.
  intros [= <- <- <-].
  repeat split; intros x ->;
    eauto using optional_group_digits.
Qed.

Lemma re_match_no_prefix (d : string) :
  prefix "PT" d = false -> re_match d = None.
Proof.
  unfold re_match. destruct d as [|c1 [|c2 s0]]; try reflexivity.
  cbn. destruct (Ascii.eqb_spec c1 "P") as [->|]; [|reflexivity].
  destruct (Ascii.eqb_spec c2 "T") as [->|]; [|reflexivity].
  cbn. destruct s0; discriminate.
Qed.

Lemma string_of_uint_digits (u : Decimal.uint) :
  all_digits (NilEmpty.string_of_uint u) = true.
Proof. induction u; cbn; auto. Qed.

Lemma string_of_uint_empty (u : Decimal.uint) :
  NilEmpty.string_of_uint u = "" -> u = Decimal.Nil.
Proof. destruct u; cbn; congruence. Qed.

Lemma str_of_Z_digits (n : Z) : (0 <= n)%Z -> all_digits (str_of_Z n) = true.
Proof.
  intros Hn. destruct n; try lia; apply string_of_uint_digits.
Qed.

Lemma str_of_Z_nonempty (n : Z) : str_of_Z n <> "".
Proof.
  destruct n as [|p|p]; cbn; try discriminate.
  intros H. apply string_of_uint_empty in H.
  exact (DecimalPos.Unsigned.to_uint_nonnil p H).
Qed.

Lemma str_of_Z_number (n : Z) : (0 <= n)%Z -> number (str_of_Z n) = true.
Proof.
  intros Hn. unfold number. rewrite str_of_Z_digits by assumption.
  destruct (String.eqb_spec (str_of_Z n) "") as [E|_]; [|reflexivity].
  destruct (str_of_Z_nonempty n E).
Qed.

Lemma fmt_02d_wide (n : Z) :
  (0 <= n)%Z -> two_or_more_digits (fmt_02d n) = true.
Proof.
  intros Hn. unfold two_or_more_digits, fmt_02d.
  pose proof (str_of_Z_digits n Hn) as Hd.
  pose proof (str_of_Z_nonempty n) as Hne.
  destruct (Nat.ltb_spec (String.length (str_of_Z n)) 2) as [Hlt|Hge].
  - cbn [String.length all_digits]. rewrite Hd.
    destruct (str_of_Z n); [congruence|]. reflexivity.
  - rewrite Hd. apply andb_true_intro. split; [|reflexivity].
    apply Nat.leb_le. assumption.
Qed.

Lemma fmt_02d_below_100 :
  forallb (fun k => two_digits (fmt_02d (Z.of_nat k))) (seq 0 100) = true.
Proof. vm_compute. reflexivity. Qed.

Lemma fmt_02d_two (n : Z) :
  (0 <= n < 100)%Z -> two_digits (fmt_02d n) = true.
Proof.
  intros Hn. pose proof fmt_02d_below_100 as H.
  rewrite forallb_forall in H.
  specialize (H (Z.to_nat n)). rewrite Z2Nat.id in H by lia.
  apply H. apply in_seq. lia.
Qed.

Lemma digit_not_colon (c : ascii) : is_digit c = true -> Ascii.eqb c ":" = false.
Proof.
  intros Hc. destruct (Ascii.eqb_spec c ":") as [->|]; [|reflexivity].
  discriminate.
Qed.

Lemma split_colon_digits (a : string) :
  all_digits a = true -> split_colon a = [a].
Proof.
  induction a as [|c a IH]; cbn; [reflexivity|].
  intros H. apply andb_prop in H as [Hc Ha].
  rewrite (digit_not_colon _ Hc), (IH Ha). reflexivity.
Qed.

Lemma split_colon_app (a b : string) :
  all_digits a = true ->
  split_colon (a ++ String ":" b) = a :: split_colon b.
Proof.
  induction a as [|c a IH]; cbn; [reflexivity|].
  intros H. apply andb_prop in H as [Hc Ha].
  rewrite (digit_not_colon _ Hc), (IH Ha). reflexivity.
Qed.

Lemma two_or_more_digits_all (f : string) :
  two_or_more_digits f = true -> all_digits f = true.
Proof. unfold two_or_more_digits. intros H. apply andb_prop in H. tauto. Qed.

Lemma two_digits_all (f : string) :
  two_digits f = true -> all_digits f = true.
Proof. unfold two_digits. intros H. apply andb_prop in H. tauto. Qed.

Lemma split_colon_ms (m s : Z) :
  (0 <= m)%Z -> (0 <= s)%Z ->
  split_colon (str_of_Z m ++ ":" ++ fmt_02d s) = [str_of_Z m; fmt_02d s].
Proof.
  intros Hm Hs. change (":" ++ fmt_02d s) with (String ":" (fmt_02d s)).
  rewrite split_colon_app by (apply str_of_Z_digits; assumption).
  rewrite split_colon_digits
    by (apply two_or_more_digits_all, fmt_02d_wide; assumption).
  reflexivity.
Qed.

Lemma split_colon_hms (h m s : Z) :
  (0 <= h)%Z -> (0 <= m)%Z -> (0 <= s)%Z ->
  split_colon (str_of_Z h ++ ":" ++ fmt_02d m ++ ":" ++ fmt_02d s)
  = [str_of_Z h; fmt_02d m; fmt_02d s].
Proof.
  intros Hh Hm Hs.
  change (":" ++ fmt_02d m ++ ":" ++ fmt_02d s)
    with (String ":" (fmt_02d m ++ String ":" (fmt_02d s))).
  rewrite split_colon_app by (apply str_of_Z_digits; assumption).
  rewrite split_colon_app
    by (apply two_or_more_digits_all, fmt_02d_wide; assumption).
  rewrite split_colon_digits
    by (apply two_or_more_digits_all, fmt_02d_wide; assumption).
  reflexivity.
Qed.

(** *** Reading back what the format strings wrote *)

Lemma digits_value_of_uint_acc (u : Decimal.uint) (p : positive) :
  digits_value (Z.pos p) (NilEmpty.string_of_uint u)
  = Ok (Z.pos (Pos.of_uint_acc u p)).
Proof.
  revert p. induction u; intros p; cbn [NilEmpty.string_of_uint
    digits_value Pos.of_uint_acc]; try reflexivity;
    match goal with
    | |- context [is_digit ?c] => change (is_digit c) with true; cbv iota
    end;
    match goal with
    | |- digits_value (_ + ?d) _ = Ok (Z.pos (Pos.of_uint_acc _ ?q)) =>
        let v := eval vm_compute in d in
        change d with v;
        match goal with
        | |- digits_value ?z _ = _ => replace z with (Z.pos q) by lia
        end
    end; apply IHu.
Qed.

Lemma digits_value_of_uint (u : Decimal.uint) :
  digits_value 0 (NilEmpty.string_of_uint u) = Ok (Z.of_N (Pos.of_uint u)).
Proof.
  induction u; cbn [NilEmpty.string_of_uint digits_value Pos.of_uint];
    try reflexivity;
    match goal with
    | |- context [is_digit ?c] => change (is_digit c) with true; cbv iota
    end;
    [exact IHu | ..]; apply digits_value_of_uint_acc.
Qed.

Lemma digits_value_str_of_Z (n : Z) :
  (0 <= n)%Z -> digits_value 0 (str_of_Z n) = Ok n.
Proof.
  intros Hn.
  assert (E : str_of_Z n = NilEmpty.string_of_uint (N.to_uint (Z.to_N n)))
    by (destruct n; try reflexivity; lia).
  rewrite E, digits_value_of_uint. f_equal.
  change (Pos.of_uint (N.to_uint (Z.to_N n)))
    with (N.of_uint (N.to_uint (Z.to_N n))).
  rewrite DecimalN.Unsigned.of_to. lia.
Qed.

Lemma digits_value_fmt_02d (n : Z) :
  (0 <= n)%Z -> digits_value 0 (fmt_02d n) = Ok n.
Proof.
  intros Hn. unfold fmt_02d.
  destruct (String.length (str_of_Z n) <? 2)%nat;
    [|apply digits_value_str_of_Z; assumption].
  cbn [digits_value]. change (is_digit "0") with true. cbv iota.
  change (10 * 0 + Z.of_N (N_of_ascii "0" - 48))%Z with 0%Z.
  apply digits_value_str_of_Z. assumption.
Qed.

Lemma digit_le_9 (c : ascii) :
  is_digit c = true -> (0 <= Z.of_N (N_of_ascii c - 48) <= 9)%Z.
Proof.
  unfold is_digit. intros H. apply andb_prop in H as [H1 H2].
  apply N.leb_le in H1, H2. lia.
Qed.

(** Two digits write a number below 100. *)
Lemma two_digits_below_100 (f : string) (v : Z) :
  two_digits f = true -> digits_value 0 f = Ok v -> (v < 100)%Z.
Proof.
  unfold two_digits. intros H. apply andb_prop in H as [Hlen Hall].
  apply Nat.eqb_eq in Hlen.
  destruct f as [|c [|d [|e f]]]; try discriminate Hlen.
  cbn [all_digits] in Hall.
  apply andb_prop in Hall as [Hc Hall]. apply andb_prop in Hall as [Hd _].
  cbn [digits_value]. rewrite Hc, Hd. intros E.
  pose proof (digit_le_9 c Hc). pose proof (digit_le_9 d Hd).
  assert (Ev : v = (10 * (10 * 0 + Z.of_N (N_of_ascii c - 48))
                    + Z.of_N (N_of_ascii d - 48))%Z) by congruence.
  lia.
Qed.

Lemma reads_str_of_Z (n : Z) : (0 <= n)%Z -> reads (str_of_Z n) n.
Proof.
  intros Hn. split; [apply str_of_Z_number | apply digits_value_str_of_Z];
    assumption.
Qed.

Lemma reads_padded_fmt_02d (n : Z) :
  (0 <= n)%Z -> reads_padded (fmt_02d n) n.
Proof.
  intros Hn. split; [apply fmt_02d_wide; assumption|].
  split; [apply digits_value_fmt_02d; assumption|]. split.
  - intros H. apply (two_digits_below_100 (fmt_02d n)); [exact H|].
    apply digits_value_fmt_02d. assumption.
  - intros H. apply fmt_02d_two. lia.
Qed.

Lemma shows_hms (h m s : Z) :
  (0 < h)%Z -> (0 <= m)%Z -> (0 <= s)%Z ->
  shows (str_of_Z h ++ ":" ++ fmt_02d m ++ ":" ++ fmt_02d s) h m s.
Proof.
  intros Hh Hm Hs. unfold shows. rewrite split_colon_hms by lia.
  split; [exact Hh|]. split; [apply reads_str_of_Z; lia|].
  split; apply reads_padded_fmt_02d; assumption.
Qed.

Lemma shows_ms (h m s : Z) :
  (h <= 0)%Z -> (0 <= m)%Z -> (0 <= s)%Z ->
  shows (str_of_Z m ++ ":" ++ fmt_02d s) h m s.
Proof.
  intros Hh Hm Hs. unfold shows. rewrite split_colon_ms by lia.
  split; [exact Hh|]. split; [apply reads_str_of_Z; lia|].
  apply reads_padded_fmt_02d; assumption.
Qed.

(** When the text matches and no group is over the limit, the function
    returns the display of the three captured values. *)
Lemma parse_duration_groups (d : string) (gh gm gs : option string) :
  re_match d = Some (gh, gm, gs) ->
  (digit_count gh <= max_str_digits)%nat ->
  (digit_count gm <= max_str_digits)%nat ->
  (digit_count gs <= max_str_digits)%nat ->
  exists h m s : Z,
    int_or_zero gh = Ok h /\ int_or_zero gm = Ok m /\ int_or_zero gs = Ok s /\
    (0 <= h)%Z /\ (0 <= m)%Z /\ (0 <= s)%Z /\
    parse_duration d
    = Ok (if (h >? 0)%Z
          then str_of_Z h ++ ":" ++ fmt_02d m ++ ":" ++ fmt_02d s
          else str_of_Z m ++ ":" ++ fmt_02d s).
Proof.
  intros Ematch Lh Lm Ls.
  destruct (re_match_digits d _ _ _ Ematch) as (Dh & Dm & Ds).
  destruct (int_or_zero_ok gh Dh Lh) as (h & Eh & Hh).
  destruct (int_or_zero_ok gm Dm Lm) as (m & Em & Hm).
  destruct (int_or_zero_ok gs Ds Ls) as (s & Es & Hs).
  exists h, m, s. repeat (split; [assumption|]).
  unfold parse_duration.
  destruct (String.eqb_spec d "") as [-> | _]; [discriminate Ematch|].
  rewrite Ematch, Eh, Em, Es. cbn [bind].
  destruct (h >? 0)%Z; reflexivity.
Qed.

(** When a captured group is over the limit, [int] raises on it. *)
Lemma parse_duration_over_limit (d : string) (gh gm gs : option string) :
  re_match d = Some (gh, gm, gs) ->
  (max_str_digits < digit_count gh)%nat
  \/ (max_str_digits < digit_count gm)%nat
  \/ (max_str_digits < digit_count gs)%nat ->
  parse_duration d = Raise ValueError.
Proof.
  intros Ematch Hover.
  destruct (re_match_digits d _ _ _ Ematch) as (Dh & Dm & Ds).
  unfold parse_duration.
  destruct (String.eqb_spec d "") as [-> | _]; [discriminate Ematch|].
  rewrite Ematch.
  destruct (le_lt_dec (digit_count gh) max_str_digits) as [Lh | Lh];
    [|rewrite (int_or_zero_limit gh Dh Lh); reflexivity].
  destruct (int_or_zero_ok gh Dh Lh) as (h & -> & _). cbn [bind].
  destruct (le_lt_dec (digit_count gm) max_str_digits) as [Lm | Lm];
    [|rewrite (int_or_zero_limit gm Dm Lm); reflexivity].
  destruct (int_or_zero_ok gm Dm Lm) as (m & -> & _). cbn [bind].
  destruct (le_lt_dec (digit_count gs) max_str_digits) as [Ls | Ls];
    [|rewrite (int_or_zero_limit gs Ds Ls); reflexivity].
  lia.
Qed.

(** C10, as the code has it, on ASCII text.  A text that is empty or does
    not start with [PT] gives [0:00].  When no group captured by the
    pattern has more digits than [int] takes, the function returns, and
    its result shows the captured hours, minutes and seconds (0 for a part
    that is not captured): as [H:MM:SS] exactly when the hours are
    positive, as [M:SS] otherwise, the padded fields having two digits or
    more, and exactly two when their value is below 100.  When a captured
    group is over the limit, the function raises [ValueError]. *)
Theorem parse_duration_display (duration : string) :
  isascii duration = true ->
  ((duration = "" \/ prefix "PT" duration = false) ->
   parse_duration duration = Ok "0:00") /\
  (within_digit_limit duration = true ->
   exists out : string,
     parse_duration duration = Ok out /\
     let '(h, m, s) := parsed_fields duration in shows out h m s) /\
  (within_digit_limit duration = false ->
   parse_duration duration = Raise ValueError).
Proof.
  intros _.
  assert (Hnone : re_match duration = None ->
                  parse_duration duration = Ok "0:00").
  { intros E. unfold parse_duration. rewrite E.
    destruct (duration =? ""); reflexivity. }
  split; [|split].
  - intros [-> | Hpre]; [reflexivity|].
    apply Hnone, re_match_no_prefix, Hpre.
  - unfold within_digit_limit, parsed_fields, groups.
    destruct (re_match duration) as [[[gh gm] gs]|] eqn:Ematch.
    + intros Hlim. apply andb_prop in Hlim as [Hlim Ls].
      apply andb_prop in Hlim as [Lh Lm].
      apply Nat.leb_le in Lh, Lm, Ls.
      destruct (parse_duration_groups duration gh gm gs Ematch Lh Lm Ls)
        as (h & m & s & Eh & Em & Es & Hh & Hm & Hs & E).
      eexists. split; [exact E|].
      unfold group_value. rewrite Eh, Em, Es.
      destruct (Z.gtb_spec h 0); [apply shows_hms | apply shows_ms]; lia.
    + intros _. exists "0:00". split; [apply Hnone; reflexivity|].
      apply (shows_ms 0 0 0); lia.
  - unfold within_digit_limit, groups.
    destruct (re_match duration) as [[[gh gm] gs]|] eqn:Ematch;
      [|discriminate].
    intros Hlim. apply (parse_duration_over_limit duration gh gm gs Ematch).
    destruct (Nat.leb_spec (digit_count gh) max_str_digits) as [_|?];
      [|left; assumption].
    destruct (Nat.leb_spec (digit_count gm) max_str_digits) as [_|?];
      [|right; left; assumption].
    destruct (Nat.leb_spec (digit_count gs) max_str_digits) as [_|?];
      [discriminate Hlim | right; right; assumption].
Qed.

Lemma parse_duration_display_witness :
  isascii "PT1H2M100S" = true /\
  ((("PT1H2M100S" = "" \/ prefix "PT" "PT1H2M100S" = false) ->
    parse_duration "PT1H2M100S" = Ok "0:00") /\
   (within_digit_limit "PT1H2M100S" = true ->
    exists out : string,
      parse_duration "PT1H2M100S" = Ok out /\
      let '(h, m, s) := parsed_fields "PT1H2M100S" in shows out h m s) /\
   (within_digit_limit "PT1H2M100S" = false ->
    parse_duration "PT1H2M100S" = Raise ValueError)).
Proof.
  split; [reflexivity|].
  apply (parse_duration_display "PT1H2M100S"). reflexivity.
Defined.

(** C10 refuted as stated: a seconds part of 100 is printed with three
    digits, so the result is neither [M:SS] nor [H:MM:SS]. *)
Lemma parse_duration_three_digit_seconds :
  parse_duration "PT100S" = Ok "0:100" /\
  is_m_ss "0:100" = false /\ is_h_mm_ss "0:100" = false.
Proof. repeat split. Qed.

(** And the function is not total: on a seconds part of 4301 digits [int]
    refuses the text and the call raises [ValueError]. *)
Lemma parse_duration_digit_limit :
  within_digit_limit Scenarios.long_duration = false /\
  parse_duration Scenarios.long_duration = Raise ValueError.
Proof. split; vm_compute; reflexivity. Qed.

Example parse_duration_PT1M30S : parse_duration "PT1M30S" = Ok "1:30".
Proof. reflexivity. Qed.

Example parse_duration_PT2H3M : parse_duration "PT2H3M" = Ok "2:03:00".
Proof. reflexivity. Qed.

Example parse_duration_not_iso : parse_duration "1:30" = Ok "0:00".
Proof. reflexivity. Qed.

End DurationFacts.

(** ** Lists, slices and the sort *)

Section ListFacts.

Import VideoAggregator Scenarios.

Lemma length_range (n : Z) : List.length (range n) = Z.to_nat n.
Proof. unfold range. rewrite length_map, length_seq. reflexivity. Qed.

Lemma length_slice_to {A : Type} (l : list A) (n : Z) :
  (0 <= n)%Z -> (Z.of_nat (List.length (slice_to l n)) <= n)%Z.
Proof.
  intros Hn. unfold slice_to.
  destruct (Z.leb_spec 0 n) as [_|?]; [|lia].
  rewrite length_firstn. lia.
Qed.

Lemma slice_to_all {A : Type} (l : list A) (n : Z) :
  (Z.of_nat (List.length l) <= n)%Z -> slice_to l n = l.
Proof.
  intros Hn. unfold slice_to.
  destruct (Z.leb_spec 0 n) as [_|?]; [|lia].
  apply firstn_all2. lia.
Qed.


Lemma length_slice_to_pos {A : Type} (l : list A) (n : Z) :
  (0 <= n)%Z ->
  List.length (slice_to l n) = Nat.min (Z.to_nat n) (List.length l).
Proof.
  intros Hn. unfold slice_to.
  destruct (Z.leb_spec 0 n) as [_|?]; [|lia].
  apply length_firstn.
Qed.

Lemma firstn_In {A : Type} (k : nat) (l : list A) (x : A) :
  In x (firstn k l) -> In x l.
Proof.
  revert l. induction k as [|k IH]; intros [|a l]; cbn; try tauto.
  intros [->|H]; [left; reflexivity | right; apply IH, H].
Qed.

Lemma slice_to_In {A : Type} (l : list A) (n : Z) (x : A) :
  In x (slice_to l n) -> In x l.
Proof. unfold slice_to. destruct (0 <=? n)%Z; apply firstn_In. Qed.

Lemma slice_to_Forall {A : Type} (P : A -> Prop) (l : list A) (n : Z) :
  Forall P l -> Forall P (slice_to l n).
Proof.
  rewrite !Forall_forall. intros H x Hx. apply H.
  apply slice_to_In with (n := n). exact Hx.
Qed.

Lemma firstn_StronglySorted {A : Type} (R : A -> A -> Prop) (k : nat)
  (l : list A) :
  StronglySorted R l -> StronglySorted R (firstn k l).
Proof.
  intros Hs. revert k. induction Hs as [|a l Hs IH Ha]; intros [|k]; cbn;
    try constructor.
  - apply IH.
  - rewrite Forall_forall in *. intros x Hx. apply Ha.
    apply firstn_In with (k := k). exact Hx.
Qed.

Lemma slice_to_sorted (l : list ViralVideo) (n : Z) :
  sorted_by_score_desc l -> sorted_by_score_desc (slice_to l n).
Proof.
  unfold slice_to. destruct (0 <=? n)%Z; apply firstn_StronglySorted.
Qed.

Lemma insert_by_score_perm (v : ViralVideo) (l : list ViralVideo) :
  Permutation (insert_by_score v l) (v :: l).
Proof.
  induction l as [|w l IH]; cbn; [reflexivity|].
  destruct (Rle_dec (viral_score w) (viral_score v)); [reflexivity|].
  rewrite IH. apply perm_swap.
Qed.

Lemma sort_by_score_perm (l : list ViralVideo) :
  Permutation (sort_by_score l) l.
Proof.
  induction l as [|v l IH]; cbn; [reflexivity|].
  rewrite insert_by_score_perm. constructor. exact IH.
Qed.

Lemma length_sort_by_score (l : list ViralVideo) :
  List.length (sort_by_score l) = List.length l.
Proof. apply Permutation_length, sort_by_score_perm. Qed.

Lemma insert_by_score_sorted (v : ViralVideo) (l : list ViralVideo) :
  sorted_by_score_desc l -> sorted_by_score_desc (insert_by_score v l).
Proof.
  unfold sorted_by_score_desc.
  induction 1 as [|w l Hs IH Hw]; cbn.
  - repeat constructor.
  - destruct (Rle_dec (viral_score w) (viral_score v)) as [Hle | Hgt].
    + constructor; [constructor; assumption|].
      constructor; [exact Hle|].
      rewrite Forall_forall in *. intros x Hx.
      specialize (Hw x Hx). unfold score_ge in *. lra.
    + constructor; [exact IH|].
      apply (Permutation_Forall (Permutation_sym (insert_by_score_perm v l))).
      constructor; [unfold score_ge; lra | exact Hw].
Qed.

Lemma sort_by_score_sorted (l : list ViralVideo) :
  sorted_by_score_desc (sort_by_score l).
Proof.
  induction l as [|v l IH]; cbn.
  - constructor.
  - apply insert_by_score_sorted, IH.
Qed.

(** The records put together are those of the tasks that ended in a
    list. *)
Lemma extend_with_lists_In (results : list (exc (list ViralVideo)))
  (v : ViralVideo) :
  In v (extend_with_lists results) <->
  exists l, In (Ok l) results /\ In v l.
Proof.
  induction results as [|[l|e] rest IH]; cbn.
  - split; [tauto | intros (l & [] & _)].
  - rewrite in_app_iff, IH. split.
    + intros [Hv | (l' & Hl' & Hv)].
      * exists l. auto.
      * exists l'. auto.
    + intros (l' & [[= ->] | Hl'] & Hv); [left; exact Hv|].
      right. exists l'. auto.
  - rewrite IH. split.
    + intros (l & Hl & Hv). exists l. auto.
    + intros (l & [[=] | Hl] & Hv). exists l. auto.
Qed.

End ListFacts.

(** ** The aggregator *)

Section AggregatorFacts.

Import VideoAggregator Scenarios.

Lemma slice_to_nil {A : Type} (n : Z) : slice_to (@nil A) n = [].
Proof. unfold slice_to. destruct (0 <=? n)%Z; apply firstn_nil. Qed.


Lemma aggregate_unfold (f : Fetchers) (w : World) (limit : Z)
  (user : option User) (L : Z) :
  tier_limit w limit user = Ok L ->
  aggregate f w limit user
  = Ok (slice_to
          (sort_by_score (extend_with_lists (gather f (videos_per_platform L))))
          L).
Proof. intros E. unfold aggregate. rewrite E. reflexivity. Qed.

Lemma length_youtube_mock (w : World) (n : Z) :
  List.length (_get_youtube_mock_data w n) = Z.to_nat n.
Proof.
  unfold _get_youtube_mock_data. rewrite length_map. apply length_range.
Qed.

Lemma length_tiktok_mock (w : World) (n : Z) :
  List.length (get_mock_tiktok_data w n) = Z.to_nat n.
Proof.
  unfold get_mock_tiktok_data. rewrite length_map. apply length_range.
Qed.

Lemma length_twitter_mock (w : World) (n : Z) :
  List.length (_get_twitter_mock_data w n) = Z.to_nat n.
Proof.
  unfold _get_twitter_mock_data. rewrite length_map. apply length_range.
Qed.


Lemma gather_youtube_down (n : Z) :
  gather fetchers_youtube_down n
  = [Raise (OtherError "youtube is down");
     Ok (get_mock_tiktok_data quiet_world n);
     Ok (_get_twitter_mock_data quiet_world n)].
Proof. reflexivity. Qed.


Lemma length_returned_youtube_down (n : Z) :
  List.length (extend_with_lists (gather fetchers_youtube_down n))
  = (2 * Z.to_nat n)%nat.
Proof.
  rewrite gather_youtube_down. cbn [extend_with_lists].
  rewrite !length_app, length_tiktok_mock, length_twitter_mock.
  cbn [List.length]. lia.
Qed.




(** The records put together are those that each of the three fetchers
    contributes. *)
Lemma extend_with_lists_gather (f : Fetchers) (n : Z) :
  extend_with_lists (gather f n)
  = (returned_by (youtube_fetcher f n)
     ++ returned_by (tiktok_fetcher f n)
     ++ returned_by (twitter_fetcher f n))%list.
Proof.
  unfold gather.
  destruct (youtube_fetcher f n), (tiktok_fetcher f n),
    (twitter_fetcher f n);
    cbn [extend_with_lists returned_by app]; rewrite ?app_nil_r;
    reflexivity.
Qed.

(** C5, as the code has it.  Once the plan lookup has given the limit
    [L], each of the three fetchers is asked for [max(L // 3, 5)] items
    and contributes its list when it returns one and nothing when it
    raises, whatever the other two do: the aggregator returns the sort by
    score of the three contributions, sliced to [L].  So every record of
    the output comes from a fetcher that returned a list; all of their
    records are there when they number at most [L]; and when all three
    raise the output is the empty list. *)
Theorem aggregate_isolates_failures
  (f : Fetchers) (w : World) (limit : Z) (user : option User) (L : Z) :
  tier_limit w limit user = Ok L ->
  let n := videos_per_platform L in
  let returned :=
    (returned_by (youtube_fetcher f n)
     ++ returned_by (tiktok_fetcher f n)
     ++ returned_by (twitter_fetcher f n))%list in
  exists out : list ViralVideo,
    aggregate f w limit user = Ok out /\
    out = slice_to (sort_by_score returned) L /\
    (forall v, In v out -> In v returned) /\
    ((Z.of_nat (List.length returned) <= L)%Z -> Permutation out returned) /\
    ((exists e1 e2 e3,
         youtube_fetcher f n = Raise e1 /\ tiktok_fetcher f n = Raise e2
         /\ twitter_fetcher f n = Raise e3) ->
     out = []).
Proof.
  intros E n returned. eexists.
  split; [apply aggregate_unfold, E|].
  rewrite extend_with_lists_gather. fold n. fold returned.
  split; [reflexivity|]. split; [|split].
  - intros v Hv. apply slice_to_In in Hv.
    apply (Permutation_in v (sort_by_score_perm returned)). exact Hv.
  - intros Hlen. rewrite slice_to_all.
    + apply sort_by_score_perm.
    + rewrite length_sort_by_score. exact Hlen.
  - intros (e1 & e2 & e3 & E1 & E2 & E3). subst returned.
    rewrite E1, E2, E3. apply slice_to_nil.
Qed.

Lemma aggregate_isolates_failures_witness :
  tier_limit quiet_world 10 None = Ok 10%Z /\
  let n := videos_per_platform 10 in
  let returned :=
    (returned_by (youtube_fetcher fetchers_youtube_down n)
     ++ returned_by (tiktok_fetcher fetchers_youtube_down n)
     ++ returned_by (twitter_fetcher fetchers_youtube_down n))%list in
  exists out : list ViralVideo,
    aggregate fetchers_youtube_down quiet_world 10 None = Ok out /\
    out = slice_to (sort_by_score returned) 10 /\
    (forall v, In v out -> In v returned) /\
    ((Z.of_nat (List.length returned) <= 10)%Z -> Permutation out returned) /\
    ((exists e1 e2 e3,
         youtube_fetcher fetchers_youtube_down n = Raise e1
         /\ tiktok_fetcher fetchers_youtube_down n = Raise e2
         /\ twitter_fetcher fetchers_youtube_down n = Raise e3) ->
     out = []).
Proof.
  split; [reflexivity|].
  apply (aggregate_isolates_failures fetchers_youtube_down quiet_world
           10 None 10).
  reflexivity.
Defined.

(** When every fetcher raises, the aggregator still returns, with no
    record. *)
Example aggregate_all_down :
  aggregate fetchers_all_down quiet_world 10 None = Ok [].
Proof. reflexivity. Qed.

(** C5 refuted as stated: the YouTube fetcher raises, the other two
    return five records each, and with a limit of 8 the output keeps 8 of
    these 10 records, not exactly the records of the fetchers that
    returned a list. *)
Lemma aggregate_drops_returned_records :
  exists out : list ViralVideo,
    aggregate fetchers_youtube_down quiet_world 8 None = Ok out /\
    List.length out = 8%nat /\
    List.length (extend_with_lists (gather fetchers_youtube_down 5)) = 10%nat /\
    ~ Permutation out (extend_with_lists (gather fetchers_youtube_down 5)).
Proof.
  eexists. split; [apply aggregate_unfold with (L := 8%Z); reflexivity|].
  assert (Hout :
    List.length
      (slice_to
         (sort_by_score
            (extend_with_lists
               (gather fetchers_youtube_down (videos_per_platform 8)))) 8)
    = 8%nat).
  { rewrite length_slice_to_pos by lia.
    rewrite length_sort_by_score, length_returned_youtube_down.
    reflexivity. }
  split; [exact Hout|]. split.
  - rewrite length_returned_youtube_down. reflexivity.
  - intros Hperm. apply Permutation_length in Hperm.
    rewrite Hout, length_returned_youtube_down in Hperm. discriminate.
Qed.

End AggregatorFacts.

(** ** The fetchers *)

Section FetcherFacts.

Import Score Duration VideoAggregator Scenarios.
Open Scope string_scope.

(** Inversion of a chain of binds that returned. *)
Ltac bind_inv H :=
  repeat match type of H with
    | bind ?m _ = Ok _ =>
        let x := fresh "x" in
        let E := fresh "E" in
        destruct m as [x|] eqn:E; cbn [bind] in H; [|discriminate H]
    end.

Lemma Ok_inj {A : Type} (a b : A) : Ok a = Ok b -> a = b.
Proof. congruence. Qed.

Lemma length_collect {A B : Type} (f : A -> exc B) (l : list A) :
  (List.length (collect f l) <= List.length l)%nat.
Proof.
  induction l as [|a l IH]; cbn; [lia|].
  destruct (f a); cbn; lia.
Qed.

Lemma collect_Forall {A B : Type} (f : A -> exc B) (P : B -> Prop)
  (l : list A) :
  (forall a b, f a = Ok b -> P b) -> Forall P (collect f l).
Proof.
  intros Hf. induction l as [|a l IH]; cbn; [constructor|].
  destruct (f a) as [b|] eqn:E; [|exact IH].
  constructor; [apply (Hf a), E | exact IH].
Qed.

Lemma sort_by_score_Forall (P : ViralVideo -> Prop) (l : list ViralVideo) :
  Forall P l -> Forall P (sort_by_score l).
Proof.
  apply Permutation_Forall, Permutation_sym, sort_by_score_perm.
Qed.

Lemma mock_Forall (P : ViralVideo -> Prop) (mk : Z -> ViralVideo) (n : Z) :
  (forall i, P (mk i)) -> Forall P (map mk (range n)).
Proof.
  intros H. apply Forall_forall. intros v Hv.
  apply in_map_iff in Hv as (i & <- & _). apply H.
Qed.

(** *** Each fetcher returns, with at most the count asked *)

Lemma fetch_youtube_returns (w : World) (n : Z) :
  exists l : list ViralVideo,
    fetch_youtube_viral_videos w n = Ok l /\
    ((0 <= n)%Z -> (Z.of_nat (List.length l) <= n)%Z).
Proof.
  unfold fetch_youtube_viral_videos.
  destruct (get_youtube_service w) as [service|].
  - destruct (youtube_videos_list w n) as [items|e]; cbn [bind].
    + eexists. split; [reflexivity|]. apply length_slice_to.
    + eexists. split; [reflexivity|]. rewrite length_youtube_mock. lia.
  - eexists. split; [reflexivity|]. rewrite length_youtube_mock. lia.
Qed.

Lemma fetch_tiktok_returns (w : World) (n : Z) :
  exists l : list ViralVideo,
    fetch_tiktok_viral_videos w n = Ok l /\
    ((0 <= n)%Z -> (Z.of_nat (List.length l) <= n)%Z).
Proof.
  exists (get_mock_tiktok_data w n). split; [reflexivity|].
  rewrite length_tiktok_mock. lia.
Qed.

Lemma fetch_twitter_returns (w : World) (n : Z) :
  exists l : list ViralVideo,
    fetch_twitter_viral_videos w n = Ok l /\
    ((0 <= n)%Z -> (Z.of_nat (List.length l) <= n)%Z).
Proof.
  unfold fetch_twitter_viral_videos.
  assert (Hmock : (0 <= n)%Z ->
            (Z.of_nat (List.length (_get_twitter_mock_data w n)) <= n)%Z)
    by (rewrite length_twitter_mock; lia).
  destruct (truthy (TWITTER_BEARER_TOKEN w)); cbn [negb];
    [|eexists; split; [reflexivity | exact Hmock]].
  destruct (tweepy_client w) as [client|]; cbn [bind try_except];
    [|eexists; split; [reflexivity | exact Hmock]].
  destruct (search_recent_tweets w (Z.min n 100)) as [tweets|];
    cbn [bind try_except];
    [|eexists; split; [reflexivity | exact Hmock]].
  destruct (data tweets) as [[|t ts]|];
    try (eexists; split; [reflexivity | exact Hmock]).
  eexists. split; [reflexivity|]. intros Hn.
  pose proof (length_collect (process_tweet w tweets) (slice_to (t :: ts) n)).
  pose proof (length_slice_to (t :: ts) n Hn). lia.
Qed.

(** *** An exception of the external service gives the fallback data *)

Lemma fetch_youtube_fallback (w : World) (n : Z) (e : PyError) :
  youtube_videos_list w n = Raise e ->
  fetch_youtube_viral_videos w n = Ok (_get_youtube_mock_data w n).
Proof.
  intros E. unfold fetch_youtube_viral_videos.
  destruct (get_youtube_service w); [|reflexivity].
  rewrite E. reflexivity.
Qed.

Lemma fetch_youtube_no_service (w : World) (n : Z) :
  get_youtube_service w = None ->
  fetch_youtube_viral_videos w n = Ok (_get_youtube_mock_data w n).
Proof. intros E. unfold fetch_youtube_viral_videos. rewrite E. reflexivity. Qed.

Lemma fetch_twitter_fallback (w : World) (n : Z) (e : PyError) :
  search_recent_tweets w (Z.min n 100) = Raise e ->
  fetch_twitter_viral_videos w n = Ok (_get_twitter_mock_data w n).
Proof.
  intros E. unfold fetch_twitter_viral_videos.
  destruct (truthy (TWITTER_BEARER_TOKEN w)); [|reflexivity].
  cbn [negb]. destruct (tweepy_client w); [|reflexivity].
  cbn [bind]. rewrite E. reflexivity.
Qed.

(** The Twitter fetcher also falls back when the search finds nothing. *)
Lemma fetch_twitter_empty (w : World) (n : Z) (tweets : TwitterResponse) :
  search_recent_tweets w (Z.min n 100) = Ok tweets ->
  data tweets = None \/ data tweets = Some [] ->
  fetch_twitter_viral_videos w n = Ok (_get_twitter_mock_data w n).
Proof.
  intros E Hdata. unfold fetch_twitter_viral_videos.
  destruct (truthy (TWITTER_BEARER_TOKEN w)); [|reflexivity].
  cbn [negb]. destruct (tweepy_client w); [|reflexivity].
  cbn [bind]. rewrite E. cbn [bind try_except].
  destruct Hdata as [-> | ->]; reflexivity.
Qed.

(** The YouTube fetcher does not: an answer without items gives the empty
    list. *)
Lemma fetch_youtube_empty (w : World) (n : Z) (service : unit) :
  get_youtube_service w = Some service ->
  youtube_videos_list w n = Ok [] ->
  fetch_youtube_viral_videos w n = Ok [].
Proof.
  intros Es E. unfold fetch_youtube_viral_videos. rewrite Es, E.
  cbn [bind collect sort_by_score fold_right]. f_equal. apply slice_to_nil.
Qed.

(** C6 at its failing input: the YouTube service is available and answers
    with no item, five videos are asked; the fetcher returns the empty
    list, not the five records of the fallback data.  The Twitter
    fetcher, in the same situation, returns its fallback data. *)
Theorem fetch_youtube_empty_answer_no_fallback :
  fetch_youtube_viral_videos (youtube_world []) 5 = Ok [] /\
  fetch_youtube_viral_videos (youtube_world []) 5
  <> Ok (_get_youtube_mock_data (youtube_world []) 5) /\
  List.length (_get_youtube_mock_data (youtube_world []) 5) = 5%nat /\
  fetch_twitter_viral_videos (twitter_world no_tweets) 5
  = Ok (_get_twitter_mock_data (twitter_world no_tweets) 5).
Proof.
  assert (E : fetch_youtube_viral_videos (youtube_world []) 5 = Ok [])
    by (apply fetch_youtube_empty with (service := tt); reflexivity).
  split; [exact E|]. split; [|split].
  - rewrite E. intros H. apply Ok_inj in H.
    apply (f_equal (@List.length ViralVideo)) in H.
    rewrite length_youtube_mock in H. discriminate.
  - apply length_youtube_mock.
  - apply fetch_twitter_empty with (tweets := no_tweets);
      [reflexivity | right; reflexivity].
Qed.

(** *** Platform, link and thumbnail of the records *)

Lemma prefix_empty (s : string) : prefix "" s = true.
Proof. destruct s; reflexivity. Qed.

Lemma prefix_app (n a b : string) :
  prefix n a = true -> prefix n (a ++ b) = true.
Proof.
  revert a. induction n as [|c n IH]; intros a; [intros _; apply prefix_empty|].
  destruct a as [|d a]; cbn; [discriminate|].
  destruct (ascii_dec c d); [apply IH | discriminate].
Qed.

Lemma contains_app_l (n a b : string) :
  contains n a = true -> contains n (a ++ b) = true.
Proof.
  induction a as [|c a IH].
  - destruct n; [|discriminate]. intros _. cbn [append].
    destruct b; reflexivity.
  - cbn [contains append]. intros H.
    apply orb_true_iff in H as [H | H]; apply orb_true_iff.
    + left. apply (prefix_app n (String c a) b H).
    + right. apply IH, H.
Qed.

Lemma contains_app_r (n a b : string) :
  contains n b = true -> contains n (a ++ b) = true.
Proof.
  intros H. induction a as [|c a IH]; [exact H|].
  cbn [contains append]. rewrite IH. apply orb_true_r.
Qed.

Lemma append_nonempty (a b : string) : a <> "" -> a ++ b <> "".
Proof. destruct a; [congruence | discriminate]. Qed.

Lemma thumbnail_nonempty (w : World) (p : Platform) (s : R) (t : string) :
  generate_platform_thumbnail w p s t <> "".
Proof.
  unfold generate_platform_thumbnail.
  destruct (platform_config p) as [[color icon] name].
  apply append_nonempty. discriminate.
Qed.

Lemma youtube_mock_linked (w : World) (i : Z) :
  platform (youtube_mock_video w i) = YOUTUBE /\
  well_linked (youtube_mock_video w i).
Proof.
  split; [reflexivity|]. unfold well_linked. cbn [youtube_mock_video
    thumbnail url platform url_shape].
  repeat split; try (apply append_nonempty; discriminate).
  apply contains_app_l. reflexivity.
Qed.

Lemma tiktok_mock_linked (w : World) (i : Z) :
  platform (tiktok_mock_video w i) = TIKTOK /\
  well_linked (tiktok_mock_video w i).
Proof.
  split; [reflexivity|]. unfold well_linked. cbn [tiktok_mock_video
    thumbnail url platform url_shape].
  repeat split.
  - apply thumbnail_nonempty.
  - apply append_nonempty. discriminate.
  - do 2 apply contains_app_r. apply contains_app_l. reflexivity.
Qed.

Lemma twitter_mock_linked (w : World) (i : Z) :
  platform (twitter_mock_video w i) = TWITTER /\
  well_linked (twitter_mock_video w i).
Proof.
  split; [reflexivity|]. unfold well_linked. cbn [twitter_mock_video
    thumbnail url platform url_shape].
  repeat split.
  - apply thumbnail_nonempty.
  - apply append_nonempty. discriminate.
  - do 2 apply contains_app_r. apply contains_app_l. reflexivity.
Qed.

Lemma process_tweet_linked (w : World) (tweets : TwitterResponse)
  (tweet : Tweet) (v : ViralVideo) :
  process_tweet w tweets tweet = Ok v ->
  platform v = TWITTER /\ well_linked v.
Proof.
  unfold process_tweet. intros H. bind_inv H. apply Ok_inj in H. subst v.
  split; [reflexivity|]. unfold well_linked. cbn [thumbnail url platform
    url_shape].
  repeat split.
  - apply thumbnail_nonempty.
  - apply append_nonempty. discriminate.
  - apply contains_app_l. reflexivity.
Qed.

(** A record of the live YouTube path has the platform and a link of the
    right shape; its thumbnail is the best one of the item, which is
    empty when the item has none. *)
Lemma process_youtube_item_linked (w : World) (item : YouTubeItem)
  (v : ViralVideo) :
  process_youtube_item w item = Ok v ->
  platform v = YOUTUBE /\ url v <> "" /\
  contains (url_shape YOUTUBE) (url v) = true /\
  exists sn, snippet item = Some sn /\
    thumbnail v = best_thumbnail (get_default (thumbnails sn) no_thumbnails).
Proof.
  unfold process_youtube_item. intros H.
  destruct (snippet item) as [sn|]; cbn [require bind] in H;
    [|discriminate].
  bind_inv H. apply Ok_inj in H. subst v.
  cbn [thumbnail url platform url_shape]. repeat split.
  - apply append_nonempty. discriminate.
  - apply contains_app_l. reflexivity.
  - exists sn. split; reflexivity.
Qed.

(** With a platform filter, every record a fetcher returns is of its
    platform. *)
Lemma fetch_youtube_platform (w : World) (n : Z) (l : list ViralVideo) :
  fetch_youtube_viral_videos w n = Ok l ->
  Forall (fun v => platform v = YOUTUBE) l.
Proof.
  unfold fetch_youtube_viral_videos.
  assert (Hmock : Forall (fun v => platform v = YOUTUBE)
                         (_get_youtube_mock_data w n))
    by (apply mock_Forall; intros i; reflexivity).
  destruct (get_youtube_service w); [|intros [= <-]; exact Hmock].
  destruct (youtube_videos_list w n) as [items|]; cbn [bind];
    intros [= <-]; [|exact Hmock].
  apply slice_to_Forall, sort_by_score_Forall, collect_Forall.
  intros item v Hv. apply (process_youtube_item_linked w item v Hv).
Qed.

Lemma fetch_tiktok_platform (w : World) (n : Z) (l : list ViralVideo) :
  fetch_tiktok_viral_videos w n = Ok l ->
  Forall (fun v => platform v = TIKTOK) l.
Proof.
  intros [= <-]. apply mock_Forall. intros i. reflexivity.
Qed.

Lemma fetch_twitter_platform (w : World) (n : Z) (l : list ViralVideo) :
  fetch_twitter_viral_videos w n = Ok l ->
  Forall (fun v => platform v = TWITTER) l.
Proof.
  unfold fetch_twitter_viral_videos.
  assert (Hmock : Forall (fun v => platform v = TWITTER)
                         (_get_twitter_mock_data w n))
    by (apply mock_Forall; intros i; reflexivity).
  destruct (truthy (TWITTER_BEARER_TOKEN w)); cbn [negb];
    [|intros [= <-]; exact Hmock].
  destruct (tweepy_client w); cbn [bind try_except];
    [|intros [= <-]; exact Hmock].
  destruct (search_recent_tweets w (Z.min n 100)) as [tweets|];
    cbn [bind try_except]; [|intros [= <-]; exact Hmock].
  destruct (data tweets) as [[|t ts]|]; intros [= <-]; try exact Hmock.
  apply collect_Forall. intros tweet v Hv.
  apply (process_tweet_linked w tweets tweet v Hv).
Qed.

(** The loop body returns on an item that has every key it reads, with a
    date, counts and a duration that parse, and a score within the range
    of floats. *)
Lemma process_youtube_item_returns (w : World) (item : YouTubeItem)
  (sn : Snippet) (st : Statistics) (cd : ContentDetails)
  (video_id published_text shown : string) (published views likes : Z)
  (score : R) :
  snippet item = Some sn ->
  statistics item = Some st ->
  contentDetails item = Some cd ->
  id item = Some video_id ->
  publishedAt sn = Some published_text ->
  fromisoformat w (replace_Z published_text) = Ok published ->
  count_of (viewCount st) = Ok views ->
  count_of (likeCount st) = Ok likes ->
  parse_duration (get_default (cd_duration cd) "") = Ok shown ->
  calculate_viral_score views likes ((utcnow w - published) / 86400)
  = Ok score ->
  exists v : ViralVideo, process_youtube_item w item = Ok v.
Proof.
  intros Esn Est Ecd Eid Ept Epub Ev El Ed Es. unfold process_youtube_item.
  rewrite Esn, Est, Ecd, Eid. cbn [require bind].
  rewrite Ept. cbn [require bind]. rewrite Epub, Ev, El. cbn [bind].
  rewrite Ed. cbn [bind]. rewrite Es. cbn [bind]. eexists. reflexivity.
Qed.

(** C8 at its failing input: the YouTube service answers with one item
    that has every key the fetcher reads but no thumbnails; the record
    returned for it has an empty thumbnail. *)
Theorem fetch_youtube_empty_thumbnail :
  exists v : ViralVideo,
    fetch_youtube_viral_videos (youtube_world [item_without_thumbnails]) 5
    = Ok [v] /\
    platform v = YOUTUBE /\
    url v = "https://www.youtube.com/watch?v=dQw4w9WgXcQ" /\
    thumbnail v = "".
Proof.
  set (w := youtube_world [item_without_thumbnails]).
  destruct (calculate_viral_score_range 1400000000 15000000
              ((utcnow w - 0) / 86400))
    as (score & Escore & _);
    [lia | lia | right; split; vm_compute; reflexivity |].
  destruct (process_youtube_item_returns w item_without_thumbnails
              _ _ _ _ _ "3:33" 0%Z 1400000000%Z 15000000%Z score
              eq_refl eq_refl eq_refl eq_refl eq_refl eq_refl eq_refl eq_refl
              eq_refl Escore)
    as [v Hv].
  exists v. split.
  - unfold fetch_youtube_viral_videos.
    change (get_youtube_service w) with (Some tt).
    change (youtube_videos_list w 5) with (Ok [item_without_thumbnails]).
    cbn [bind collect]. rewrite Hv. reflexivity.
  - unfold process_youtube_item, item_without_thumbnails in Hv.
    cbn [require bind snippet statistics contentDetails id publishedAt]
      in Hv.
    bind_inv Hv. apply Ok_inj in Hv. subst v. repeat split.
Qed.

End FetcherFacts.

(** ** The two handlers *)

Section HandlerFacts.

Import VideoAggregator Scenarios.
Open Scope string_scope.

(** On backend/server.py, without an advertising service, a request that
    filters on one of the three platforms gets records of that platform
    only. *)
Lemma server_filter_platform (w : World) (p : Platform) (limit : Z)
  (user : option User) (r : Server.VideoResponse) :
  In p [YOUTUBE; TIKTOK; TWITTER] ->
  advertising_service w = None ->
  Server.get_viral_videos w (Some p) limit user = Http200 r ->
  Forall (fun v => Model.platform v = p) (Server.resp_videos r).
Proof.
  intros Hp Hads. unfold Server.get_viral_videos, Server.serve,
    Server.videos_page.
  destruct (get_plan w (Server.tier_of user)) as [plan|]; cbn [bind];
    [|discriminate].
  unfold Server.with_ads. rewrite Hads.
  destruct Hp as [<- | [<- | [<- | []]]]; cbn [fetchers youtube_fetcher
    tiktok_fetcher twitter_fetcher].
  - destruct (fetch_youtube_viral_videos w _) as [l|] eqn:E; cbn [bind];
      [|discriminate].
    intros [= <-]. cbn [Server.resp_videos].
    apply (fetch_youtube_platform _ _ _ E).
  - destruct (fetch_tiktok_viral_videos w _) as [l|] eqn:E; cbn [bind];
      [|discriminate].
    intros [= <-]. cbn [Server.resp_videos].
    apply (fetch_tiktok_platform _ _ _ E).
  - destruct (fetch_twitter_viral_videos w _) as [l|] eqn:E; cbn [bind];
      [|discriminate].
    intros [= <-]. cbn [Server.resp_videos].
    apply (fetch_twitter_platform _ _ _ E).
Qed.

(** C7 at its failing input, on BULLETPROOF_SERVER.py: whatever the
    clock and the random draws, a request for two videos filtered on
    [youtube] is answered with status [success], the filter echoed, and a
    second record of platform [tiktok]. *)
Theorem bulletproof_ignores_platform_filter
  (now : Z) (iso : Z -> string) (tape : Random) (debug : option string) :
  let w := {| Bulletproof.utcnow := now;
              Bulletproof.isoformat := iso;
              Bulletproof.random := tape;
              Bulletproof.DEBUG := debug;
              Bulletproof.fault := None |} in
  exists (r : Bulletproof.Response) (v : Bulletproof.Video),
    Bulletproof.get_viral_videos w (Some "youtube") 2 = Http200 r /\
    Bulletproof.status r = "success" /\
    Bulletproof.platform_filter r = Some "youtube" /\
    nth_error (Bulletproof.videos r) 1 = Some v /\
    Bulletproof.platform v = "tiktok".
Proof.
  intros w. eexists. exists (Bulletproof.make_video w 1).
  split; [reflexivity|]. repeat split.
Qed.

(** C1, as the code has it.  On BULLETPROOF_SERVER.py the handler always
    answers with status 200, and when its [try] block raises the answer
    carries exactly the one hardcoded fallback video and the status
    [fallback_success].  On backend/server.py an exception of the [try]
    block is answered with HTTP 500, detail "Error fetching viral
    videos". *)
Theorem internal_error_responses :
  (forall (w : Bulletproof.World) (platform : option string) (limit : Z),
      exists r : Bulletproof.Response,
        Bulletproof.get_viral_videos w platform limit = Http200 r) /\
  (forall (w : Bulletproof.World) (platform : option string) (limit : Z)
          (e : PyError),
      Bulletproof.videos_page w platform limit = Raise e ->
      exists r : Bulletproof.Response,
        Bulletproof.get_viral_videos w platform limit = Http200 r /\
        Bulletproof.videos r = [Bulletproof.fallback_video w] /\
        Bulletproof.total r = 1%Z /\
        Bulletproof.status r = "fallback_success") /\
  (forall (f : Fetchers) (w : World) (platform : option Platform)
          (limit : Z) (user : option User) (e : PyError),
      Server.videos_page f w platform limit user = Raise e ->
      Server.serve f w platform limit user
      = HttpException 500 "Error fetching viral videos").
Proof.
  split; [|split].
  - intros w platform limit. unfold Bulletproof.get_viral_videos.
    destruct (Bulletproof.videos_page w platform limit); eexists;
      reflexivity.
  - intros w platform limit e E. unfold Bulletproof.get_viral_videos.
    rewrite E. eexists. repeat split.
  - intros f w platform limit user e E. unfold Server.serve.
    rewrite E. reflexivity.
Qed.

Lemma internal_error_responses_witness :
  (exists r : Bulletproof.Response,
      Bulletproof.get_viral_videos
        (bulletproof_world (Some (OtherError "out of memory")))
        (Some "youtube") 10 = Http200 r /\
      Bulletproof.videos r
      = [Bulletproof.fallback_video
           (bulletproof_world (Some (OtherError "out of memory")))] /\
      Bulletproof.total r = 1%Z /\
      Bulletproof.status r = "fallback_success") /\
  Server.serve (fetchers planless_world) planless_world None 10 None
  = HttpException 500 "Error fetching viral videos".
Proof.
  split.
  - apply (proj1 (proj2 internal_error_responses)
             (bulletproof_world (Some (OtherError "out of memory")))
             (Some "youtube") 10%Z (OtherError "out of memory")).
    reflexivity.
  - apply (proj2 (proj2 internal_error_responses)
             (fetchers planless_world) planless_world None 10%Z None
             (KeyError "free")).
    reflexivity.
Defined.

(** C1 refuted as stated, on backend/server.py.  When the plan lookup
    raises inside the handler the answer is HTTP 500.  When all three
    fetchers raise and no platform is asked for, the answer is a 200
    with no video at all, not with a fallback video. *)
Lemma server_error_is_500 :
  Server.get_viral_videos planless_world None 10 None
  = HttpException 500 "Error fetching viral videos" /\
  exists r : Server.VideoResponse,
    Server.serve fetchers_all_down quiet_world None 10 None = Http200 r /\
    Server.resp_videos r = [] /\ Server.resp_total r = 0%Z.
Proof.
  split; [reflexivity|]. eexists. repeat split.
Qed.

End HandlerFacts.

(** * Further properties of the code *)

(** ** The score *)

Section ScoreMore.

Import Score.
Open Scope R_scope.







(** X3.  A video published today (age 0, or a negative age for a date in
    the future) with ten views or more scores the full 100, whatever its
    likes: ten times the view term alone reaches the cap.  The age and
    the quotient [likes / views] are within the range of floats. *)
Theorem calculate_viral_score_fresh_saturates (views likes age : Z) :
  (10 <= views)%Z -> (0 <= likes < float_limit * views)%Z ->
  (- float_limit < age <= 0)%Z ->
  calculate_viral_score views likes age = Ok 100.
Proof.
  intros Hv [Hl Hq] [Hlow Hage].
  rewrite calculate_viral_score_pos by lia. f_equal.
  apply Rmin_right. unfold raw_score.
  assert (Hlog : 1 <= ln (IZR views) / ln 10).
  { rewrite <- log10_10. apply log10_mono; [lra | apply IZR_le; lia]. }
  assert (Hrec : 10 <= Rmax 1 (10 - IZR age * / 2)).
  { apply Rle_trans with (10 - IZR age * / 2); [|apply Rmax_r].
    apply IZR_le in Hage. lra. }
  assert (Heng : 0 <= IZR likes / IZR views * 100).
  { apply Rmult_le_pos; [|lra]. apply Rmult_le_pos.
    - apply IZR_le. lia.
    - left. apply Rinv_0_lt_compat. apply IZR_lt. lia. }
  nra.
Qed.

Lemma calculate_viral_score_fresh_saturates_witness :
  ((10 <= 10)%Z /\ (0 <= 0 < float_limit * 10)%Z /\
   (- float_limit < 0 <= 0)%Z) /\
  calculate_viral_score 10 0 0 = Ok 100.
Proof.
  split; [repeat split; (lia || (vm_compute; reflexivity))|].
  apply (calculate_viral_score_fresh_saturates 10%Z 0%Z 0%Z);
    repeat split; (lia || (vm_compute; reflexivity)).
Defined.

End ScoreMore.

(** ** Durations *)

Section DurationMore.

Import Duration Iso8601.
Open Scope string_scope.

(** Reading back what [str] wrote, within the digit limit. *)
Lemma int_of_str_of_Z (n : Z) :
  (0 <= n)%Z -> (String.length (str_of_Z n) <= max_str_digits)%nat ->
  int_of_str (str_of_Z n) = Ok n.
Proof.
  intros Hn Hlen.
  rewrite int_of_str_digits
    by (apply str_of_Z_digits || apply str_of_Z_nonempty; assumption).
  destruct (Nat.ltb_spec max_str_digits (String.length (str_of_Z n)));
    [lia|].
  apply digits_value_str_of_Z. assumption.
Qed.

Lemma string_app_assoc (a b c : string) : (a ++ b) ++ c = a ++ b ++ c.
Proof.
  induction a as [|x a IH]; cbn [append]; [reflexivity|].
  rewrite IH. reflexivity.
Qed.

Lemma span_digits_app (ds : string) (c : ascii) (rest : string) :
  all_digits ds = true -> is_digit c = false ->
  span_digits (ds ++ String c rest) = (ds, String c rest).
Proof.
  intros Hds Hc. induction ds as [|d ds IH]; cbn [append span_digits].
  - rewrite Hc. reflexivity.
  - cbn [all_digits] in Hds. apply andb_prop in Hds as [Hd Hds].
    rewrite Hd, (IH Hds). reflexivity.
Qed.

Lemma optional_group_present (u : ascii) (n : Z) (rest : string) :
  (0 <= n)%Z -> is_digit u = false ->
  optional_group u (str_of_Z n ++ String u rest) = (Some (str_of_Z n), rest).
Proof.
  intros Hn Hu. unfold optional_group.
  rewrite span_digits_app by (try apply str_of_Z_digits; assumption).
  pose proof (str_of_Z_nonempty n). destruct (str_of_Z n); [congruence|].
  rewrite Ascii.eqb_refl. reflexivity.
Qed.

Lemma optional_group_other (u c : ascii) (n : Z) (rest : string) :
  (0 <= n)%Z -> is_digit c = false -> Ascii.eqb c u = false ->
  optional_group u (str_of_Z n ++ String c rest)
  = (None, str_of_Z n ++ String c rest).
Proof.
  intros Hn Hc Hcu. unfold optional_group.
  rewrite span_digits_app by (try apply str_of_Z_digits; assumption).
  destruct (str_of_Z n); [reflexivity|]. rewrite Hcu. reflexivity.
Qed.

Lemma int_or_zero_str (n : Z) :
  (0 <= n)%Z -> (String.length (str_of_Z n) <= max_str_digits)%nat ->
  int_or_zero (Some (str_of_Z n)) = Ok n.
Proof.
  intros Hn Hlen. pose proof (int_of_str_of_Z n Hn Hlen) as H.
  pose proof (str_of_Z_nonempty n). unfold int_or_zero.
  destruct (str_of_Z n); [congruence | exact H].
Qed.

(** X4.  Round trip with the ISO 8601 durations of the YouTube API: a
    duration [PT#H#M#S] written from non-negative numbers, each part
    optional and of no more digits than [int] takes, is displayed as
    those hours, minutes and seconds (a part left out counting as 0). *)
Theorem parse_duration_iso_round_trip (h m s : option Z) :
  non_negative h -> non_negative m -> non_negative s ->
  within_str_digits h -> within_str_digits m -> within_str_digits s ->
  parse_duration (iso_duration h m s)
  = Ok (display (part_value h) (part_value m) (part_value s)).
Proof.
  intros Hh Hm Hs Lh Lm Ls. unfold parse_duration, iso_duration, re_match.
  cbn [append String.eqb Ascii.eqb Bool.eqb andb].
  destruct h as [h|], m as [m|], s as [s|];
    cbn [iso_part non_negative within_str_digits part_value] in *;
    rewrite ?string_app_assoc; cbn [append];
    repeat first
      [ rewrite optional_group_present by (assumption || reflexivity)
      | rewrite optional_group_other by (assumption || reflexivity) ];
    cbn [optional_group span_digits is_digit];
    rewrite ?int_or_zero_str by assumption;
    cbn [int_or_zero bind]; unfold display;
    repeat match goal with
      | |- context [(?x >? 0)%Z] => destruct (x >? 0)%Z
      end;
    reflexivity.
Qed.

Lemma parse_duration_iso_round_trip_witness :
  (non_negative None /\ non_negative (Some 3%Z) /\ non_negative (Some 33%Z)
   /\ within_str_digits None /\ within_str_digits (Some 3%Z)
   /\ within_str_digits (Some 33%Z)) /\
  parse_duration (iso_duration None (Some 3%Z) (Some 33%Z))
  = Ok (display (part_value None) (part_value (Some 3%Z))
          (part_value (Some 33%Z))).
Proof.
  split.
  - cbn [non_negative within_str_digits]. repeat split;
      first [lia | apply Nat.leb_le; vm_compute; reflexivity].
  - apply (parse_duration_iso_round_trip None (Some 3%Z) (Some 33%Z));
      cbn [non_negative within_str_digits];
      first [exact I | lia | apply Nat.leb_le; vm_compute; reflexivity].
Defined.

Example iso_duration_sample : iso_duration None (Some 3%Z) (Some 33%Z) = "PT3M33S".
Proof. reflexivity. Qed.

Example display_sample : display 0 3 33 = "3:33".
Proof. reflexivity. Qed.

End DurationMore.

(** ** The fetchers, further *)

Section FetcherMore.

Import Score Duration VideoAggregator Scenarios Expectations.
Open Scope string_scope.

Ltac unbind H :=
  repeat match type of H with
    | bind ?m _ = Ok _ =>
        let x := fresh "x" in
        let E := fresh "E" in
        destruct m as [x|] eqn:E; cbn [bind] in H; [|discriminate H]
    end.

Lemma collect_In {A B : Type} (f : A -> exc B) (l : list A) (b : B) :
  In b (collect f l) -> exists a, In a l /\ f a = Ok b.
Proof.
  induction l as [|a l IH]; cbn [collect]; [intros []|].
  destruct (f a) as [b'|] eqn:E.
  - intros [<- | H].
    + exists a. split; [left; reflexivity | exact E].
    + destruct (IH H) as (a' & Ha' & Ea'). exists a'. split; [right|]; auto.
  - intros H. destruct (IH H) as (a' & Ha' & Ea').
    exists a'. split; [right|]; auto.
Qed.

Lemma collect_app {A B : Type} (f : A -> exc B) (l1 l2 : list A) :
  collect f (l1 ++ l2)%list = (collect f l1 ++ collect f l2)%list.
Proof.
  induction l1 as [|a l1 IH]; cbn [collect app]; [reflexivity|].
  destruct (f a); cbn [app]; rewrite IH; reflexivity.
Qed.

Lemma well_linked_links_to (p : Platform) (v : ViralVideo) :
  platform v = p /\ well_linked v -> links_to p v.
Proof.
  intros (Hp & _ & Hu & Hc). unfold links_to. rewrite <- Hp. auto.
Qed.

Lemma fetch_youtube_links (w : World) (n : Z) (l : list ViralVideo) :
  fetch_youtube_viral_videos w n = Ok l -> Forall (links_to YOUTUBE) l.
Proof.
  unfold fetch_youtube_viral_videos.
  assert (Hmock : Forall (links_to YOUTUBE) (_get_youtube_mock_data w n)).
  { apply mock_Forall. intros i.
    apply well_linked_links_to, youtube_mock_linked. }
  destruct (get_youtube_service w); [|intros [= <-]; exact Hmock].
  destruct (youtube_videos_list w n) as [items|]; cbn [bind];
    intros [= <-]; [|exact Hmock].
  apply slice_to_Forall, sort_by_score_Forall, collect_Forall.
  intros item v Hv.
  destruct (process_youtube_item_linked w item v Hv) as (Hp & Hu & Hc & _).
  unfold links_to. auto.
Qed.

Lemma fetch_tiktok_links (w : World) (n : Z) (l : list ViralVideo) :
  fetch_tiktok_viral_videos w n = Ok l -> Forall (links_to TIKTOK) l.
Proof.
  intros [= <-]. apply mock_Forall. intros i.
  apply well_linked_links_to, tiktok_mock_linked.
Qed.

Lemma fetch_twitter_links (w : World) (n : Z) (l : list ViralVideo) :
  fetch_twitter_viral_videos w n = Ok l -> Forall (links_to TWITTER) l.
Proof.
  unfold fetch_twitter_viral_videos.
  assert (Hmock : Forall (links_to TWITTER) (_get_twitter_mock_data w n)).
  { apply mock_Forall. intros i.
    apply well_linked_links_to, twitter_mock_linked. }
  destruct (truthy (TWITTER_BEARER_TOKEN w)); cbn [negb];
    [|intros [= <-]; exact Hmock].
  destruct (tweepy_client w); cbn [bind try_except];
    [|intros [= <-]; exact Hmock].
  destruct (search_recent_tweets w (Z.min n 100)) as [tweets|];
    cbn [bind try_except]; [|intros [= <-]; exact Hmock].
  destruct (data tweets) as [[|t ts]|]; intros [= <-]; try exact Hmock.
  apply collect_Forall. intros tweet v Hv.
  apply well_linked_links_to, (process_tweet_linked w tweets tweet v Hv).
Qed.

(** X5.  Asked for a count [n >= 0], each of the three fetchers returns a
    list (it raises nothing, whatever the external services do) of at
    most [n] records. *)
Theorem fetchers_return_at_most (w : World) (n : Z) :
  (0 <= n)%Z ->
  (exists l, fetch_youtube_viral_videos w n = Ok l /\
             (Z.of_nat (List.length l) <= n)%Z) /\
  (exists l, fetch_tiktok_viral_videos w n = Ok l /\
             (Z.of_nat (List.length l) <= n)%Z) /\
  (exists l, fetch_twitter_viral_videos w n = Ok l /\
             (Z.of_nat (List.length l) <= n)%Z).
Proof.
  intros Hn.
  destruct (fetch_youtube_returns w n) as (l1 & E1 & H1).
  destruct (fetch_tiktok_returns w n) as (l2 & E2 & H2).
  destruct (fetch_twitter_returns w n) as (l3 & E3 & H3).
  repeat split; eexists; split; eauto.
Qed.

Lemma fetchers_return_at_most_witness :
  (0 <= 7)%Z /\
  (exists l, fetch_youtube_viral_videos (youtube_world [item_without_thumbnails]) 7
             = Ok l /\ (Z.of_nat (List.length l) <= 7)%Z) /\
  (exists l, fetch_tiktok_viral_videos (youtube_world [item_without_thumbnails]) 7
             = Ok l /\ (Z.of_nat (List.length l) <= 7)%Z) /\
  (exists l, fetch_twitter_viral_videos (youtube_world [item_without_thumbnails]) 7
             = Ok l /\ (Z.of_nat (List.length l) <= 7)%Z).
Proof.
  split; [lia|].
  apply (fetchers_return_at_most (youtube_world [item_without_thumbnails]) 7).
  lia.
Defined.

(** X6.  Whatever a fetcher returns, live or fallback, is of its own
    platform and carries a non-empty link of that platform's shape
    ([/watch?v=], [/video/], [/status/]). *)
Theorem fetchers_link_to_their_platform (w : World) (n : Z) :
  (exists l, fetch_youtube_viral_videos w n = Ok l /\
             Forall (links_to YOUTUBE) l) /\
  (exists l, fetch_tiktok_viral_videos w n = Ok l /\
             Forall (links_to TIKTOK) l) /\
  (exists l, fetch_twitter_viral_videos w n = Ok l /\
             Forall (links_to TWITTER) l).
Proof.
  destruct (fetch_youtube_returns w n) as (l1 & E1 & _).
  destruct (fetch_tiktok_returns w n) as (l2 & E2 & _).
  destruct (fetch_twitter_returns w n) as (l3 & E3 & _).
  repeat split; eexists; (split; [eassumption|]).
  - apply (fetch_youtube_links w n _ E1).
  - apply (fetch_tiktok_links w n _ E2).
  - apply (fetch_twitter_links w n _ E3).
Qed.

Lemma thumbnail_is_svg (w : World) (p : Platform) (s : R) (t : string) :
  prefix svg_data_uri (generate_platform_thumbnail w p s t) = true.
Proof.
  unfold generate_platform_thumbnail.
  destruct (platform_config p) as [[color icon] name].
  apply prefix_app. reflexivity.
Qed.

(** X7.  Thumbnails by platform: every record of the TikTok and of the
    Twitter fetcher, live or fallback, carries an inline SVG image (a
    [data:image/svg+xml] URI), and every record of the YouTube fallback
    data carries an image of [i.ytimg.com]. *)
Theorem thumbnails_by_platform (w : World) (n : Z) :
  (exists l, fetch_tiktok_viral_videos w n = Ok l /\
     Forall (fun v => prefix svg_data_uri (thumbnail v) = true) l) /\
  (exists l, fetch_twitter_viral_videos w n = Ok l /\
     Forall (fun v => prefix svg_data_uri (thumbnail v) = true) l) /\
  Forall (fun v => prefix "https://i.ytimg.com/vi/" (thumbnail v) = true)
         (_get_youtube_mock_data w n).
Proof.
  split; [|split].
  - eexists. split; [reflexivity|]. apply mock_Forall. intros i.
    apply thumbnail_is_svg.
  - destruct (fetch_twitter_returns w n) as (l & E & _).
    exists l. split; [exact E|]. revert E.
    unfold fetch_twitter_viral_videos.
    assert (Hmock : Forall (fun v => prefix svg_data_uri (thumbnail v) = true)
                           (_get_twitter_mock_data w n))
      by (apply mock_Forall; intros i; apply thumbnail_is_svg).
    destruct (truthy (TWITTER_BEARER_TOKEN w)); cbn [negb];
      [|intros [= <-]; exact Hmock].
    destruct (tweepy_client w); cbn [bind try_except];
      [|intros [= <-]; exact Hmock].
    destruct (search_recent_tweets w (Z.min n 100)) as [tweets|];
      cbn [bind try_except]; [|intros [= <-]; exact Hmock].
    destruct (data tweets) as [[|t ts]|]; intros [= <-]; try exact Hmock.
    apply collect_Forall. intros tweet v Hv.
    unfold process_tweet in Hv. unbind Hv. apply Ok_inj in Hv. subst v.
    apply thumbnail_is_svg.
  - apply mock_Forall. intros i. cbn [youtube_mock_video thumbnail].
    apply prefix_app. reflexivity.
Qed.

(** *** Which path a fetcher takes *)

Lemma get_youtube_service_none (w : World) :
  truthy (YOUTUBE_API_KEY w) = false \/ (exists e, youtube_build w = Raise e) ->
  get_youtube_service w = None.
Proof.
  unfold get_youtube_service. intros [-> | [e ->]]; [reflexivity|].
  destruct (truthy (YOUTUBE_API_KEY w)); reflexivity.
Qed.

(** X8.  The YouTube fetcher returns its fallback data, [n] records of
    it, as soon as the API key is missing or empty, the client cannot be
    built, or the request raises. *)
Theorem fetch_youtube_falls_back (w : World) (n : Z) :
  truthy (YOUTUBE_API_KEY w) = false
  \/ (exists e, youtube_build w = Raise e)
  \/ (exists e, youtube_videos_list w n = Raise e) ->
  fetch_youtube_viral_videos w n = Ok (_get_youtube_mock_data w n) /\
  List.length (_get_youtube_mock_data w n) = Z.to_nat n.
Proof.
  intros H. split; [|apply length_youtube_mock].
  destruct H as [H | [H | [e H]]].
  - apply fetch_youtube_no_service, get_youtube_service_none. auto.
  - apply fetch_youtube_no_service, get_youtube_service_none. auto.
  - apply fetch_youtube_fallback with (e := e). exact H.
Qed.

Lemma fetch_youtube_falls_back_witness :
  (truthy (YOUTUBE_API_KEY quiet_world) = false
   \/ (exists e, youtube_build quiet_world = Raise e)
   \/ (exists e, youtube_videos_list quiet_world 5 = Raise e)) /\
  fetch_youtube_viral_videos quiet_world 5
  = Ok (_get_youtube_mock_data quiet_world 5) /\
  List.length (_get_youtube_mock_data quiet_world 5) = Z.to_nat 5.
Proof.
  split; [left; reflexivity|].
  apply (fetch_youtube_falls_back quiet_world 5). left. reflexivity.
Defined.

(** X9.  The Twitter fetcher returns its fallback data, [n] records of
    it, as soon as the bearer token is missing or empty, tweepy cannot be
    loaded, the search raises, or the search finds no tweet. *)
Theorem fetch_twitter_falls_back (w : World) (n : Z) :
  truthy (TWITTER_BEARER_TOKEN w) = false
  \/ (exists e, tweepy_client w = Raise e)
  \/ (exists e, search_recent_tweets w (Z.min n 100) = Raise e)
  \/ (exists tweets, search_recent_tweets w (Z.min n 100) = Ok tweets /\
                     (data tweets = None \/ data tweets = Some [])) ->
  fetch_twitter_viral_videos w n = Ok (_get_twitter_mock_data w n) /\
  List.length (_get_twitter_mock_data w n) = Z.to_nat n.
Proof.
  intros H. split; [|apply length_twitter_mock].
  destruct H as [H | [[e H] | [[e H] | (tweets & H & Hd)]]].
  - unfold fetch_twitter_viral_videos. rewrite H. reflexivity.
  - unfold fetch_twitter_viral_videos.
    destruct (truthy (TWITTER_BEARER_TOKEN w)); [|reflexivity].
    cbn [negb]. rewrite H. reflexivity.
  - apply fetch_twitter_fallback with (e := e). exact H.
  - apply fetch_twitter_empty with (tweets := tweets); assumption.
Qed.

Lemma fetch_twitter_falls_back_witness :
  (truthy (TWITTER_BEARER_TOKEN (twitter_world no_tweets)) = false
   \/ (exists e, tweepy_client (twitter_world no_tweets) = Raise e)
   \/ (exists e,
         search_recent_tweets (twitter_world no_tweets) (Z.min 5 100) = Raise e)
   \/ (exists tweets,
         search_recent_tweets (twitter_world no_tweets) (Z.min 5 100)
         = Ok tweets /\
         (data tweets = None \/ data tweets = Some []))) /\
  fetch_twitter_viral_videos (twitter_world no_tweets) 5
  = Ok (_get_twitter_mock_data (twitter_world no_tweets) 5) /\
  List.length (_get_twitter_mock_data (twitter_world no_tweets) 5) = Z.to_nat 5.
Proof.
  assert (H : truthy (TWITTER_BEARER_TOKEN (twitter_world no_tweets)) = false
   \/ (exists e, tweepy_client (twitter_world no_tweets) = Raise e)
   \/ (exists e,
         search_recent_tweets (twitter_world no_tweets) (Z.min 5 100) = Raise e)
   \/ (exists tweets,
         search_recent_tweets (twitter_world no_tweets) (Z.min 5 100)
         = Ok tweets /\
         (data tweets = None \/ data tweets = Some []))).
  { right. right. right. exists no_tweets. split; [reflexivity|].
    right. reflexivity. }
  split; [exact H|].
  apply (fetch_twitter_falls_back (twitter_world no_tweets) 5 H).
Defined.

(** X10.  On the live path (the client is built and the request answers
    with [items]) the YouTube fetcher returns records sorted by score,
    larger first, no more of them than there are items, each one made
    from an item of the answer. *)
Theorem fetch_youtube_live_sorted (w : World) (n : Z)
  (items : list YouTubeItem) (service : unit) :
  get_youtube_service w = Some service ->
  youtube_videos_list w n = Ok items ->
  exists l : list ViralVideo,
    fetch_youtube_viral_videos w n = Ok l /\
    sorted_by_score_desc l /\
    (List.length l <= List.length items)%nat /\
    Forall (fun v => exists item,
                In item items /\ process_youtube_item w item = Ok v) l.
Proof.
  intros Es E. unfold fetch_youtube_viral_videos. rewrite Es, E.
  cbn [bind]. eexists. split; [reflexivity|]. split; [|split].
  - apply slice_to_sorted, sort_by_score_sorted.
  - pose proof (length_collect (process_youtube_item w) items) as Hc.
    rewrite <- length_sort_by_score in Hc.
    unfold slice_to. destruct (0 <=? n)%Z; rewrite length_firstn; lia.
  - apply slice_to_Forall, sort_by_score_Forall, Forall_forall.
    intros v Hv. apply collect_In in Hv. exact Hv.
Qed.

Lemma fetch_youtube_live_sorted_witness :
  (get_youtube_service (youtube_world [item_without_thumbnails]) = Some tt /\
   youtube_videos_list (youtube_world [item_without_thumbnails]) 5
   = Ok [item_without_thumbnails]) /\
  exists l : list ViralVideo,
    fetch_youtube_viral_videos (youtube_world [item_without_thumbnails]) 5
    = Ok l /\
    sorted_by_score_desc l /\
    (List.length l <= List.length [item_without_thumbnails])%nat /\
    Forall (fun v => exists item,
                In item [item_without_thumbnails] /\
                process_youtube_item
                  (youtube_world [item_without_thumbnails]) item = Ok v) l.
Proof.
  split; [split; reflexivity|].
  apply (fetch_youtube_live_sorted (youtube_world [item_without_thumbnails])
           5 [item_without_thumbnails] tt); reflexivity.
Defined.

Lemma process_youtube_item_lacking (w : World) (item : YouTubeItem) :
  lacks_a_key item -> exists e, process_youtube_item w item = Raise e.
Proof.
  unfold lacks_a_key, process_youtube_item. intros H.
  destruct (snippet item) as [sn|]; cbn [require bind];
    [|eexists; reflexivity].
  destruct (statistics item) as [st|]; cbn [require bind];
    [|eexists; reflexivity].
  destruct (contentDetails item) as [cd|]; cbn [require bind];
    [|eexists; reflexivity].
  destruct (id item) as [vid|]; cbn [require bind];
    [|eexists; reflexivity].
  destruct H as [H | [H | [H | H]]]; discriminate.
Qed.

(** X11.  An item of the YouTube answer without its [snippet],
    [statistics], [contentDetails] or [id] is skipped and nothing else
    changes: the fetcher returns what it returns for the answer without
    that item. *)
Theorem fetch_youtube_skips_item_lacking_key (w : World) (n : Z)
  (before : list YouTubeItem) (item : YouTubeItem)
  (after : list YouTubeItem) (service : unit) :
  get_youtube_service w = Some service ->
  youtube_videos_list w n = Ok (before ++ item :: after)%list ->
  lacks_a_key item ->
  fetch_youtube_viral_videos w n
  = Ok (slice_to
          (sort_by_score
             (collect (process_youtube_item w) (before ++ after)%list)) n).
Proof.
  intros Es E Hkey. unfold fetch_youtube_viral_videos. rewrite Es, E.
  cbn [bind]. rewrite !collect_app. cbn [collect].
  destruct (process_youtube_item_lacking w item Hkey) as [e ->].
  reflexivity.
Qed.

Lemma fetch_youtube_skips_item_lacking_key_witness :
  (get_youtube_service
     (youtube_world [item_without_snippet; item_without_thumbnails]) = Some tt /\
   youtube_videos_list
     (youtube_world [item_without_snippet; item_without_thumbnails]) 5
   = Ok ([] ++ item_without_snippet :: [item_without_thumbnails])%list /\
   lacks_a_key item_without_snippet) /\
  fetch_youtube_viral_videos
    (youtube_world [item_without_snippet; item_without_thumbnails]) 5
  = Ok (slice_to
          (sort_by_score
             (collect
                (process_youtube_item
                   (youtube_world [item_without_snippet; item_without_thumbnails]))
                ([] ++ [item_without_thumbnails])%list)) 5).
Proof.
  split; [repeat split; left; reflexivity|].
  apply (fetch_youtube_skips_item_lacking_key
           (youtube_world [item_without_snippet; item_without_thumbnails])
           5 [] item_without_snippet [item_without_thumbnails] tt);
    try reflexivity.
  left. reflexivity.
Defined.

Lemma length_append (a b : string) :
  String.length (a ++ b) = (String.length a + String.length b)%nat.
Proof.
  induction a as [|c a IH]; cbn [append String.length]; [reflexivity|].
  rewrite IH. reflexivity.
Qed.

Lemma length_substring_0 (m : nat) (s : string) :
  (String.length (substring 0 m s) <= m)%nat.
Proof.
  revert s. induction m as [|m IH]; intros [|c s]; cbn; try lia.
  specialize (IH s). lia.
Qed.

(** X12.  On the live path of the Twitter fetcher (token set, tweepy
    loaded, the search answers with at least one tweet) there are no more
    records than tweets, and every record has a score between 10 and 90
    and a title of at most 103 characters (100 of the text and the
    dots). *)
Theorem fetch_twitter_live_records (w : World) (n : Z)
  (tweets : TwitterResponse) (t : Tweet) (ts : list Tweet) (client : unit) :
  truthy (TWITTER_BEARER_TOKEN w) = true ->
  tweepy_client w = Ok client ->
  search_recent_tweets w (Z.min n 100) = Ok tweets ->
  data tweets = Some (t :: ts) ->
  exists l : list ViralVideo,
    fetch_twitter_viral_videos w n = Ok l /\
    (List.length l <= List.length (t :: ts))%nat /\
    Forall (fun v => (10 <= viral_score v <= 90)%R /\
                     (String.length (title v) <= 103)%nat) l.
Proof.
  intros Ht Ec Es Ed. unfold fetch_twitter_viral_videos.
  rewrite Ht. cbn [negb]. rewrite Ec. cbn [bind]. rewrite Es.
  cbn [bind try_except]. rewrite Ed.
  eexists. split; [reflexivity|]. split.
  - pose proof (length_collect (process_tweet w tweets) (slice_to (t :: ts) n)).
    assert (List.length (slice_to (t :: ts) n) <= List.length (t :: ts))%nat
      by (unfold slice_to; destruct (0 <=? n)%Z; rewrite length_firstn; lia).
    lia.
  - apply collect_Forall. intros tweet v Hv.
    unfold process_tweet in Hv. unbind Hv. apply Ok_inj in Hv. subst v.
    cbn [viral_score title]. split.
    + split.
      * apply Rmin_glb; [lra | apply Rmax_l].
      * apply Rmin_l.
    + destruct (Nat.ltb_spec 100 (String.length (text tweet))) as [Hl | Hs].
      * rewrite length_append.
        pose proof (length_substring_0 100 (text tweet)). cbn. lia.
      * lia.
Qed.

Lemma fetch_twitter_live_records_witness :
  (truthy (TWITTER_BEARER_TOKEN (twitter_world sample_answer)) = true /\
   tweepy_client (twitter_world sample_answer) = Ok tt /\
   search_recent_tweets (twitter_world sample_answer) (Z.min 5 100)
   = Ok sample_answer /\
   data sample_answer = Some [sample_tweet]) /\
  exists l : list ViralVideo,
    fetch_twitter_viral_videos (twitter_world sample_answer) 5 = Ok l /\
    (List.length l <= List.length [sample_tweet])%nat /\
    Forall (fun v => (10 <= viral_score v <= 90)%R /\
                     (String.length (title v) <= 103)%nat) l.
Proof.
  split; [repeat split|].
  apply (fetch_twitter_live_records (twitter_world sample_answer) 5
           sample_answer sample_tweet [] tt); reflexivity.
Defined.

End FetcherMore.

(** ** The aggregator and the handlers, further *)

Section HandlerMore.

Import VideoAggregator Scenarios Expectations.
Open Scope string_scope.

Lemma gather_returns (w : World) (n : Z) :
  exists l1 l2 l3 : list ViralVideo,
    gather (fetchers w) n = [Ok l1; Ok l2; Ok l3] /\
    fetch_youtube_viral_videos w n = Ok l1 /\
    fetch_tiktok_viral_videos w n = Ok l2 /\
    fetch_twitter_viral_videos w n = Ok l3.
Proof.
  destruct (fetch_youtube_returns w n) as (l1 & E1 & _).
  destruct (fetch_tiktok_returns w n) as (l2 & E2 & _).
  destruct (fetch_twitter_returns w n) as (l3 & E3 & _).
  exists l1, l2, l3. unfold gather, fetchers.
  cbn [youtube_fetcher tiktok_fetcher twitter_fetcher].
  rewrite E1, E2, E3. auto.
Qed.

(** X13.  Every record of the aggregated feed is of one of the three
    platforms and carries a non-empty link of that platform's shape. *)
Theorem aggregated_records_on_a_platform
  (w : World) (limit : Z) (user : option User) (L : Z) :
  tier_limit w limit user = Ok L ->
  exists out : list ViralVideo,
    get_aggregated_viral_videos w limit user = Ok out /\
    Forall on_a_platform out.
Proof.
  intros E. eexists. split; [apply aggregate_unfold, E|].
  apply slice_to_Forall, sort_by_score_Forall.
  destruct (gather_returns w (videos_per_platform L))
    as (l1 & l2 & l3 & -> & E1 & E2 & E3).
  cbn [extend_with_lists]. rewrite app_nil_r.
  apply Forall_app. split; [|apply Forall_app; split].
  - eapply Forall_impl; [|apply (fetch_youtube_links w _ _ E1)].
    intros v Hv. left. exact Hv.
  - eapply Forall_impl; [|apply (fetch_tiktok_links w _ _ E2)].
    intros v Hv. right. left. exact Hv.
  - eapply Forall_impl; [|apply (fetch_twitter_links w _ _ E3)].
    intros v Hv. right. right. exact Hv.
Qed.

Lemma aggregated_records_on_a_platform_witness :
  tier_limit quiet_world 10 None = Ok 10%Z /\
  exists out : list ViralVideo,
    get_aggregated_viral_videos quiet_world 10 None = Ok out /\
    Forall on_a_platform out.
Proof.
  split; [reflexivity|].
  apply (aggregated_records_on_a_platform quiet_world 10 None 10).
  reflexivity.
Defined.



Lemma tier_limit_of_plan (w : World) (limit : Z) (user : option User)
  (plan : SubscriptionPlan) :
  get_plan w (Server.tier_of user) = Ok plan ->
  exists L, tier_limit w limit user = Ok L.
Proof.
  intros E. unfold tier_limit. destruct user as [u|]; cbn [Server.tier_of] in E;
    rewrite E; cbn [bind].
  - destruct (max_videos_per_day plan >? 0)%Z; eexists; reflexivity.
  - eexists. reflexivity.
Qed.

Lemma videos_page_fetch (w : World) (platform : option Platform) (n : Z)
  (user : option User) (plan : SubscriptionPlan) :
  get_plan w (Server.tier_of user) = Ok plan ->
  exists l : list ViralVideo,
    match platform with
    | Some YOUTUBE => youtube_fetcher (fetchers w) n
    | Some TIKTOK => tiktok_fetcher (fetchers w) n
    | Some TWITTER => twitter_fetcher (fetchers w) n
    | Some (OTHER _) => Ok []
    | None => aggregate (fetchers w) w n user
    end = Ok l.
Proof.
  intros E. destruct platform as [[| | |name]|]; cbn [fetchers
    youtube_fetcher tiktok_fetcher twitter_fetcher].
  - destruct (fetch_youtube_returns w n) as (l & El & _). eauto.
  - destruct (fetch_tiktok_returns w n) as (l & El & _). eauto.
  - destruct (fetch_twitter_returns w n) as (l & El & _). eauto.
  - eauto.
  - destruct (tier_limit_of_plan w n user plan E) as [L EL].
    eexists. apply aggregate_unfold, EL.
Qed.

(** X15.  The handler of backend/server.py fails only on the plan
    lookup: when [get_plan] returns, the answer is a 200 whatever the
    platform asked for, the limit, and the behaviour of the external
    services and of the advertising service; when it raises, the answer
    is the 500. *)
Theorem server_fails_only_on_plan_lookup
  (w : World) (platform : option Platform) (limit : Z) (user : option User) :
  match get_plan w (Server.tier_of user) with
  | Ok _ =>
      exists r, Server.get_viral_videos w platform limit user = Http200 r
  | Raise _ =>
      Server.get_viral_videos w platform limit user
      = HttpException 500 "Error fetching viral videos"
  end.
Proof.
  destruct (get_plan w (Server.tier_of user)) as [plan|e] eqn:E.
  - unfold Server.get_viral_videos, Server.serve, Server.videos_page.
    rewrite E. cbn [bind].
    destruct (videos_page_fetch w platform
                (Z.min limit
                   (if (max_videos_per_day plan >? 0)%Z
                    then max_videos_per_day plan else limit))
                user plan E) as [l ->].
    cbn [bind]. eexists. reflexivity.
  - unfold Server.get_viral_videos, Server.serve, Server.videos_page.
    rewrite E. reflexivity.
Qed.

Lemma with_ads_none (w : World) (plan : SubscriptionPlan)
  (platform : option Platform) (user : option User)
  (videos : list ViralVideo) :
  has_ads plan = false \/ advertising_service w = None ->
  Server.with_ads w plan platform user videos = videos.
Proof.
  unfold Server.with_ads. intros [H | H].
  - destruct (advertising_service w); [|reflexivity].
    rewrite H. reflexivity.
  - rewrite H. reflexivity.
Qed.

(** X16.  The caps of the handler of backend/server.py.  For a limit
    [>= 0], when no ad is injected (a plan without ads, or no advertising
    service) and the caller is a user or the free plan has a positive
    cap, the answer is a 200 whose [total] counts its videos, is at most
    the limit asked, and is at most the daily cap of the plan when that
    cap is positive. *)
Theorem server_respects_limit_and_cap
  (w : World) (platform : option Platform) (limit : Z) (user : option User)
  (plan : SubscriptionPlan) :
  get_plan w (Server.tier_of user) = Ok plan ->
  has_ads plan = false \/ advertising_service w = None ->
  (0 <= limit)%Z ->
  (0 < max_videos_per_day plan)%Z \/ user <> None ->
  exists r : Server.VideoResponse,
    Server.get_viral_videos w platform limit user = Http200 r /\
    Server.resp_total r = Z.of_nat (List.length (Server.resp_videos r)) /\
    (Server.resp_total r <= limit)%Z /\
    ((0 < max_videos_per_day plan)%Z ->
     (Server.resp_total r <= max_videos_per_day plan)%Z).
Proof.
  intros E Hads Hlimit Hcap.
  unfold Server.get_viral_videos, Server.serve, Server.videos_page.
  rewrite E. cbn [bind].
  set (n := Z.min limit
              (if (max_videos_per_day plan >? 0)%Z
               then max_videos_per_day plan else limit)).
  assert (Hn : (0 <= n <= limit)%Z /\
               ((0 < max_videos_per_day plan)%Z ->
                (n <= max_videos_per_day plan)%Z)).
  { subst n. destruct (Z.gtb_spec (max_videos_per_day plan) 0); lia. }
  assert (Hfetch : exists l,
    match platform with
    | Some YOUTUBE => youtube_fetcher (fetchers w) n
    | Some TIKTOK => tiktok_fetcher (fetchers w) n
    | Some TWITTER => twitter_fetcher (fetchers w) n
    | Some (OTHER _) => Ok []
    | None => aggregate (fetchers w) w n user
    end = Ok l /\ (Z.of_nat (List.length l) <= n)%Z).
  { destruct platform as [[| | |name]|]; cbn [fetchers
      youtube_fetcher tiktok_fetcher twitter_fetcher].
    - destruct (fetch_youtube_returns w n) as (l & El & Hl). exists l.
      split; [exact El | apply Hl; lia].
    - destruct (fetch_tiktok_returns w n) as (l & El & Hl). exists l.
      split; [exact El | apply Hl; lia].
    - destruct (fetch_twitter_returns w n) as (l & El & Hl). exists l.
      split; [exact El | apply Hl; lia].
    - exists []. split; [reflexivity | cbn; lia].
    - assert (EL : tier_limit w n user = Ok n).
      { unfold tier_limit. destruct user as [u|]; cbn [Server.tier_of] in E;
          rewrite E; cbn [bind].
        - subst n. destruct (Z.gtb_spec (max_videos_per_day plan) 0);
            f_equal; lia.
        - destruct Hcap as [Hcap | Hcap]; [|congruence].
          f_equal. apply Z.min_l. apply Hn. exact Hcap. }
      eexists. split; [apply aggregate_unfold, EL|].
      apply length_slice_to. lia. }
  destruct Hfetch as (l & -> & Hl). cbn [bind].
  rewrite (with_ads_none w plan platform user l Hads).
  eexists. split; [reflexivity|].
  cbn [Server.resp_total Server.resp_videos].
  split; [reflexivity|]. split; [lia|]. intros Hpos.
  destruct Hn as [_ Hn]. specialize (Hn Hpos). lia.
Qed.

Lemma server_respects_limit_and_cap_witness :
  (get_plan quiet_world (Server.tier_of None)
   = Ok {| max_videos_per_day := 40; has_ads := true |} /\
   (has_ads {| max_videos_per_day := 40; has_ads := true |} = false
    \/ advertising_service quiet_world = None) /\
   (0 <= 100)%Z /\
   ((0 < max_videos_per_day {| max_videos_per_day := 40; has_ads := true |})%Z
    \/ @None User <> None)) /\
  exists r : Server.VideoResponse,
    Server.get_viral_videos quiet_world None 100 None = Http200 r /\
    Server.resp_total r = Z.of_nat (List.length (Server.resp_videos r)) /\
    (Server.resp_total r <= 100)%Z /\
    ((0 < max_videos_per_day {| max_videos_per_day := 40; has_ads := true |})%Z ->
     (Server.resp_total r
      <= max_videos_per_day {| max_videos_per_day := 40; has_ads := true |})%Z).
Proof.
  split.
  - split; [reflexivity|]. split; [right; reflexivity|].
    split; [lia | left; cbn; lia].
  - apply (server_respects_limit_and_cap quiet_world None 100 None
             {| max_videos_per_day := 40; has_ads := true |}).
    + reflexivity.
    + right. reflexivity.
    + lia.
    + left. cbn. lia.
Defined.

(** X17.  With a filter on one of the three platforms and a plan without
    ads, the handler of backend/server.py answers with records of that
    platform only, linked to it, even when an advertising service is
    there; the same holds for any plan when there is no advertising
    service. *)
Theorem server_filter_without_ads
  (w : World) (p : Platform) (limit : Z) (user : option User)
  (plan : SubscriptionPlan) :
  In p [YOUTUBE; TIKTOK; TWITTER] ->
  get_plan w (Server.tier_of user) = Ok plan ->
  has_ads plan = false \/ advertising_service w = None ->
  exists r : Server.VideoResponse,
    Server.get_viral_videos w (Some p) limit user = Http200 r /\
    Server.resp_platform r = Some p /\
    Forall (links_to p) (Server.resp_videos r).
Proof.
  intros Hp E Hads.
  unfold Server.get_viral_videos, Server.serve, Server.videos_page.
  rewrite E. cbn [bind].
  set (n := Z.min limit _).
  destruct Hp as [<- | [<- | [<- | []]]]; cbn [fetchers youtube_fetcher
    tiktok_fetcher twitter_fetcher].
  - destruct (fetch_youtube_returns w n) as (l & El & _). rewrite El.
    cbn [bind]. rewrite (with_ads_none w plan _ user l Hads).
    eexists. split; [reflexivity|]. split; [reflexivity|].
    apply (fetch_youtube_links w n l El).
  - destruct (fetch_tiktok_returns w n) as (l & El & _). rewrite El.
    cbn [bind]. rewrite (with_ads_none w plan _ user l Hads).
    eexists. split; [reflexivity|]. split; [reflexivity|].
    apply (fetch_tiktok_links w n l El).
  - destruct (fetch_twitter_returns w n) as (l & El & _). rewrite El.
    cbn [bind]. rewrite (with_ads_none w plan _ user l Hads).
    eexists. split; [reflexivity|]. split; [reflexivity|].
    apply (fetch_twitter_links w n l El).
Qed.

Lemma server_filter_without_ads_witness :
  (In TIKTOK [YOUTUBE; TIKTOK; TWITTER] /\
   get_plan ad_world (Server.tier_of (Some pro_user))
   = Ok {| max_videos_per_day := 100; has_ads := false |} /\
   (has_ads {| max_videos_per_day := 100; has_ads := false |} = false
    \/ advertising_service ad_world = None)) /\
  exists r : Server.VideoResponse,
    Server.get_viral_videos ad_world (Some TIKTOK) 5 (Some pro_user)
    = Http200 r /\
    Server.resp_platform r = Some TIKTOK /\
    Forall (links_to TIKTOK) (Server.resp_videos r).
Proof.
  split.
  - split; [right; left; reflexivity|]. split; [reflexivity|].
    left. reflexivity.
  - apply (server_filter_without_ads ad_world TIKTOK 5 (Some pro_user)
             {| max_videos_per_day := 100; has_ads := false |}).
    + right. left. reflexivity.
    + reflexivity.
    + left. reflexivity.
Defined.

(** *** BULLETPROOF_SERVER.py *)

Lemma nth_cycle_Forall {A : Type} (P : A -> Prop) (d : A) (l : list A)
  (i : Z) :
  l <> [] -> Forall P l -> P (cycle_get d l i).
Proof.
  intros Hne HP. unfold cycle_get.
  rewrite Forall_forall in HP. apply HP. apply nth_In.
  assert (0 < Z.of_nat (List.length l))%Z
    by (destruct l; [congruence | cbn [List.length]; lia]).
  pose proof (Z.mod_pos_bound i (Z.of_nat (List.length l)) ltac:(lia)).
  lia.
Qed.

(** X18.  The handler of BULLETPROOF_SERVER.py clamps the limit: for
    every limit, negative and huge ones included, a run without fault
    answers with exactly [min(max(limit, 1), 50)] videos, so between 1
    and 50, and [total] is that number. *)
Theorem bulletproof_clamps_limit
  (w : Bulletproof.World) (platform : option string) (limit : Z) :
  Bulletproof.fault w = None ->
  exists r : Bulletproof.Response,
    Bulletproof.get_viral_videos w platform limit = Http200 r /\
    Bulletproof.status r = "success" /\
    Bulletproof.total r = Z.min (Z.max limit 1) 50 /\
    Z.of_nat (List.length (Bulletproof.videos r)) = Bulletproof.total r /\
    (1 <= Bulletproof.total r <= 50)%Z.
Proof.
  intros Hf. unfold Bulletproof.get_viral_videos, Bulletproof.videos_page.
  rewrite Hf. eexists. split; [reflexivity|].
  cbn [Bulletproof.status Bulletproof.total Bulletproof.videos].
  rewrite length_map, length_range. repeat split; lia.
Qed.

Lemma bulletproof_clamps_limit_witness :
  Bulletproof.fault (bulletproof_world None) = None /\
  exists r : Bulletproof.Response,
    Bulletproof.get_viral_videos (bulletproof_world None) None (-3)
    = Http200 r /\
    Bulletproof.status r = "success" /\
    Bulletproof.total r = Z.min (Z.max (-3) 1) 50 /\
    Z.of_nat (List.length (Bulletproof.videos r)) = Bulletproof.total r /\
    (1 <= Bulletproof.total r <= 50)%Z.
Proof.
  split; [reflexivity|].
  apply (bulletproof_clamps_limit (bulletproof_world None) None (-3)).
  reflexivity.
Defined.

(** X19.  In every answer of BULLETPROOF_SERVER.py, fallback included,
    each record links to a YouTube video ([/watch?v=]) and carries the
    one fixed [i.ytimg.com] thumbnail, whatever platform it is labelled
    with; the label is one of [youtube], [tiktok], [twitter]. *)
Theorem bulletproof_records_link_to_youtube
  (w : Bulletproof.World) (platform : option string) (limit : Z) :
  exists r : Bulletproof.Response,
    Bulletproof.get_viral_videos w platform limit = Http200 r /\
    Forall (fun v =>
              contains "/watch?v=" (Bulletproof.url v) = true /\
              Bulletproof.thumbnail v = Bulletproof.guaranteed_thumbnail /\
              In (Bulletproof.platform v) Bulletproof.platforms /\
              Bulletproof.is_sponsored v = false)
           (Bulletproof.videos r).
Proof.
  unfold Bulletproof.get_viral_videos, Bulletproof.videos_page.
  destruct (Bulletproof.fault w) as [e|].
  - eexists. split; [reflexivity|].
    cbn [Bulletproof.videos Bulletproof.fallback_response].
    constructor; [|constructor].
    repeat split. left. reflexivity.
  - eexists. split; [reflexivity|]. cbn [Bulletproof.videos].
    apply Forall_forall. intros v Hv.
    apply in_map_iff in Hv as (i & <- & _).
    cbn [Bulletproof.make_video Bulletproof.url Bulletproof.thumbnail
         Bulletproof.platform Bulletproof.is_sponsored].
    repeat split.
    + apply (nth_cycle_Forall
               (fun u => contains "/watch?v=" u = true) ""
               Bulletproof.real_working_urls i); [discriminate|].
      repeat constructor.
    + apply (nth_cycle_Forall
               (fun p => In p Bulletproof.platforms) ""
               Bulletproof.platforms i); [discriminate|].
      apply Forall_forall. auto.
Qed.

End HandlerMore.

(** ** The TikTok service *)

Section TikTokFacts.

Import TikTokSvc.

(** X20.  The TikTok score never fails and stays in range: for
    non-negative views and engagement it lies in [0, 100], whether the
    timestamp converts or the default of the [except] clause is
    returned. *)
Theorem tiktok_score_bounded (c : Clock)
  (views likes shares comments create_time : Z) :
  (0 <= views)%Z -> (0 <= likes + shares + comments)%Z ->
  (0 <= calculate_viral_score c views likes shares comments create_time
   <= 100)%R.
Proof.
  intros Hv He. unfold calculate_viral_score.
  destruct (fromtimestamp c create_time) as [created|]; cbn [bind];
    [|lra].
  unfold log10. destruct (Z.leb_spec (Z.max views 1) 0) as [?|_]; [lia|].
  cbn [bind].
  assert (Hlog : (0 <= ln (IZR (Z.max views 1)) / ln 10)%R)
    by (apply log10_nonneg, IZR_le; lia).
  assert (Hrec : (/ 2 <= Rmax (/ 2)
                         (2 - IZR ((now c - created) / 86400) * / 10))%R)
    by apply Rmax_l.
  destruct (Z.gtb_spec views 0) as [Hpos | Hzero].
  - unfold truediv. destruct (Z.eqb_spec views 0) as [?|_]; [lia|].
    destruct (float_limit * Z.abs views
              <=? Z.abs (likes + shares + comments))%Z;
      cbn [bind]; [lra|].
    assert (Heng : (0 <= IZR (likes + shares + comments) / IZR views)%R).
    { apply Rmult_le_pos; [apply IZR_le; lia|].
      left. apply Rinv_0_lt_compat, IZR_lt. lia. }
    split; [|apply Rmin_r]. apply Rmin_glb; [|lra].
    apply Rmult_le_pos; [|lra]. nra.
  - cbn [bind]. split; [|apply Rmin_r]. apply Rmin_glb; [|lra].
    apply Rmult_le_pos; [|lra]. nra.
Qed.

Lemma tiktok_score_bounded_witness :
  ((0 <= 47300000)%Z /\ (0 <= 8200000 + 473000 + 236500)%Z) /\
  (0 <= calculate_viral_score steady_clock 47300000 8200000 473000 236500
          900000
   <= 100)%R.
Proof.
  split; [lia|].
  apply (tiktok_score_bounded steady_clock 47300000 8200000 473000 236500
           900000); lia.
Defined.



Lemma cycling_start (limit : Z) : cycling limit trending_patterns.
Proof.
  split; [discriminate|]. split; [|left; reflexivity].
  intros i Hi. cbn in Hi. rewrite Nat.mod_small by exact Hi. reflexivity.
Qed.

Lemma cycling_step (limit : Z) (l : list Pattern) :
  cycling limit l ->
  (Z.of_nat (List.length l) < limit)%Z ->
  cycling limit
    (l ++ slice_to l (Z.min (Z.of_nat (List.length l))
                            (limit - Z.of_nat (List.length l)))) /\
  (List.length l
   < List.length
       (l ++ slice_to l (Z.min (Z.of_nat (List.length l))
                               (limit - Z.of_nat (List.length l)))))%nat.
Proof.
  intros (Hne & Hcyc & Hlen) Hlt.
  destruct Hlen as [Hmod | ?]; [|lia].
  set (k := Z.min (Z.of_nat (List.length l))
                  (limit - Z.of_nat (List.length l))).
  assert (Hpos : (0 < List.length l)%nat)
    by (destruct l; [congruence | cbn; lia]).
  assert (Hk : (1 <= k <= Z.of_nat (List.length l))%Z) by (subst k; lia).
  assert (Hs : slice_to l k = firstn (Z.to_nat k) l).
  { unfold slice_to. destruct (Z.leb_spec 0 k); [reflexivity | lia]. }
  rewrite Hs, length_app, length_firstn.
  split; [|lia]. split; [|split].
  - destruct l; [congruence | discriminate].
  - intros i Hi. rewrite length_app, length_firstn in Hi.
    rewrite nth_error_app.
    destruct (Nat.ltb_spec i (List.length l)) as [Hil | Hil].
    + apply Hcyc. exact Hil.
    + rewrite nth_error_firstn.
      destruct (Nat.ltb_spec (i - List.length l) (Z.to_nat k)); [|lia].
      rewrite Hcyc by lia. f_equal.
      apply Nat.Div0.mod_divides in Hmod as [q Hq].
      replace i with (i - List.length l + q * 5)%nat at 2 by lia.
      symmetry. apply Nat.Div0.mod_add.
  - rewrite length_app, length_firstn.
    destruct (Z.le_ge_cases (Z.of_nat (List.length l))
                (limit - Z.of_nat (List.length l))) as [Hle | Hge].
    + left. replace (Z.to_nat k) with (List.length l) by (subst k; lia).
      rewrite Nat.min_l by lia.
      apply Nat.Div0.mod_divides in Hmod as [q Hq].
      apply Nat.Div0.mod_divides. exists (2 * q)%nat. lia.
    + right. subst k. lia.
Qed.

Lemma extend_patterns_done (limit : Z) (fuel : nat) (l : list Pattern) :
  cycling limit l ->
  (limit - Z.of_nat (List.length l) <= Z.of_nat fuel)%Z ->
  cycling limit (extend_patterns fuel l limit) /\
  (limit <= Z.of_nat (List.length (extend_patterns fuel l limit)))%Z.
Proof.
  revert l. induction fuel as [|fuel IH]; intros l Hl Hfuel;
    cbn [extend_patterns].
  - split; [exact Hl | lia].
  - destruct (Z.ltb_spec (Z.of_nat (List.length l)) limit) as [Hlt | Hge].
    + destruct (cycling_step limit l Hl Hlt) as [Hl' Hgrow].
      apply IH; [exact Hl' | lia].
    + split; [exact Hl | lia].
Qed.

(** X22.  The fallback rows of the TikTok service.  For a limit [>= 0]
    the [while] loop comes to its end, and the [for] loop then goes
    through exactly [limit] rows, the five patterns repeated in order:
    row [i] is pattern [i mod 5]. *)
Theorem fallback_patterns_cycle (limit : Z) :
  (0 <= limit)%Z ->
  loop_done (extend_patterns (Z.to_nat limit) trending_patterns limit) limit
  = true /\
  List.length (fallback_patterns limit) = Z.to_nat limit /\
  forall i, (i < Z.to_nat limit)%nat ->
            nth_error (fallback_patterns limit) i
            = nth_error trending_patterns (i mod 5).
Proof.
  intros Hlimit.
  destruct (extend_patterns_done limit (Z.to_nat limit) trending_patterns
              (cycling_start limit)) as ((_ & Hcyc & _) & Hlen);
    [cbn [List.length trending_patterns]; lia|].
  unfold loop_done, fallback_patterns, slice_to.
  destruct (Z.leb_spec 0 limit) as [_|?]; [|lia].
  split; [|split].
  - destruct (Z.ltb_spec
                (Z.of_nat (List.length
                   (extend_patterns (Z.to_nat limit) trending_patterns limit)))
                limit); [lia | reflexivity].
  - rewrite length_firstn. lia.
  - intros i Hi. rewrite nth_error_firstn.
    destruct (Nat.ltb_spec i (Z.to_nat limit)); [|lia].
    apply Hcyc. lia.
Qed.

Lemma fallback_patterns_cycle_witness :
  (0 <= 12)%Z /\
  loop_done (extend_patterns (Z.to_nat 12) trending_patterns 12) 12 = true /\
  List.length (fallback_patterns 12) = Z.to_nat 12 /\
  forall i, (i < Z.to_nat 12)%nat ->
            nth_error (fallback_patterns 12) i
            = nth_error trending_patterns (i mod 5).
Proof.
  split; [lia|]. apply (fallback_patterns_cycle 12). lia.
Defined.

End TikTokFacts.

(** ** Thumbnails of the live YouTube path *)

Section ThumbnailFacts.

Import VideoAggregator Scenarios Expectations.
Open Scope string_scope.

Lemma or_else_empty (x : option string) (y : string) :
  or_else x y = "" <-> truthy x = false /\ y = "".
Proof.
  destruct x as [[|c r]|]; cbn; split; try tauto; try discriminate.
  - intros [H _]. discriminate.
Qed.

Lemma best_thumbnail_empty (t : Thumbnails) :
  best_thumbnail t = "" <-> offers_no_thumbnail t.
Proof.
  unfold best_thumbnail, offers_no_thumbnail.
  rewrite !or_else_empty.
  assert (Hd : get_default (default t) "" = "" <-> truthy (default t) = false).
  { destruct (default t) as [[|c r]|]; cbn; split; congruence. }
  rewrite Hd. tauto.
Qed.

(** X23.  A record of the live YouTube path has an empty thumbnail exactly
    when its item offers none: when each of [maxresdefault], [standard],
    [high], [medium] and [default] is absent or has an empty [url] (the
    thumbnails as a whole may be absent too). *)
Theorem youtube_thumbnail_empty_iff (w : World) (item : YouTubeItem)
  (sn : Snippet) (v : ViralVideo) :
  snippet item = Some sn ->
  process_youtube_item w item = Ok v ->
  (thumbnail v = "" <->
   offers_no_thumbnail (get_default (thumbnails sn) no_thumbnails)).
Proof.
  intros Esn Hv.
  destruct (process_youtube_item_linked w item v Hv)
    as (_ & _ & _ & sn' & Esn' & ->).
  rewrite Esn in Esn'. injection Esn' as <-.
  apply best_thumbnail_empty.
Qed.

Lemma youtube_thumbnail_empty_iff_witness :
  (snippet item_without_thumbnails
   = Some {| sn_title := Some "Never Gonna Give You Up";
             channelTitle := Some "Rick Astley";
             publishedAt := Some "2009-10-25T06:57:33Z";
             thumbnails := None;
             sn_description := None |} /\
   process_youtube_item (youtube_world []) item_without_thumbnails
   = Ok (record_of (youtube_world []) item_without_thumbnails)) /\
  (thumbnail (record_of (youtube_world []) item_without_thumbnails) = "" <->
   offers_no_thumbnail (get_default None no_thumbnails)).
Proof.
  split; [split; reflexivity|].
  apply (youtube_thumbnail_empty_iff (youtube_world [])
           item_without_thumbnails
           {| sn_title := Some "Never Gonna Give You Up";
              channelTitle := Some "Rick Astley";
              publishedAt := Some "2009-10-25T06:57:33Z";
              thumbnails := None;
              sn_description := None |}
           (record_of (youtube_world []) item_without_thumbnails));
    reflexivity.
Defined.

End ThumbnailFacts.

(** ** Tweets without metrics *)

Section TwitterSkips.

Import VideoAggregator Scenarios Expectations.
Open Scope string_scope.

Lemma collect_all_raise {A B : Type} (f : A -> exc B) (l : list A) :
  Forall (fun a => exists e, f a = Raise e) l -> collect f l = [].
Proof.
  induction 1 as [|a l [e Ha] _ IH]; cbn [collect]; [reflexivity|].
  rewrite Ha. exact IH.
Qed.

(** X24.  On the live path of the Twitter fetcher a tweet without public
    metrics is skipped, and there is no second look at the result: when
    the search finds tweets but none of them has its metrics, the
    fetcher returns the empty list, not the fallback data. *)
Theorem fetch_twitter_all_skipped (w : World) (n : Z)
  (tweets : TwitterResponse) (t : Tweet) (ts : list Tweet) (client : unit) :
  truthy (TWITTER_BEARER_TOKEN w) = true ->
  tweepy_client w = Ok client ->
  search_recent_tweets w (Z.min n 100) = Ok tweets ->
  data tweets = Some (t :: ts) ->
  Forall (fun tweet => public_metrics tweet = None) (t :: ts) ->
  fetch_twitter_viral_videos w n = Ok [].
Proof.
  intros Ht Ec Es Ed Hall. unfold fetch_twitter_viral_videos.
  rewrite Ht. cbn [negb]. rewrite Ec. cbn [bind]. rewrite Es.
  cbn [bind try_except]. rewrite Ed. cbn [try_except]. f_equal.
  apply collect_all_raise, slice_to_Forall.
  eapply Forall_impl; [|exact Hall].
  intros tweet Hm. unfold process_tweet. rewrite Hm.
  eexists. reflexivity.
Qed.

Lemma fetch_twitter_all_skipped_witness :
  (truthy (TWITTER_BEARER_TOKEN (twitter_world bare_answer)) = true /\
   tweepy_client (twitter_world bare_answer) = Ok tt /\
   search_recent_tweets (twitter_world bare_answer) (Z.min 5 100)
   = Ok bare_answer /\
   data bare_answer = Some [tweet_without_metrics] /\
   Forall (fun tweet => public_metrics tweet = None) [tweet_without_metrics]) /\
  fetch_twitter_viral_videos (twitter_world bare_answer) 5 = Ok [].
Proof.
  split; [repeat split; repeat constructor|].
  apply (fetch_twitter_all_skipped (twitter_world bare_answer) 5
           bare_answer tweet_without_metrics [] tt);
    try reflexivity.
  repeat constructor.
Defined.

End TwitterSkips.
